(** * cs-quiz-ai2: a shallow embedding of [app.py]

    Part one holds the model: the Python string operations the program
    calls, the JSON values it handles, the response normalizer
    [parse_ai_response], the text extractor [extract_text_from_pdf], the quiz
    session [display_interactive_quiz], the history sidebar, the two
    generators and the script that calls them all. Part two holds the
    properties.

    Conventions.
    - A Python [str] is a [string]; a character is a code point below 256.
    - Python [None] and JSON [null] are the same value, [JNull].
    - JSON numbers are integers ([JInt]); non-integer literals are outside
      the model.
    - An exception is a value of [exn]; a computation that may raise returns
      a [res].
    - The libraries the program calls ([json], [json_repair], [pdfplumber],
      Streamlit, the model, [hashlib], [random]) are outside the repository:
      the two parsers, the model call and the digest are parameters, a
      document is given by what [pdfplumber] returns for it, and a run of
      the script takes the user's clicks and the numbers drawn as an input.
    - Message literals are given without their emoji and without the text
      of the exception they interpolate. *)

From stdpp Require Import gmap strings list pretty.
From Stdlib Require Import ZArith Ascii.

Local Open Scope Z_scope.

(** ** Python string operations *)

Section PyStr.

(** [len(s)] *)
Definition str_len (s : string) : Z := Z.of_nat (String.length s).

(** [sub in s] *)
Definition str_contains (sub s : string) : bool :=
  match String.index 0 sub s with
  | Some _ => true
  | None => false
  end.

(** [s.find(sub, start)] for [0 <= start]: the lowest index at or after
    [start] where [sub] occurs, [-1] when there is none. *)
Definition str_find (s sub : string) (start : Z) : Z :=
  match String.index (Z.to_nat start) sub s with
  | Some k => Z.of_nat k
  | None => -1
  end.

(** [s[start:stop]] for non-negative bounds (bounds past the end clamp). *)
Definition str_slice (s : string) (start stop : Z) : string :=
  String.substring (Z.to_nat start) (Z.to_nat (stop - start)) s.

(** [c.isspace()]: tab to carriage return, the four separators 28..31,
    space, next-line (133) and no-break space (160). *)
Definition isspace (c : ascii) : bool :=
  let n := nat_of_ascii c in
  ((9 <=? n) && (n <=? 13) || (28 <=? n) && (n <=? 32)
   || (n =? 133) || (n =? 160))%nat.

Fixpoint str_lstrip (s : string) : string :=
  match s with
  | EmptyString => EmptyString
  | String c s' => if isspace c then str_lstrip s' else s
  end.

Fixpoint str_rstrip (s : string) : string :=
  match s with
  | EmptyString => EmptyString
  | String c s' =>
      match str_rstrip s' with
      | EmptyString => if isspace c then EmptyString else String c EmptyString
      | r => String c r
      end
  end.

(** [s.strip()] *)
Definition str_strip (s : string) : string := str_lstrip (str_rstrip s).

(** Truthiness of a [str]. *)
Definition str_truthy (s : string) : bool :=
  match s with EmptyString => false | _ => true end.

End PyStr.

(** ** Exceptions and results *)

Inductive exn : Type :=
  | JSONDecodeError
  | AttributeError
  | TypeError
  | IndexError
  | RecursionError
  | Unmodelled.      (* input outside the modelled fragment *)

Inductive res (A : Type) : Type :=
  | Ok (a : A)
  | Raise (e : exn).
Arguments Ok {A} a.
Arguments Raise {A} e.

#[global] Instance res_ret : MRet res := λ A a, Ok a.
#[global] Instance res_bind : MBind res := λ A B k m,
  match m with
  | Ok a => k a
  | Raise e => Raise e
  end.

(** ** JSON values, as [json.loads] builds them *)

#[warnings="-register-all"]
Inductive json : Type :=
  | JNull
  | JBool (b : bool)
  | JInt (n : Z)
  | JStr (s : string)
  | JList (l : list json)
  | JDict (d : list (string * json)).   (* in insertion order *)

(** [key in d] *)
Fixpoint dict_has (key : string) (d : list (string * json)) : bool :=
  match d with
  | [] => false
  | (k, _) :: d' => if String.eqb k key then true else dict_has key d'
  end.

(** [d.get(key, default)] *)
Fixpoint dict_get (key : string) (default : json) (d : list (string * json)) : json :=
  match d with
  | [] => default
  | (k, v) :: d' => if String.eqb k key then v else dict_get key default d'
  end.

(** [d[key] = v]: a present key keeps its place, a new one goes last. *)
Fixpoint dict_set (key : string) (v : json) (d : list (string * json))
  : list (string * json) :=
  match d with
  | [] => [(key, v)]
  | (k, w) :: d' =>
      if String.eqb k key then (k, v) :: d' else (k, w) :: dict_set key v d'
  end.

(** [list(d.values())] *)
Definition dict_values (d : list (string * json)) : list json := d.*2.

(** ** Response normalizer: [parse_ai_response] (app.py, lines 113-141) *)

Definition FENCE_JSON : string := "```json".
Definition FENCE : string := "```".

(** The value returned on every failure path: [{"questions": []}]. *)
Definition EMPTY_QUIZ : json := JDict [("questions", JList [])].

(** Lines 115-127: the text handed to the JSON parser. *)
Definition extract_json_str (response_text : string) : string :=
  let json_str := str_strip response_text in
  if str_contains FENCE_JSON response_text then
    let start := str_find response_text FENCE_JSON 0 + 7 in
    let stop := str_find response_text FENCE start in
    let stop := if stop =? -1 then str_len response_text else stop in
    str_strip (str_slice response_text start stop)
  else if str_contains FENCE response_text then
    let start := str_find response_text FENCE 0 + 3 in
    let stop := str_find response_text FENCE start in
    let stop := if stop =? -1 then str_len response_text else stop in
    str_strip (str_slice response_text start stop)
  else json_str.

(** Lines 134-139: the shape normalisation of the parsed value. *)
Definition normalize_shape (parsed : json) : json :=
  match parsed with
  | JList l => JDict [("questions", JList l)]
  | JDict d =>
      if dict_has "questions" d then JDict d
      else JDict [("questions",
                   JList (match d with [] => [] | _ => dict_values d end))]
  | _ => EMPTY_QUIZ
  end.

Section Normalizer.

(** The two parsers are libraries outside the repository:
    [json_loads s] is [json.loads(s)] and [repair_json s] is
    [repair_json(s, return_objects=True)], each with the exception it
    may raise. *)
Variable json_loads : string → res json.
Variable repair_json : string → res json.

(** Lines 129-132: strict parse, lenient parse on [JSONDecodeError] only. *)
Definition parse_json_str (json_str : string) : res json :=
  match json_loads json_str with
  | Raise JSONDecodeError => repair_json json_str
  | r => r
  end.

(** The body of the outer [try]. *)
Definition parse_ai_response_body (response_text : string) : res json :=
  let json_str := extract_json_str response_text in
  parsed ← parse_json_str json_str;
  mret (normalize_shape parsed).

Definition parse_ai_response (response_text : string) : json :=
  match parse_ai_response_body response_text with
  | Ok result => result
  | Raise _ => EMPTY_QUIZ     (* except Exception *)
  end.

End Normalizer.

(** ** A strict JSON reader, for concrete runs

    [Normalizer] takes the parsers as parameters. To run the program on a
    concrete response, [StrictJson.loads] reads the JSON grammar the way
    [json.loads] does (white space, literals, integers, strings with the
    two-character escapes, arrays, objects, repeated keys keeping their
    first place and last value, trailing data refused). Float literals,
    [NaN], [Infinity] and [\u] escapes are outside the model and are
    reported as [Unmodelled]. *)

Module StrictJson.

Inductive scan (A : Type) : Type :=
  | Scanned (a : A) (rest : string)
  | Failed (e : exn).
Arguments Scanned {A} a rest.
Arguments Failed {A} e.

Definition scan_map {A B} (f : A → B) (r : scan A) : scan B :=
  match r with
  | Scanned a rest => Scanned (f a) rest
  | Failed e => Failed e
  end.

Definition DQUOTE : ascii := ascii_of_nat 34.

Definition is_ws (c : ascii) : bool :=
  let n := nat_of_ascii c in
  ((n =? 32) || (n =? 9) || (n =? 10) || (n =? 13))%nat.

Definition is_digit (c : ascii) : bool :=
  let n := nat_of_ascii c in ((48 <=? n) && (n <=? 57))%nat.

Definition digit_val (c : ascii) : Z := Z.of_nat (nat_of_ascii c) - 48.

Fixpoint skip_ws (s : string) : string :=
  match s with
  | String c s' => if is_ws c then skip_ws s' else s
  | EmptyString => EmptyString
  end.

Definition unescape (e : ascii) : option ascii :=
  if Ascii.eqb e DQUOTE then Some DQUOTE
  else if Ascii.eqb e "\" then Some "\"%char
  else if Ascii.eqb e "/" then Some "/"%char
  else if Ascii.eqb e "b" then Some (ascii_of_nat 8)
  else if Ascii.eqb e "f" then Some (ascii_of_nat 12)
  else if Ascii.eqb e "n" then Some (ascii_of_nat 10)
  else if Ascii.eqb e "r" then Some (ascii_of_nat 13)
  else if Ascii.eqb e "t" then Some (ascii_of_nat 9)
  else None.

(** The characters after an opening quote, up to the closing one. *)
Fixpoint scan_string (s : string) : scan string :=
  match s with
  | EmptyString => Failed JSONDecodeError
  | String c s' =>
      if Ascii.eqb c DQUOTE then Scanned EmptyString s'
      else if Ascii.eqb c "\" then
        match s' with
        | String e s'' =>
            match unescape e with
            | Some ch => scan_map (String ch) (scan_string s'')
            | None =>
                if Ascii.eqb e "u" then Failed Unmodelled
                else Failed JSONDecodeError
            end
        | EmptyString => Failed JSONDecodeError
        end
      else if (nat_of_ascii c <? 32)%nat then Failed JSONDecodeError
      else scan_map (String c) (scan_string s')
  end.

Fixpoint scan_digits (acc : Z) (s : string) : Z * string :=
  match s with
  | String c s' =>
      if is_digit c then scan_digits (10 * acc + digit_val c) s' else (acc, s)
  | EmptyString => (acc, s)
  end.

Definition starts_with_digit (s : string) : bool :=
  match s with String c _ => is_digit c | EmptyString => false end.

(** Does a fraction or an exponent follow the integer part? *)
Definition float_follows (s : string) : bool :=
  match s with
  | String c s' =>
      if Ascii.eqb c "." then starts_with_digit s'
      else if Ascii.eqb c "e" || Ascii.eqb c "E" then
        match s' with
        | String d s'' =>
            if Ascii.eqb d "+" || Ascii.eqb d "-" then starts_with_digit s''
            else is_digit d
        | EmptyString => false
        end
      else false
  | EmptyString => false
  end.

(** An optional minus sign, then [0] or a digit string with no leading
    zero; a float literal is not guessed at. *)
Definition scan_number (s : string) : scan json :=
  let '(neg, s1) :=
    match s with
    | String "-" s' => (true, s')
    | _ => (false, s)
    end in
  match s1 with
  | String c s2 =>
      if is_digit c then
        let '(n, rest) :=
          if Ascii.eqb c "0" then (0, s2) else scan_digits 0 s1 in
        if float_follows rest then Failed Unmodelled
        else Scanned (JInt (if neg then - n else n)) rest
      else if neg && String.prefix "Infinity" s1 then Failed Unmodelled
      else Failed JSONDecodeError
  | EmptyString => Failed JSONDecodeError
  end.

Fixpoint scan_value (fuel : nat) (s : string) : scan json :=
  match fuel with
  | O => Failed RecursionError
  | S fuel' =>
      match s with
      | EmptyString => Failed JSONDecodeError
      | String c s' =>
          if Ascii.eqb c DQUOTE then scan_map JStr (scan_string s')
          else if Ascii.eqb c "{" then
            match skip_ws s' with
            | String "}" r => Scanned (JDict []) r
            | s1 => scan_map JDict (scan_members fuel' [] s1)
            end
          else if Ascii.eqb c "[" then
            match skip_ws s' with
            | String "]" r => Scanned (JList []) r
            | s1 => scan_map JList (scan_elems fuel' [] s1)
            end
          else match s with
          | String "n" (String "u" (String "l" (String "l" r))) => Scanned JNull r
          | String "t" (String "r" (String "u" (String "e" r))) =>
              Scanned (JBool true) r
          | String "f" (String "a" (String "l" (String "s" (String "e" r)))) =>
              Scanned (JBool false) r
          | _ =>
              if String.prefix "NaN" s || String.prefix "Infinity" s
              then Failed Unmodelled
              else scan_number s
          end
      end
  end
with scan_elems (fuel : nat) (acc : list json) (s : string) : scan (list json) :=
  match fuel with
  | O => Failed RecursionError
  | S fuel' =>
      match scan_value fuel' s with
      | Failed e => Failed e
      | Scanned v rest =>
          match skip_ws rest with
          | String "]" r => Scanned (acc ++ [v]) r
          | String "," r => scan_elems fuel' (acc ++ [v]) (skip_ws r)
          | _ => Failed JSONDecodeError
          end
      end
  end
with scan_members (fuel : nat) (acc : list (string * json)) (s : string)
  : scan (list (string * json)) :=
  match fuel with
  | O => Failed RecursionError
  | S fuel' =>
      match s with
      | EmptyString => Failed JSONDecodeError
      | String c s1 =>
          if negb (Ascii.eqb c DQUOTE) then Failed JSONDecodeError
          else match scan_string s1 with
          | Failed e => Failed e
          | Scanned k rest =>
              match skip_ws rest with
              | String ":" r =>
                  match scan_value fuel' (skip_ws r) with
                  | Failed e => Failed e
                  | Scanned v rest' =>
                      match skip_ws rest' with
                      | String "}" r' => Scanned (dict_set k v acc) r'
                      | String "," r' =>
                          scan_members fuel' (dict_set k v acc) (skip_ws r')
                      | _ => Failed JSONDecodeError
                      end
                  end
              | _ => Failed JSONDecodeError
              end
          end
      end
  end.

(** [json.loads(s)] *)
Definition loads (s : string) : res json :=
  match scan_value (2 * String.length s + 2) (skip_ws s) with
  | Failed e => Raise e
  | Scanned v rest =>
      match skip_ws rest with
      | EmptyString => Ok v
      | _ => Raise JSONDecodeError
      end
  end.

(** A lenient parser that salvages nothing and returns the empty string, as
    [repair_json] does on the empty text. It stands in for the library in
    the concrete runs; the empty text is the only one they hand to it. *)
Definition repair_nothing (s : string) : res json := Ok (JStr EmptyString).

(** Writes a JSON text with ['] for the double quote. *)
Fixpoint jtext (s : string) : string :=
  match s with
  | EmptyString => EmptyString
  | String c s' => String (if Ascii.eqb c "'" then DQUOTE else c) (jtext s')
  end.

End StrictJson.

(** Markdown fencing of a payload: the marker on a line of its own, the
    payload, the closing marker on a line of its own. *)
Definition NL : string := String (ascii_of_nat 10) EmptyString.
Definition fence_json (p : string) : string :=
  FENCE_JSON +:+ NL +:+ p +:+ NL +:+ FENCE.
Definition fence_plain (p : string) : string :=
  FENCE +:+ NL +:+ p +:+ NL +:+ FENCE.

(** ** Python operations on JSON values *)

(** [a == b]. [bool] is a subclass of [int], so [True == 1]; a [dict]
    compares by keys, whatever their order. *)
Fixpoint py_eq (a b : json) : bool :=
  match a, b with
  | JNull, JNull => true
  | JBool x, JBool y => Bool.eqb x y
  | JBool x, JInt n => (if x then 1 else 0) =? n
  | JInt n, JBool y => n =? (if y then 1 else 0)
  | JInt n, JInt m => n =? m
  | JStr s, JStr t => String.eqb s t
  | JList l, JList m =>
      (fix all2 (l m : list json) : bool :=
         match l, m with
         | [], [] => true
         | x :: l', y :: m' => py_eq x y && all2 l' m'
         | _, _ => false
         end) l m
  | JDict d, JDict e =>
      (length d =? length e)%nat &&
      (fix sub (d : list (string * json)) : bool :=
         match d with
         | [] => true
         | (k, v) :: d' =>
             (fix find (e : list (string * json)) : bool :=
                match e with
                | [] => false
                | (k', w) :: e' => if String.eqb k' k then py_eq v w else find e'
                end) e && sub d'
         end) d
  | _, _ => false
  end.

(** [bool(v)] *)
Definition py_truthy (v : json) : bool :=
  match v with
  | JNull => false
  | JBool b => b
  | JInt n => negb (n =? 0)
  | JStr s => str_truthy s
  | JList l => match l with [] => false | _ => true end
  | JDict d => match d with [] => false | _ => true end
  end.

(** [len(v)] *)
Definition py_len (v : json) : res nat :=
  match v with
  | JStr s => Ok (String.length s)
  | JList l => Ok (length l)
  | JDict d => Ok (length d)
  | _ => Raise TypeError
  end.

Fixpoint str_chars (s : string) : list json :=
  match s with
  | EmptyString => []
  | String c s' => JStr (String c EmptyString) :: str_chars s'
  end.

(** The items [for q in v] visits. *)
Definition py_iter (v : json) : res (list json) :=
  match v with
  | JList l => Ok l
  | JStr s => Ok (str_chars s)
  | JDict d => Ok (JStr <$> d.*1)
  | _ => Raise TypeError
  end.

(** [v.get(key, default)]: only a [dict] has the method. *)
Definition py_get (v : json) (key : string) (default : json) : res json :=
  match v with
  | JDict d => Ok (dict_get key default d)
  | _ => Raise AttributeError
  end.

(** [x in l] for a list [l] *)
Definition list_contains (x : json) (l : list json) : bool :=
  existsb (py_eq x) l.

(** [l.index(x)] for a list [l] that holds [x]: the first position. *)
Fixpoint list_index (x : json) (l : list json) : nat :=
  match l with
  | [] => 0
  | y :: l' => if py_eq y x then 0 else S (list_index x l')
  end.

(** [x in container] *)
Definition py_in (x container : json) : res bool :=
  match container with
  | JList l => Ok (list_contains x l)
  | JStr s =>
      match x with
      | JStr t => Ok (str_contains t s)
      | _ => Raise TypeError
      end
  | JDict d =>
      match x with
      | JList _ | JDict _ => Raise TypeError      (* unhashable *)
      | JStr k => Ok (dict_has k d)
      | _ => Ok false
      end
  | _ => Raise TypeError
  end.

(** [container.index(x)], called when [x in container] held. *)
Definition py_index (x container : json) : res nat :=
  match container with
  | JList l => Ok (list_index x l)
  | JStr s =>
      match x with
      | JStr t => Ok (Z.to_nat (str_find s t 0))
      | _ => Raise TypeError
      end
  | _ => Raise AttributeError
  end.

(** ** Text extractor: [extract_text_from_pdf] (lines 100-111) *)

(** What [pdfplumber] makes of a document handle: opening it raises or gives
    the pages, and [page.extract_text()] raises or gives [None] or a text. *)
Definition pdf_page : Type := res (option string).
Definition pdf_document : Type := res (list pdf_page).

Definition MAX_TEXT : Z := 8000.

(** Lines 104-107: the loop over the pages, [text] being the accumulator. *)
Fixpoint read_pages (pages : list pdf_page) (text : string) : res string :=
  match pages with
  | [] => Ok text
  | page :: rest =>
      page_text ← page;
      read_pages rest
        (match page_text with
         | Some t => if str_truthy t then text +:+ (t +:+ NL) else text
         | None => text
         end)
  end.

Definition extract_text_from_pdf (pdf_file : pdf_document) : string :=
  match (pages ← pdf_file;
         text ← read_pages pages EmptyString;
         mret (str_slice text 0 MAX_TEXT)) with
  | Ok text => text
  | Raise _ => EmptyString       (* except Exception: st.error(...) *)
  end.

(** ** Session state and the page *)

(** An entry of the history log (lines 245-250). *)
Record attempt : Type := Attempt {
  a_type : string;
  a_topic : string;
  a_score : string;
  a_time : string;
}.

(** [st.session_state]. The keys the program builds are
    [f"{key_prefix}_user_answers"], [f"{key_prefix}_submitted"] and
    ["quiz_history"]; no two of them can be equal, so the state is kept as
    one map per suffix, keyed by [key_prefix]. *)
Record session_state : Type := Session {
  user_answers : gmap string (list json);
  submitted : gmap string bool;
  quiz_history : list attempt;
}.

(** What the page shows, one constructor per Streamlit call of the source,
    carrying the values the call interpolates. *)
Inductive ui_event : Type :=
  | st_error (msg : string)
  | st_warning (msg : string)
  | st_info (msg : string)
  | show_heading (i : nat) (difficulty : json)        (* line 215 *)
  | show_question (question : json)                   (* line 216 *)
  | show_radio (key : string) (options : list json) (index : nat)
  | st_divider
  | show_correct (i : nat)                            (* line 259 *)
  | show_incorrect (i : nat) (correct_ans : json)     (* line 262 *)
  | show_explanation (explanation : json)             (* line 263 *)
  | show_score (correct_count total : nat)            (* line 266 *)
  | st_balloons
  | show_history_line (score type topic : string).    (* line 278 *)

(** What the user and the clock contribute to one run of the script: the
    option picked in each radio widget (by widget key, if the user picked
    one), the button pressed, and [datetime.now().strftime("%H:%M")]. *)
Record ui_input : Type := UiInput {
  radio_pick : string → option nat;
  button_pressed : string → bool;
  clock : string;
}.

(** [st.radio("", options, key=key, index=index)]: the option the user
    picked, the one at [index] when the widget was not touched. *)
Definition st_radio (ui : ui_input) (key : string) (options : list json)
    (index : nat) : json :=
  match radio_pick ui key ≫= (options !!.) with
  | Some picked => picked
  | None => default JNull (options !! index)
  end.

(** ** A run of [display_interactive_quiz]: state and exceptions *)

(** The part of the state one call works on: the [user_answers] list of the
    instance (the list object itself is shared with the session, so what is
    written before an exception stays written), its [submitted] entry, the
    history log and the page. *)
Record run : Type := Run {
  answers : list json;
  is_submitted : option bool;
  history : list attempt;
  screen : list ui_event;
}.

Definition M (A : Type) : Type := run → res A * run.

#[global] Instance M_ret : MRet M := λ A a r, (Ok a, r).
#[global] Instance M_bind : MBind M := λ A B k m r,
  match m r with
  | (Ok a, r') => k a r'
  | (Raise e, r') => (Raise e, r')
  end.

Definition lift {A} (x : res A) : M A := λ r, (x, r).
Definition emit (e : ui_event) : M unit := λ r,
  (Ok (), Run (answers r) (is_submitted r) (history r) (screen r ++ [e])).

(** [user_answers[i]] *)
Definition get_answer (i : nat) : M json := λ r,
  match answers r !! i with
  | Some a => (Ok a, r)
  | None => (Raise IndexError, r)
  end.

(** [user_answers[i] = v] *)
Definition set_answer (i : nat) (v : json) : M unit := λ r,
  if decide (i < length (answers r))%nat
  then (Ok (), Run (<[i:=v]> (answers r)) (is_submitted r) (history r) (screen r))
  else (Raise IndexError, r).

Definition set_submitted (b : bool) : M unit := λ r,
  (Ok (), Run (answers r) (Some b) (history r) (screen r)).

(** [st.session_state.quiz_history.append(a)] *)
Definition history_append (a : attempt) (h : list attempt) : list attempt :=
  h ++ [a].

Definition append_history (a : attempt) : M unit := λ r,
  (Ok (), Run (answers r) (is_submitted r) (history_append a (history r)) (screen r)).

(** [for i, x in enumerate(l, i): body(i, x)] *)
Fixpoint for_each {A} (body : nat → A → M unit) (i : nat) (l : list A) : M unit :=
  match l with
  | [] => mret ()
  | x :: l' => body i x;; for_each body (S i) l'
  end.

(** ** Quiz session: [display_interactive_quiz] (lines 200-268) *)

Definition TF_OPTIONS : list json := [JStr "True"; JStr "False"].

(** A call of [st.radio]: the widget is shown and its value returned.
    Streamlit's treatment of options that are not a list is not modelled. *)
Definition radio (ui : ui_input) (key : string) (options : json) (index : nat)
  : M json :=
  match options with
  | JList l => emit (show_radio key l index);; mret (st_radio ui key l index)
  | _ => lift (Raise Unmodelled)
  end.

(** Line 218: [f"{key_prefix}_q{i}"] *)
Definition unique_key (key_prefix : string) (i : nat) : string :=
  key_prefix +:+ "_q" +:+ pretty i.

(** Lines 215-232: the body of the rendering loop, for [1 <= i] (the loop
    counts from 1, and [user_answers[i-1]] is the slot of question [i]). *)
Definition render_question (ui : ui_input) (key_prefix : string)
    (i : nat) (q : json) : M unit :=
  difficulty ← lift (py_get q "difficulty" (JStr "N/A"));
  emit (show_heading i difficulty);;
  question ← lift (py_get q "question" (JStr "N/A"));
  emit (show_question question);;
  let unique_key := unique_key key_prefix i in
  options ← lift (py_get q "options" (JList []));
  type ← lift (py_get q "type" JNull);
  is_mcq ← (if py_eq type (JStr "MCQ")
            then n ← lift (py_len options); mret (n =? 4)%nat
            else mret false);
  (if is_mcq : bool then
     current ← get_answer (i - 1);
     found ← lift (py_in current options);
     index ← (if found : bool
              then k ← lift (py_index current options); mret (Some k)
              else mret None);
     selected ← radio ui unique_key options (default 0%nat index);
     set_answer (i - 1) selected
   else
     type ← lift (py_get q "type" JNull);
     if py_eq type (JStr "True/False") then
       stored ← get_answer (i - 1);
       let current :=
         if list_contains stored TF_OPTIONS then stored else JStr "True" in
       selected ← radio ui unique_key (JList TF_OPTIONS)
                    (if py_eq current (JStr "True") then 0 else 1)%nat;
       set_answer (i - 1) selected
     else mret ());;
  emit st_divider.

(** Lines 237-242: the scoring loop at submission. *)
Fixpoint count_correct (i : nat) (questions : list json) (correct_count : nat)
  : M nat :=
  match questions with
  | [] => mret correct_count
  | q :: rest =>
      user_ans ← get_answer (i - 1);
      correct_ans ← lift (py_get q "answer" (JStr ""));
      count_correct (S i) rest
        (if py_eq user_ans correct_ans then S correct_count else correct_count)
  end.

(** Lines 253-264: the feedback loop of a submitted quiz. *)
Fixpoint show_feedback (i : nat) (questions : list json) (correct_count : nat)
  : M nat :=
  match questions with
  | [] => mret correct_count
  | q :: rest =>
      user_ans ← get_answer (i - 1);
      correct_ans ← lift (py_get q "answer" (JStr ""));
      let is_correct := py_eq user_ans correct_ans in
      (if is_correct then emit (show_correct i)
       else emit (show_incorrect i correct_ans));;
      explanation ← lift (py_get q "explanation" (JStr "N/A"));
      emit (show_explanation explanation);;
      emit st_divider;;
      show_feedback (S i) rest
        (if is_correct then S correct_count else correct_count)
  end.

(** [f"{correct_count}/{len(questions)}"] *)
Definition score_str (correct_count total : nat) : string :=
  pretty correct_count +:+ "/" +:+ pretty total.

(** Lines 234-250: the submit button and what pressing it does. *)
Definition on_submit (ui : ui_input) (questions : json) (qs : list json)
    (key_prefix topic quiz_type : string) : M unit :=
  if button_pressed ui (key_prefix +:+ "_submit") then
    set_submitted true;;
    correct_count ← count_correct 1 qs 0;
    total ← lift (py_len questions);
    append_history
      (Attempt quiz_type topic (score_str correct_count total) (clock ui))
  else mret ().

(** Lines 252-268: the feedback of a submitted quiz. *)
Definition show_results (questions : json) (qs : list json) : M unit :=
  r ← (λ r, (Ok r, r));
  if default false (is_submitted r) then
    correct_count ← show_feedback 1 qs 0;
    total ← lift (py_len questions);
    emit (show_score correct_count total);;
    if (correct_count =? total)%nat then emit st_balloons else mret ()
  else mret ().

(** Lines 214-268, once [user_answers] is bound. *)
Definition quiz_body (ui : ui_input) (questions : json)
    (key_prefix topic quiz_type : string) : M unit :=
  qs ← lift (py_iter questions);
  for_each (render_question ui key_prefix) 1 qs;;
  on_submit ui questions qs key_prefix topic quiz_type;;
  show_results questions qs.

Definition display_interactive_quiz (ui : ui_input) (quiz_data : json)
    (key_prefix topic quiz_type : string) (s : session_state)
  : res unit * session_state * list ui_event :=
  match quiz_data with
  | JDict d =>
      let questions := dict_get "questions" (JList []) d in
      if negb (py_truthy questions)
      then (Ok (), s, [st_warning "No questions generated."])
      else
        let bound :=
          match user_answers s !! key_prefix with
          | Some ua => Ok ua
          | None => n ← py_len questions; mret (replicate n JNull)
          end in
        match bound with
        | Raise e => (Raise e, s, [])
        | Ok ua =>
            let '(result, r) :=
              quiz_body ui questions key_prefix topic quiz_type
                (Run ua (submitted s !! key_prefix) (quiz_history s) []) in
            (result,
             Session (<[key_prefix := answers r]> (user_answers s))
                     (match is_submitted r with
                      | Some b => <[key_prefix := b]> (submitted s)
                      | None => submitted s
                      end)
                     (history r),
             screen r)
        end
  | _ => (Ok (), s, [st_error "Quiz data error."])
  end.

(** ** History sidebar (lines 273-283) *)

(** [l[start:]] *)
Definition slice_from {A} (l : list A) (start : Z) : list A :=
  drop (Z.to_nat (if start <? 0 then Z.max (Z.of_nat (length l) + start) 0
                  else start)) l.

(** [reversed(quiz_history[-n:])] *)
Definition list_recent (n : Z) (h : list attempt) : list attempt :=
  reverse (slice_from h (- n)).

(** [st.session_state.quiz_history = []] *)
Definition history_clear (s : session_state) : session_state :=
  Session (user_answers s) (submitted s) [].

(** Line 278: the line shown for one entry. *)
Definition history_line (entry : attempt) : ui_event :=
  show_history_line (a_score entry) (a_type entry)
    (str_slice (a_topic entry) 0 30).

(** One pass over the sidebar: the new state, what is shown, and whether
    [st.rerun()] was called. *)
Definition sidebar (ui : ui_input) (s : session_state)
  : session_state * list ui_event * bool :=
  match quiz_history s with
  | [] => (s, [st_info "No attempts yet."], false)
  | _ =>
      let lines := history_line <$> list_recent 5 (quiz_history s) in
      if button_pressed ui "Clear"
      then (history_clear s, lines, true)
      else (s, lines, false)
  end.

(** ** Vocabulary of the statements *)

(** The value under ["questions"] of a result. *)
Definition questions_of (v : json) : json :=
  match v with
  | JDict d => dict_get "questions" JNull d
  | _ => JNull
  end.

Definition is_list (v : json) : bool :=
  match v with JList _ => true | _ => false end.

(** What one page adds to the extracted text. *)
Definition page_contribution (page_text : option string) : string :=
  match page_text with
  | Some t => if str_truthy t then t +:+ NL else EmptyString
  | None => EmptyString
  end.

Fixpoint str_concat (l : list string) : string :=
  match l with
  | [] => EmptyString
  | s :: l' => s +:+ str_concat l'
  end.

Definition page_raises (page : pdf_page) : bool :=
  match page with Raise _ => true | Ok _ => false end.

(** Opening the document or extracting one of its pages raises. *)
Definition pdf_raises (pdf_file : pdf_document) : bool :=
  match pdf_file with
  | Raise _ => true
  | Ok pages => existsb page_raises pages
  end.

(** The canonical answer of a question. *)
Definition answer_of (q : json) : json :=
  match q with
  | JDict d => dict_get "answer" (JStr "") d
  | _ => JStr ""
  end.

(** [user_ans == correct_ans], the test of both scoring loops. *)
Definition is_correct (user_ans q : json) : bool := py_eq user_ans (answer_of q).

(** The number of questions whose stored answer equals the canonical one. *)
Definition tally (ua qs : list json) : nat :=
  length (filter (λ aq, is_correct aq.1 aq.2 = true) (zip ua qs)).

(** A question the rendering loop can show: a JSON object whose options,
    when its type is MCQ, are a list. *)
Definition well_formed_question (q : json) : bool :=
  match q with
  | JDict d =>
      if py_eq (dict_get "type" JNull d) (JStr "MCQ")
      then is_list (dict_get "options" (JList []) d)
      else true
  | _ => false
  end.

(** What one pass of the rendering loop may change: the answer at one
    position and the page, where every radio widget added carries [key]. *)
Definition renders_at (key : string) (pos : nat) (r r' : run) : Prop :=
  is_submitted r' = is_submitted r
  ∧ history r' = history r
  ∧ length (answers r') = length (answers r)
  ∧ (∀ j, j ≠ pos → answers r' !! j = answers r !! j)
  ∧ ∃ evs, screen r' = screen r ++ evs
           ∧ ∀ k opts idx, show_radio k opts idx ∈ evs → k = key.

(** What a step added to the page. *)
Definition new_events (r r' : run) : list ui_event :=
  drop (length (screen r)) (screen r').

Definition is_dict (v : json) : bool :=
  match v with JDict _ => true | _ => false end.

(** ** Concrete inputs, for the runs shown with the theorems *)

(** The question of the first end-to-end scenario, and its response text. *)
Definition q_sum : json :=
  JDict [("type", JStr "MCQ"); ("question", JStr "2+2?");
         ("options", JList [JStr "A) 3"; JStr "B) 4"; JStr "C) 5"; JStr "D) 6"]);
         ("answer", JStr "B) 4"); ("difficulty", JStr "Easy");
         ("explanation", JStr "2+2=4")].

Definition response_sum : string :=
  fence_json (StrictJson.jtext
    ("{'questions':[{'type':'MCQ','question':'2+2?'," +:+
     "'options':['A) 3','B) 4','C) 5','D) 6'],'answer':'B) 4'," +:+
     "'difficulty':'Easy','explanation':'2+2=4'}]}")).

(** An MCQ question with a single option, and a True/False question with
    three options. *)
Definition d_short_mcq : list (string * json) :=
  [("type", JStr "MCQ"); ("question", JStr "Pick one");
   ("options", JList [JStr "A) only"]); ("answer", JStr "A) only")].

Definition d_true_false_3 : list (string * json) :=
  [("type", JStr "True/False"); ("question", JStr "Is it?");
   ("options", JList [JStr "Yes"; JStr "No"; JStr "Maybe"]);
   ("answer", JStr "True")].

Definition quiz_of (qs : list json) : list (string * json) :=
  [("questions", JList qs)].

Definition fresh_session : session_state := Session ∅ ∅ [].

(** A user who touches no widget and presses nothing. *)
Definition ui_idle : ui_input := UiInput (λ _, None) (λ _, false) "12:00".

(** A user who picks option [choice] of the first question of the "auto"
    quiz and presses its submit button. *)
Definition ui_submit (choice : option nat) : ui_input :=
  UiInput (λ key, if String.eqb key "auto_q1" then choice else None)
          (λ key, String.eqb key "auto_submit") "12:00".

(** No radio widget among the events. *)
Definition no_radio (evs : list ui_event) : Prop :=
  ∀ k opts idx, show_radio k opts idx ∉ evs.

(** ** Further vocabulary *)

(** The text up to the first fence marker (all of it when there is none). *)
Definition before_fence (s : string) : string :=
  match String.index 0 FENCE s with
  | Some k => String.substring 0 k s
  | None => s
  end.

(** [c in s] for a character. *)
Fixpoint has_char (c : ascii) (s : string) : bool :=
  match s with
  | EmptyString => false
  | String a s' => Ascii.eqb a c || has_char c s'
  end.

Definition BACKTICK : ascii := "`".

(** ** Quiz generation: [generate_quiz_from_text], [generate_quiz_from_topic]
    (lines 143-198) *)

(** What is asked of the generative model. The two prompts are fixed
    templates around the text or the topic, so a request is given by its
    kind and that string. *)
Inductive request : Type :=
  | FromText (text : string)
  | FromTopic (topic : string).

Section Generation.

(** [model_generate req] is [model.generate_content(prompt, ...)] followed by
    [response.text]: the response text, or the exception either raises. *)
Variable model_generate : request → res string.
Variable json_loads : string → res json.
Variable repair_json : string → res json.

(** The quiz, and the message shown (the exception's text is not part of
    the model). *)
Definition generate_quiz_from_text (text : string) : json * list ui_event :=
  match model_generate (FromText text) with
  | Ok response_text => (parse_ai_response json_loads repair_json response_text, [])
  | Raise _ => (EMPTY_QUIZ, [st_error "AI generation failed"])
  end.

Definition generate_quiz_from_topic (topic : string) : json * list ui_event :=
  match model_generate (FromTopic topic) with
  | Ok response_text => (parse_ai_response json_loads repair_json response_text, [])
  | Raise _ => (EMPTY_QUIZ, [st_error "Auto-quiz failed"])
  end.

End Generation.

(** The outcome of a run of [display_interactive_quiz]. *)
Definition result_of (out : res unit * session_state * list ui_event) : res unit :=
  out.1.1.
Definition session_of (out : res unit * session_state * list ui_event)
  : session_state := out.1.2.
Definition page_of (out : res unit * session_state * list ui_event)
  : list ui_event := out.2.

(** The log grew by at most one entry, at its end. *)
Definition appended_at_most_one (h h' : list attempt) : Prop :=
  h' = h ∨ ∃ a, h' = h ++ [a].

Definition is_str (v : json) : bool :=
  match v with JStr _ => true | _ => false end.

(** The events of the rendering loop (lines 215-232) and those of the
    feedback loop (lines 259-264). *)
Definition is_question_event (e : ui_event) : bool :=
  match e with
  | show_heading _ _ | show_question _ | show_radio _ _ _ | st_divider => true
  | _ => false
  end.

Definition is_feedback_event (e : ui_event) : bool :=
  match e with
  | show_correct _ | show_incorrect _ _ | show_explanation _ | st_divider => true
  | _ => false
  end.

(** ** The script: upload section and daily quiz (lines 83-92 and 285-330)

    One pass of the script over the session state, from the sidebar on
    (the configuration of lines 15-26 has succeeded). Besides the state
    that [display_interactive_quiz] works on, [st.session_state] holds the
    quiz of each uploaded document under its [quiz_key], and the topic and
    the quiz of the daily section under ["auto_topic"] and ["auto_quiz"].
    The state keeps these in fields of their own: the names of the keys are
    pairwise distinct (part two), so no entry of the one dictionary of the
    source stands for two of them. *)

Definition CS_TOPICS : list string :=
  ["Object-Oriented Programming (OOP) in Java";
   "Introduction to Cloud Computing";
   "Fundamentals of Computer Networking";
   "SQL and Relational Database Design";
   "Data Strucctures Algorithms";
   "Responsive Web Applications";
   "Automata Theory";
   "Software Engineering and Project Management"].

(** [random.choice(seq)] for a non-empty [seq], [k] being the number the
    generator draws. *)
Definition random_choice (k : nat) (seq : list string) : string :=
  default EmptyString (seq !! (k mod length seq)%nat).

Record app_state : Type := App {
  session : session_state;
  pdf_quiz : gmap string json;      (* st.session_state[quiz_key] *)
  auto_topic : option string;       (* st.session_state.auto_topic *)
  auto_quiz : option json;          (* st.session_state.auto_quiz *)
}.

(** What one pass reads from outside: the widgets and the clock, the bytes
    of the uploaded file if there is one, and the numbers drawn by the two
    calls of [random.choice] (lines 315 and 318). *)
Record script_input : Type := ScriptInput {
  widgets : ui_input;
  uploaded_file : option string;
  draw_first : nat;
  draw_new : nat;
}.

(** The page of the script: the events of the quiz session and the
    sidebar, and the titles and spinners of the script itself. *)
Inductive page_item : Type :=
  | Shown (e : ui_event)
  | st_image (url : string)
  | st_title (body : string)
  | st_markdown (body : string)
  | st_header (body : string)
  | st_subheader (body : string)
  | st_spinner (text : string).

(** How a pass ends: at the end of the script, at [st.rerun()], or at an
    exception nothing catches. *)
Inductive ending : Type :=
  | Completed
  | Rerun
  | Uncaught (e : exn).

Definition outcome : Type := app_state * list page_item * list request * ending.

Definition state_of (out : outcome) : app_state := out.1.1.1.
Definition shown_of (out : outcome) : list page_item := out.1.1.2.
(** The calls of [model.generate_content] made during the pass, in order. *)
Definition requests_of (out : outcome) : list request := out.1.2.
Definition ending_of (out : outcome) : ending := out.2.

(** Line 110: the message of [extract_text_from_pdf], shown when opening
    the document or reading a page raises. *)
Definition extract_text_message (pdf_file : pdf_document) : list ui_event :=
  match (pages ← pdf_file; read_pages pages EmptyString) with
  | Ok _ => []
  | Raise _ => [st_error "Error reading PDF"]
  end.

(** Line 298: [f"pdf_{file_hash}"] *)
Definition quiz_key_of (file_hash : string) : string := "pdf_" +:+ file_hash.

(** Lines 210 and 235: the keys of an instance in [st.session_state]. *)
Definition user_answers_key (key_prefix : string) : string :=
  key_prefix +:+ "_user_answers".
Definition submitted_key (key_prefix : string) : string :=
  key_prefix +:+ "_submitted".

Definition ending_of_result (result : res unit) : ending :=
  match result with
  | Ok _ => Completed
  | Raise e => Uncaught e
  end.

Section Script.

(** [md5_hexdigest bytes] is [hashlib.md5(bytes).hexdigest()] and
    [pdfplumber_open bytes] what [pdfplumber] makes of the file. *)
Variable md5_hexdigest : string → string.
Variable pdfplumber_open : string → pdf_document.
Variable model_generate : request → res string.
Variable json_loads : string → res json.
Variable repair_json : string → res json.

(** Line 296: [hashlib.md5(uploaded_file.read()).hexdigest()[:8]] *)
Definition file_hash_of (bytes : string) : string :=
  str_slice (md5_hexdigest bytes) 0 8.

(** Lines 292-310. *)
Definition upload_section (inp : script_input) (a : app_state) : outcome :=
  match uploaded_file inp with
  | None => (a, [st_header "Upload CS PDF"], [], Completed)
  | Some bytes =>
      let file_hash := file_hash_of bytes in
      let quiz_key := quiz_key_of file_hash in
      let pdf_file := pdfplumber_open bytes in
      let text := extract_text_from_pdf pdf_file in
      let extracting :=
        st_spinner "Extracting text..."
        :: (Shown <$> extract_text_message pdf_file) in
      if str_truthy (str_strip text) then
        let '(quiz, quizzes, generating, requests) :=
          match pdf_quiz a !! quiz_key with
          | Some quiz => (quiz, pdf_quiz a, [], [])
          | None =>
              let '(quiz, errors) :=
                generate_quiz_from_text model_generate json_loads repair_json
                  text in
              (quiz, <[quiz_key := quiz]> (pdf_quiz a),
               st_spinner "AI generating quiz..." :: (Shown <$> errors),
               [FromText text])
          end in
        let '(result, s', page) :=
          display_interactive_quiz (widgets inp) quiz quiz_key
            ("PDF (" +:+ file_hash +:+ ")") "PDF" (session a) in
        (App s' quizzes (auto_topic a) (auto_quiz a),
         st_header "Upload CS PDF" :: extracting ++ generating ++ (Shown <$> page),
         requests,
         ending_of_result result)
      else
        (a,
         st_header "Upload CS PDF" :: extracting ++
           [Shown (st_error "Could not extract text. Use a text-based PDF.")],
         [], Completed)
  end.

(** Lines 313-330. *)
Definition auto_section (inp : script_input) (a : app_state) : outcome :=
  let topic :=
    match auto_topic a with
    | Some topic => topic
    | None => random_choice (draw_first inp) CS_TOPICS
    end in
  if button_pressed (widgets inp) "New Topic" then
    (App (Session (delete "auto" (user_answers (session a)))
                  (delete "auto" (submitted (session a)))
                  (quiz_history (session a)))
         (pdf_quiz a)
         (Some (random_choice (draw_new inp) CS_TOPICS))
         None,
     [st_header "Daily CS Quiz"], [], Rerun)
  else
    let '(quiz, generating, requests) :=
      match auto_quiz a with
      | Some quiz => (quiz, [], [])
      | None =>
          let '(quiz, errors) :=
            generate_quiz_from_topic model_generate json_loads repair_json
              topic in
          (quiz, st_spinner "Generating quiz..." :: (Shown <$> errors),
           [FromTopic topic])
      end in
    let '(result, s', page) :=
      display_interactive_quiz (widgets inp) quiz "auto" topic "Auto"
        (session a) in
    (App s' (pdf_quiz a) (Some topic) (Some quiz),
     st_header "Daily CS Quiz" :: st_subheader ("Topic: " +:+ topic)
       :: generating ++ (Shown <$> page),
     requests,
     ending_of_result result).

(** Lines 288-330: the two sections; an exception in the first ends the
    pass there. *)
Definition quiz_sections (inp : script_input) (a : app_state) : outcome :=
  let '(a2, page2, requests2, ending2) := upload_section inp a in
  match ending2 with
  | Completed =>
      let '(a3, page3, requests3, ending3) := auto_section inp a2 in
      (a3, page2 ++ page3, requests2 ++ requests3, ending3)
  | _ => (a2, page2, requests2, ending2)
  end.

(** Lines 273-330: the sidebar, then the two sections; a rerun in the
    sidebar ends the pass there. *)
Definition script (inp : script_input) (a : app_state) : outcome :=
  let '(s1, lines, rerun) := sidebar (widgets inp) (session a) in
  let a1 := App s1 (pdf_quiz a) (auto_topic a) (auto_quiz a) in
  let side :=
    st_image "https://cdn-icons-png.flaticon.com/512/860/860792.png"
    :: st_subheader "Quiz History" :: (Shown <$> lines) in
  if rerun then (a1, side, [], Rerun)
  else
    let intro :=
      [st_title "AI-Powered CS Quiz Generator";
       st_markdown "Upload a PDF or try a random CS topic quiz!"] in
    let '(a2, page, requests, ending) := quiz_sections inp a1 in
    (a2, side ++ intro ++ page, requests, ending).

End Script.

(** The sidebar of a pass does not call [st.rerun()]. *)
Definition sidebar_passes (inp : script_input) (a : app_state) : Prop :=
  (sidebar (widgets inp) (session a)).2 = false.

(** ** The keys of [st.session_state]

    The session state is one dictionary. The script stores its own values
    under the keys below, and Streamlit stores the value of every widget
    that is given a key under that key. [display_interactive_quiz] is
    called for the daily quiz with the prefix ["auto"] (line 330) and for an
    uploaded document with its [quiz_key] (line 308). *)
Inductive instance : Type :=
  | Daily
  | Pdf (file_hash : string).

Definition prefix_of (inst : instance) : string :=
  match inst with
  | Daily => "auto"
  | Pdf file_hash => quiz_key_of file_hash
  end.

Inductive state_key : Type :=
  | QuizHistory                               (* line 94 *)
  | AutoTopic                                 (* line 314 *)
  | AutoQuiz                                  (* line 326 *)
  | QuizOf (file_hash : string)               (* line 304 *)
  | AnswersOf (inst : instance)               (* line 210 *)
  | SubmittedOf (inst : instance)             (* line 235 *)
  | RadioOf (inst : instance) (i : nat)       (* line 218 *)
  | SubmitOf (inst : instance).               (* line 234 *)

Definition key_name (k : state_key) : string :=
  match k with
  | QuizHistory => "quiz_history"
  | AutoTopic => "auto_topic"
  | AutoQuiz => "auto_quiz"
  | QuizOf file_hash => quiz_key_of file_hash
  | AnswersOf inst => user_answers_key (prefix_of inst)
  | SubmittedOf inst => submitted_key (prefix_of inst)
  | RadioOf inst i => unique_key (prefix_of inst) i
  | SubmitOf inst => prefix_of inst +:+ "_submit"
  end.

(** The hashes of a key are eight characters long, as the first eight
    characters of an MD5 digest in hexadecimal are. *)
Definition instance_wf (inst : instance) : bool :=
  match inst with
  | Daily => true
  | Pdf file_hash => (String.length file_hash =? 8)%nat
  end.

Definition key_wf (k : state_key) : bool :=
  match k with
  | QuizHistory | AutoTopic | AutoQuiz => true
  | QuizOf file_hash => (String.length file_hash =? 8)%nat
  | AnswersOf inst | SubmittedOf inst | RadioOf inst _ | SubmitOf inst =>
      instance_wf inst
  end.

Definition is_digit (c : ascii) : bool :=
  (48 <=? nat_of_ascii c)%nat && (nat_of_ascii c <=? 57)%nat.

Definition starts_with_digit (s : string) : bool :=
  match s with
  | String c _ => is_digit c
  | EmptyString => false
  end.

(** ** Invariants of the state over the passes of the script *)

(** Every stored quiz is a [dict]. *)
Definition quizzes_are_dicts (a : app_state) : Prop :=
  (∀ k quiz, pdf_quiz a !! k = Some quiz → is_dict quiz = true)
  ∧ (∀ quiz, auto_quiz a = Some quiz → is_dict quiz = true).

(** [ua] holds one slot per question of [quiz]: [len(questions)] slots. *)
Definition slots_match (quiz : json) (ua : list json) : Prop :=
  ∃ d, quiz = JDict d
       ∧ py_len (dict_get "questions" (JList []) d) = Ok (length ua).

(** The quiz an instance is rendered from: the daily quiz for the prefix
    ["auto"], the quiz stored under the prefix otherwise. *)
Definition quiz_of_instance (a : app_state) (key_prefix : string) : option json :=
  if String.eqb key_prefix "auto" then auto_quiz a
  else pdf_quiz a !! key_prefix.

(** Every stored list of answers belongs to a stored quiz and holds one
    slot per question of it. *)
Definition answers_match_quizzes (a : app_state) : Prop :=
  ∀ key_prefix ua, user_answers (session a) !! key_prefix = Some ua →
    ∃ quiz, quiz_of_instance a key_prefix = Some quiz ∧ slots_match quiz ua.

(** The events of a run of the quiz session on a [dict]. *)
Definition is_quiz_event (e : ui_event) : bool :=
  is_question_event e || is_feedback_event e
  || match e with
     | show_score _ _ | st_balloons | st_warning _ => true
     | _ => false
     end.

(** The message of line 202. *)
Definition is_shape_error (item : page_item) : bool :=
  match item with
  | Shown (st_error msg) => String.eqb msg "Quiz data error."
  | _ => false
  end.

(** Exact string equality: both values are strings, and the same string. *)
Definition same_string (a b : json) : bool :=
  match a, b with
  | JStr x, JStr y => String.eqb x y
  | _, _ => false
  end.
(** * Properties *)

(** ** Facts about the string operations *)

Section PyStrFacts.

Lemma index0_cons (sub : string) (c : ascii) (s : string) :
  String.index 0 sub (String c s) =
    if String.prefix sub (String c s) then Some 0%nat
    else S <$> String.index 0 sub s.
Proof.
  simpl. destruct sub as [|a sub']; [reflexivity|].
  destruct (ascii_dec a c); [destruct (String.prefix sub' s)|];
    try reflexivity; destruct (String.index 0 (String a sub') s); reflexivity.
Qed.

Lemma index_succ (n : nat) (sub : string) (c : ascii) (s : string) :
  String.index (S n) sub (String c s) = S <$> String.index n sub s.
Proof. simpl. destruct (String.index n sub s); reflexivity. Qed.

Lemma prefix_cons (a b : ascii) (s1 s2 : string) :
  String.prefix (String a s1) (String b s2) =
    if Ascii.eqb a b then String.prefix s1 s2 else false.
Proof.
  simpl. destruct (ascii_dec a b) as [->|Hne].
  - rewrite Ascii.eqb_refl. reflexivity.
  - apply Ascii.eqb_neq in Hne. rewrite Hne. reflexivity.
Qed.

Lemma prefix_nil_r (a : ascii) (s1 : string) :
  String.prefix (String a s1) EmptyString = false.
Proof. reflexivity. Qed.

Lemma prefix_nil_l (s : string) : String.prefix EmptyString s = true.
Proof. destruct s; reflexivity. Qed.

Ltac prefix_cases :=
  unfold FENCE, FENCE_JSON, NL; cbv [String.append];
  rewrite ?prefix_cons, ?prefix_nil_r, ?prefix_nil_l;
  repeat (match goal with
          | |- context [Ascii.eqb ?x ?y] =>
              destruct (Ascii.eqb x y) eqn:?
          end; rewrite ?prefix_cons, ?prefix_nil_r, ?prefix_nil_l);
  try reflexivity; try discriminate.

Lemma prefix_fence_line (p r : string) :
  String.prefix FENCE (p +:+ NL +:+ r) = String.prefix FENCE p.
Proof. destruct p as [|a [|b [|c p]]]; prefix_cases. Qed.

Lemma prefix_fence_json_fence (s : string) :
  String.prefix FENCE_JSON s = true → String.prefix FENCE s = true.
Proof. destruct s as [|a [|b [|c s]]]; prefix_cases. Qed.

Lemma no_fence_no_fence_json (s : string) :
  String.index 0 FENCE s = None → String.index 0 FENCE_JSON s = None.
Proof.
  induction s as [|c s IH]; [reflexivity|].
  rewrite !index0_cons.
  destruct (String.prefix FENCE (String c s)) eqn:Hp; [discriminate|].
  destruct (String.prefix FENCE_JSON (String c s)) eqn:Hj.
  - apply prefix_fence_json_fence in Hj. congruence.
  - destruct (String.index 0 FENCE s); [discriminate|].
    intros _. rewrite IH; reflexivity.
Qed.

(** In a payload free of the marker, followed by a closing fence line, the
    first marker is the closing one. *)
Lemma index_closing_fence (p : string) :
  String.index 0 FENCE p = None →
  String.index 0 FENCE (p +:+ NL +:+ FENCE) = Some (S (String.length p)).
Proof.
  induction p as [|c p IH]; [reflexivity|].
  change (String c p +:+ NL +:+ FENCE) with (String c (p +:+ NL +:+ FENCE)).
  rewrite !index0_cons.
  change (String c (p +:+ NL +:+ FENCE)) with (String c p +:+ NL +:+ FENCE).
  rewrite prefix_fence_line.
  destruct (String.prefix FENCE (String c p)); [discriminate|].
  destruct (String.index 0 FENCE p); [discriminate|].
  intros _. rewrite IH; reflexivity.
Qed.

Lemma no_fence_json_in_fenced (p : string) :
  String.index 0 FENCE p = None →
  String.index 0 FENCE_JSON (p +:+ NL +:+ FENCE) = None.
Proof.
  induction p as [|c p IH]; [reflexivity|].
  change (String c p +:+ NL +:+ FENCE) with (String c (p +:+ NL +:+ FENCE)).
  rewrite !index0_cons.
  change (String c (p +:+ NL +:+ FENCE)) with (String c p +:+ NL +:+ FENCE).
  destruct (String.prefix FENCE (String c p)) eqn:Hp; [discriminate|].
  destruct (String.prefix FENCE_JSON (String c p +:+ NL +:+ FENCE)) eqn:Hj.
  - apply prefix_fence_json_fence in Hj.
    rewrite prefix_fence_line in Hj. congruence.
  - destruct (String.index 0 FENCE p); [discriminate|].
    intros _. rewrite IH; reflexivity.
Qed.

Lemma app_cons_str (c : ascii) (x y : string) :
  String c x +:+ y = String c (x +:+ y).
Proof. reflexivity. Qed.

Lemma app_nil_str (y : string) : EmptyString +:+ y = y.
Proof. reflexivity. Qed.

Lemma substring_app_exact (x y : string) :
  String.substring 0 (String.length x) (x +:+ y) = x.
Proof.
  induction x as [|c x IH].
  - rewrite app_nil_str. destruct y; reflexivity.
  - rewrite app_cons_str. simpl. rewrite IH. reflexivity.
Qed.

Lemma substring_all (x : string) :
  String.substring 0 (String.length x) x = x.
Proof. induction x as [|c x IH]; simpl; [|rewrite IH]; reflexivity. Qed.

Lemma str_length_app (x y : string) :
  String.length (x +:+ y) = (String.length x + String.length y)%nat.
Proof.
  induction x as [|c x IH]; [reflexivity|].
  rewrite app_cons_str. simpl. rewrite IH. reflexivity.
Qed.

Lemma app_assoc_str (x y z : string) : (x +:+ y) +:+ z = x +:+ (y +:+ z).
Proof.
  induction x as [|c x IH]; [reflexivity|].
  rewrite !app_cons_str, IH. reflexivity.
Qed.

Lemma rstrip_line (p : string) : str_rstrip (p +:+ NL) = str_rstrip p.
Proof.
  induction p as [|c p IH]; [reflexivity|].
  rewrite app_cons_str. simpl. rewrite IH. reflexivity.
Qed.

Lemma strip_lines (p : string) : str_strip (NL +:+ p +:+ NL) = str_strip p.
Proof.
  unfold str_strip.
  change (NL +:+ p +:+ NL) with (String (ascii_of_nat 10) (p +:+ NL)).
  cbn [str_rstrip]. rewrite rstrip_line.
  destruct (str_rstrip p); reflexivity.
Qed.

End PyStrFacts.

Section FenceFacts.

Lemma prefix_app_self (x y : string) : String.prefix x (x +:+ y) = true.
Proof.
  induction x as [|c x IH]; [apply prefix_nil_l|].
  rewrite app_cons_str, prefix_cons, Ascii.eqb_refl. exact IH.
Qed.

Lemma index_skip (x sub y : string) :
  String.index (String.length x) sub (x +:+ y) =
    (λ k, (String.length x + k)%nat) <$> String.index 0 sub y.
Proof.
  induction x as [|c x IH].
  - rewrite app_nil_str. cbn [String.length].
    destruct (String.index 0 sub y); reflexivity.
  - rewrite app_cons_str. cbn [String.length]. rewrite index_succ, IH.
    destruct (String.index 0 sub y); reflexivity.
Qed.

Lemma substring_skip (x y : string) (m : nat) :
  String.substring (String.length x) m (x +:+ y) = String.substring 0 m y.
Proof.
  induction x as [|c x IH]; [reflexivity|].
  rewrite app_cons_str. exact IH.
Qed.

Lemma contains_false (sub s : string) :
  str_contains sub s = false ↔ String.index 0 sub s = None.
Proof.
  unfold str_contains. destruct (String.index 0 sub s); split; congruence.
Qed.

Lemma contains_head (x y : string) :
  x ≠ EmptyString → String.index 0 x (x +:+ y) = Some 0%nat.
Proof.
  destruct x as [|c x]; [congruence|]. intros _.
  rewrite app_cons_str, index0_cons, <- app_cons_str, prefix_app_self.
  reflexivity.
Qed.

(** Lines 116-121 or 122-127 on a text that opens with [marker], holds a
    marker-free payload on the lines between and closes with the fence. *)
Lemma slice_between (marker p : string) :
  String.index 0 FENCE p = None →
  let text := marker +:+ NL +:+ p +:+ NL +:+ FENCE in
  let start := Z.of_nat (String.length marker) in
  let stop := str_find text FENCE start in
  str_strip (str_slice text start (if stop =? -1 then str_len text else stop))
    = str_strip p.
Proof.
  intros Hp text start stop.
  assert (Hstop : stop = Z.of_nat (String.length marker + S (S (String.length p)))).
  { subst stop start text. unfold str_find. rewrite Nat2Z.id, index_skip.
    change (NL +:+ p +:+ NL +:+ FENCE)
      with (String (ascii_of_nat 10) (p +:+ NL +:+ FENCE)).
    rewrite index0_cons.
    replace (String.prefix FENCE (String (ascii_of_nat 10) (p +:+ NL +:+ FENCE)))
      with false by (unfold FENCE; rewrite prefix_cons; reflexivity).
    rewrite index_closing_fence by exact Hp. reflexivity. }
  rewrite Hstop.
  destruct (Z.eqb_spec (Z.of_nat (String.length marker + S (S (String.length p)))) (-1));
    [lia|].
  unfold str_slice. subst start text.
  replace (Z.to_nat (Z.of_nat (String.length marker + S (S (String.length p)))
                     - Z.of_nat (String.length marker)))
    with (String.length (NL +:+ p +:+ NL)).
  2:{ rewrite !str_length_app. cbn [String.length NL]. lia. }
  rewrite Nat2Z.id, substring_skip.
  replace (NL +:+ p +:+ NL +:+ FENCE) with ((NL +:+ p +:+ NL) +:+ FENCE)
    by (rewrite !app_assoc_str; reflexivity).
  rewrite substring_app_exact. apply strip_lines.
Qed.

Lemma extract_unfenced (p : string) :
  str_contains FENCE p = false → extract_json_str p = str_strip p.
Proof.
  intros Hp. unfold extract_json_str.
  assert (Hj : str_contains FENCE_JSON p = false).
  { apply contains_false, no_fence_no_fence_json, contains_false, Hp. }
  rewrite Hj, Hp. reflexivity.
Qed.

Lemma extract_fence_json (p : string) :
  str_contains FENCE p = false → extract_json_str (fence_json p) = str_strip p.
Proof.
  intros Hp%contains_false. unfold extract_json_str, fence_json.
  assert (Hi : String.index 0 FENCE_JSON (FENCE_JSON +:+ NL +:+ p +:+ NL +:+ FENCE)
               = Some 0%nat) by (apply contains_head; discriminate).
  assert (Hf : str_find (FENCE_JSON +:+ NL +:+ p +:+ NL +:+ FENCE) FENCE_JSON 0 = 0)
    by (unfold str_find; change (Z.to_nat 0) with 0%nat; rewrite Hi; reflexivity).
  unfold str_contains at 1. rewrite Hi. cbv zeta. rewrite Hf.
  apply (slice_between FENCE_JSON p Hp).
Qed.

Lemma extract_fence_plain (p : string) :
  str_contains FENCE p = false → extract_json_str (fence_plain p) = str_strip p.
Proof.
  intros Hp%contains_false. unfold extract_json_str, fence_plain.
  assert (Hj : str_contains FENCE_JSON (FENCE +:+ NL +:+ p +:+ NL +:+ FENCE) = false).
  { apply contains_false.
    change (FENCE +:+ NL +:+ p +:+ NL +:+ FENCE)
      with (String "`" (String "`" (String "`" (String (ascii_of_nat 10)
              (p +:+ NL +:+ FENCE))))).
    rewrite !index0_cons.
    unfold FENCE_JSON. rewrite !prefix_cons. cbn [Ascii.eqb Bool.eqb].
    fold FENCE_JSON. rewrite no_fence_json_in_fenced by exact Hp. reflexivity. }
  rewrite Hj.
  assert (Hi : String.index 0 FENCE (FENCE +:+ NL +:+ p +:+ NL +:+ FENCE)
               = Some 0%nat) by (apply contains_head; discriminate).
  assert (Hf : str_find (FENCE +:+ NL +:+ p +:+ NL +:+ FENCE) FENCE 0 = 0)
    by (unfold str_find; change (Z.to_nat 0) with 0%nat; rewrite Hi; reflexivity).
  unfold str_contains. rewrite Hi. cbv zeta. rewrite Hf.
  apply (slice_between FENCE p Hp).
Qed.

End FenceFacts.

(** ** The response normalizer *)

Section NormalizerFacts.

Variable json_loads : string → res json.
Variable repair_json : string → res json.

Lemma normalize_shape_has_key (parsed : json) :
  ∃ d, normalize_shape parsed = JDict d ∧ dict_has "questions" d = true.
Proof.
  destruct parsed as [| | | |l|d]; try (eexists; split; reflexivity).
  cbn [normalize_shape]. destruct (dict_has "questions" d) eqn:Hd.
  - exists d. split; [reflexivity|exact Hd].
  - eexists; split; reflexivity.
Qed.

Lemma normalize_shape_list (parsed : json) :
  is_list (questions_of (normalize_shape parsed)) = true
  ∨ ∃ d, parsed = JDict d ∧ dict_has "questions" d = true
         ∧ normalize_shape parsed = JDict d.
Proof.
  destruct parsed as [| | | |l|d]; try (left; reflexivity).
  cbn [normalize_shape]. destruct (dict_has "questions" d) eqn:Hd.
  - right. exists d. auto.
  - left. reflexivity.
Qed.

Lemma parse_unfold (response_text : string) :
  parse_ai_response json_loads repair_json response_text =
    match parse_json_str json_loads repair_json
            (extract_json_str response_text) with
    | Ok parsed => normalize_shape parsed
    | Raise _ => EMPTY_QUIZ
    end.
Proof.
  unfold parse_ai_response, parse_ai_response_body.
  destruct (parse_json_str json_loads repair_json _); reflexivity.
Qed.

(** C1, as the code has it. [parse_ai_response] is total: whatever the two
    parsers return or raise, the result is a [dict] that has the key
    ["questions"]. The value under the key is a list, except when the
    parsed value is itself a [dict] with that key: such a [dict] is returned
    unchanged. Every exception yields [{"questions": []}]. *)
Theorem parse_ai_response_total (response_text : string) :
  let result := parse_ai_response json_loads repair_json response_text in
  let parsed :=
    parse_json_str json_loads repair_json (extract_json_str response_text) in
  (∃ d, result = JDict d ∧ dict_has "questions" d = true)
  ∧ (is_list (questions_of result) = true
     ∨ ∃ d, parsed = Ok (JDict d) ∧ dict_has "questions" d = true
            ∧ result = JDict d)
  ∧ (∀ e, parsed = Raise e → result = EMPTY_QUIZ)
  ∧ (∀ d, parsed = Ok (JDict d) → dict_has "questions" d = true →
          result = JDict d).
Proof.
  cbv zeta. rewrite parse_unfold.
  destruct (parse_json_str json_loads repair_json _) as [parsed|e] eqn:Hp.
  - split; [apply normalize_shape_has_key|].
    split; [|split; [discriminate|]].
    + destruct (normalize_shape_list parsed) as [Hl|(d & -> & Hd & Hn)];
        [left; exact Hl|].
      right. exists d. auto.
    + intros d [= ->] Hd. cbn [normalize_shape]. rewrite Hd. reflexivity.
  - split; [eexists; split; reflexivity|]. split; [left; reflexivity|].
    split; [reflexivity|discriminate].
Qed.

(** C3, amended. A payload that does not itself contain the marker [```]
    and that is valid JSON with a top-level array (the code hands the
    stripped payload to [json.loads]) gives that array under ["questions"],
    entry for entry and nothing else, whether the response is the bare
    payload, the payload in a JSON-tagged fence or the payload in a generic
    fence. [repair_json] is not consulted. *)
Theorem array_response_wrapped (p : string) (l : list json) :
  str_contains FENCE p = false →
  json_loads (str_strip p) = Ok (JList l) →
  ∀ response_text,
    response_text = p ∨ response_text = fence_json p
    ∨ response_text = fence_plain p →
    parse_ai_response json_loads repair_json response_text
      = JDict [("questions", JList l)]
    ∧ questions_of (parse_ai_response json_loads repair_json response_text)
      = JList l
    ∧ ∀ repair_json',
        parse_ai_response json_loads repair_json' response_text
        = parse_ai_response json_loads repair_json response_text.
Proof.
  intros Hp Hl response_text Hform.
  assert (He : extract_json_str response_text = str_strip p).
  { destruct Hform as [->| [->| ->]].
    - apply extract_unfenced, Hp.
    - apply extract_fence_json, Hp.
    - apply extract_fence_plain, Hp. }
  assert (Hparse : ∀ repair_json',
            parse_ai_response json_loads repair_json' response_text
            = JDict [("questions", JList l)]).
  { intros repair_json'. unfold parse_ai_response, parse_ai_response_body,
      parse_json_str. rewrite He, Hl. reflexivity. }
  split; [apply Hparse|]. split; [rewrite Hparse; reflexivity|].
  intros repair_json'. rewrite !Hparse. reflexivity.
Qed.

Lemma parse_same_extract (a b : string) :
  extract_json_str a = extract_json_str b →
  parse_ai_response json_loads repair_json a
    = parse_ai_response json_loads repair_json b.
Proof. intros H. rewrite !parse_unfold, H. reflexivity. Qed.

(** C4, amended. A payload that does not itself contain the marker [```]
    gives the same result fenced (JSON-tagged or generic) as unfenced. *)
Theorem fenced_same_as_unfenced (p : string) :
  str_contains FENCE p = false →
  parse_ai_response json_loads repair_json (fence_json p)
    = parse_ai_response json_loads repair_json p
  ∧ parse_ai_response json_loads repair_json (fence_plain p)
    = parse_ai_response json_loads repair_json p.
Proof.
  intros Hp. split; apply parse_same_extract.
  - rewrite extract_fence_json, extract_unfenced by exact Hp. reflexivity.
  - rewrite extract_fence_plain, extract_unfenced by exact Hp. reflexivity.
Qed.

End NormalizerFacts.

Lemma prefix_split (sub t : string) :
  String.prefix sub t = true → ∃ rest, t = sub +:+ rest.
Proof.
  revert t. induction sub as [|a sub IH]; intros t H.
  - exists t. reflexivity.
  - destruct t as [|b t]; [discriminate|].
    rewrite prefix_cons in H. destruct (Ascii.eqb_spec a b) as [->|]; [|discriminate].
    destruct (IH t H) as [rest ->]. exists rest. reflexivity.
Qed.

Lemma index_split (sub t : string) (k : nat) :
  String.index 0 sub t = Some k →
  ∃ before rest, t = before +:+ sub +:+ rest ∧ String.length before = k.
Proof.
  revert k. induction t as [|c t IH]; intros k H.
  - destruct sub; [|discriminate]. exists EmptyString, EmptyString.
    injection H as <-. split; reflexivity.
  - rewrite index0_cons in H.
    destruct (String.prefix sub (String c t)) eqn:Hp.
    + injection H as <-. destruct (prefix_split _ _ Hp) as [rest ->].
      exists EmptyString, rest. split; reflexivity.
    + destruct (String.index 0 sub t) as [k'|]; [|discriminate].
      injection H as <-. destruct (IH k' eq_refl) as (before & rest & -> & <-).
      exists (String c before), rest. split; reflexivity.
Qed.

Lemma slice_to_end (before marker rest : string) :
  let t := before +:+ marker +:+ rest in
  str_slice t (Z.of_nat (String.length before) + str_len marker) (str_len t) = rest.
Proof.
  intros t. unfold str_slice, str_len. subst t.
  replace (Z.to_nat (Z.of_nat (String.length before) + Z.of_nat (String.length marker)))
    with (String.length (before +:+ marker)) by (rewrite str_length_app; lia).
  replace (Z.to_nat _) with (String.length rest) by (rewrite !str_length_app; lia).
  rewrite <- app_assoc_str, substring_skip. apply substring_all.
Qed.

(** C9. Fence detection is by containment. When the marker the code settles
    on ([```json] if the response contains it, else [```] if it contains
    that) has no [```] after it, the text handed to the parser is everything
    after the marker, to the end of the response, stripped. *)
Theorem unterminated_fence (response_text marker : string) :
  (marker = FENCE_JSON ∧ str_contains FENCE_JSON response_text = true)
  ∨ (marker = FENCE ∧ str_contains FENCE_JSON response_text = false
     ∧ str_contains FENCE response_text = true) →
  str_find response_text FENCE
    (str_find response_text marker 0 + str_len marker) = -1 →
  ∃ before rest,
    response_text = before +:+ marker +:+ rest
    ∧ str_len before = str_find response_text marker 0
    ∧ extract_json_str response_text = str_strip rest.
Proof.
  intros Hm Hend.
  assert (Hc : str_contains marker response_text = true)
    by (destruct Hm as [[-> H]|(-> & _ & H)]; exact H).
  unfold str_contains in Hc.
  destruct (String.index 0 marker response_text) as [k|] eqn:Hk; [clear Hc|discriminate].
  destruct (index_split _ _ _ Hk) as (before & rest & Ht & Hlen).
  assert (Hfind : str_find response_text marker 0 = Z.of_nat k)
    by (unfold str_find; change (Z.to_nat 0) with 0%nat; rewrite Hk; reflexivity).
  exists before, rest. split; [exact Ht|]. split; [unfold str_len; congruence|].
  rewrite Hfind in Hend.
  assert (Hslice : str_slice response_text (Z.of_nat k + str_len marker)
                     (str_len response_text) = rest)
    by (rewrite Ht, <- Hlen; apply slice_to_end).
  unfold extract_json_str.
  destruct Hm as [[-> Hj]|(-> & Hj & Hf)].
  - rewrite Hj. cbv zeta. rewrite Hfind.
    change (str_len FENCE_JSON) with 7 in *. rewrite Hend.
    change (-1 =? -1) with true. cbv iota. rewrite Hslice. reflexivity.
  - rewrite Hj, Hf. cbv zeta. rewrite Hfind.
    change (str_len FENCE) with 3 in *. rewrite Hend.
    change (-1 =? -1) with true. cbv iota. rewrite Hslice. reflexivity.
Qed.

(** ** The text extractor *)

Lemma app_nil_r_str (s : string) : s +:+ EmptyString = s.
Proof.
  induction s as [|c s IH]; [reflexivity|].
  rewrite app_cons_str, IH. reflexivity.
Qed.

Lemma substring_length_le (n : nat) (s : string) :
  (String.length (String.substring 0 n s) ≤ n)%nat.
Proof.
  revert s. induction n as [|n IH]; intros [|c s]; simpl; try lia.
  specialize (IH s). lia.
Qed.

Lemma read_pages_texts (texts : list (option string)) (text : string) :
  read_pages (Ok <$> texts) text =
    Ok (text +:+ str_concat (page_contribution <$> texts)).
Proof.
  revert text. induction texts as [|t texts IH]; intros text.
  - cbn. rewrite app_nil_r_str. reflexivity.
  - cbn [fmap list_fmap read_pages mbind res_bind]. rewrite IH.
    cbn [str_concat]. destruct t as [t|]; cbn [page_contribution].
    + destruct (str_truthy t); [rewrite app_assoc_str|]; reflexivity.
    + reflexivity.
Qed.

Lemma read_pages_raises (pages : list pdf_page) (text : string) :
  existsb page_raises pages = true → ∃ e, read_pages pages text = Raise e.
Proof.
  revert text. induction pages as [|page pages IH]; intros text H; [discriminate|].
  destruct page as [page_text|e]; [|exists e; reflexivity].
  cbn in H. cbn [read_pages mbind res_bind]. apply IH, H.
Qed.

Lemma substring_whole (n : nat) (s : string) :
  (String.length s ≤ n)%nat → String.substring 0 n s = s.
Proof.
  revert n. induction s as [|c s IH]; intros [|n] Hn; simpl in *;
    try reflexivity; try lia.
  rewrite IH by lia. reflexivity.
Qed.

(** C7. The extracted text is never longer than 8000 characters. When every
    page is read, it is the first 8000 characters of the page texts, each
    followed by a newline, a page with no text ([None] or the empty string)
    adding nothing; so a text of at most 8000 characters is returned whole.
    When opening the document or reading a page raises, it is the empty
    string. *)
Theorem extract_text_from_pdf_spec (pdf_file : pdf_document) :
  str_len (extract_text_from_pdf pdf_file) ≤ 8000
  ∧ (∀ texts, pdf_file = Ok (Ok <$> texts) →
       extract_text_from_pdf pdf_file =
         str_slice (str_concat (page_contribution <$> texts)) 0 8000
       ∧ (str_len (str_concat (page_contribution <$> texts)) ≤ 8000 →
          extract_text_from_pdf pdf_file
            = str_concat (page_contribution <$> texts)))
  ∧ (pdf_raises pdf_file = true → extract_text_from_pdf pdf_file = EmptyString).
Proof.
  split; [|split].
  - unfold extract_text_from_pdf.
    destruct pdf_file as [pages|e]; [|vm_compute; discriminate].
    cbn [mbind res_bind]. destruct (read_pages pages EmptyString) as [text|e];
      [|vm_compute; discriminate].
    cbn [mbind res_bind mret res_ret]. unfold str_slice, str_len.
    pose proof (substring_length_le (Z.to_nat (MAX_TEXT - 0)) text) as H.
    change (Z.to_nat 0) with 0%nat. unfold MAX_TEXT in *. lia.
  - intros texts ->.
    assert (Hslice : extract_text_from_pdf (Ok (Ok <$> texts)) =
              str_slice (str_concat (page_contribution <$> texts)) 0 8000).
    { unfold extract_text_from_pdf.
      cbn [mbind res_bind]. rewrite read_pages_texts. reflexivity. }
    split; [exact Hslice|].
    intros Hshort. rewrite Hslice. unfold str_slice, str_len in *.
    change (Z.to_nat 0) with 0%nat. apply substring_whole. lia.
  - unfold extract_text_from_pdf, pdf_raises.
    destruct pdf_file as [pages|e]; [|reflexivity].
    intros H. cbn [mbind res_bind].
    destruct (read_pages_raises pages EmptyString H) as [e ->]. reflexivity.
Qed.

(** ** The history log *)

Lemma slice_from_last {A} (l : list A) (n : Z) :
  0 < n → slice_from l (- n) = drop (length l - Z.to_nat n) l.
Proof.
  intros Hn. unfold slice_from.
  destruct (Z.ltb_spec (- n) 0); [|lia]. f_equal. lia.
Qed.

Lemma list_recent_take (n : Z) (h : list attempt) :
  0 < n → list_recent n h = take (Z.to_nat n) (reverse h).
Proof.
  intros Hn. unfold list_recent. rewrite slice_from_last by exact Hn.
  rewrite reverse_drop.
  destruct (decide (Z.to_nat n ≤ length h)%nat) as [Hle|Hgt].
  - f_equal. lia.
  - replace (length h - (length h - Z.to_nat n))%nat with (length h) by lia.
    rewrite !take_ge; [reflexivity| |]; rewrite length_reverse; lia.
Qed.


(** ** The quiz session *)

Lemma py_eq_str_r (v : json) (s : string) : py_eq v (JStr s) = true ↔ v = JStr s.
Proof.
  destruct v; cbn; try (split; congruence).
  rewrite String.eqb_eq. split; congruence.
Qed.

Lemma py_eq_null_l (v : json) : py_eq JNull v = true ↔ v = JNull.
Proof. destruct v; cbn; split; congruence. Qed.

Lemma st_radio_in (ui : ui_input) (key : string) (options : list json) (index : nat) :
  (index < length options)%nat → st_radio ui key options index ∈ options.
Proof.
  intros Hi. unfold st_radio.
  destruct (radio_pick ui key ≫= (options !!.)) as [picked|] eqn:Hp.
  - destruct (radio_pick ui key) as [k|]; [|discriminate].
    cbn in Hp. eapply list_elem_of_lookup_2, Hp.
  - destruct (lookup_lt_is_Some_2 options index Hi) as [v Hv].
    rewrite Hv. cbn. eapply list_elem_of_lookup_2, Hv.
Qed.

Ltac run_monad :=
  cbv [mbind M_bind mret M_ret lift emit radio set_submitted append_history];
  cbn [answers is_submitted history screen].

Ltac solve_events :=
  first
    [ exists []; split;
      [rewrite app_nil_r; reflexivity
      |intros ? ? ? Hin; apply elem_of_nil in Hin; destruct Hin]
    | eexists; split;
      [rewrite <- ?(assoc_L (++)); reflexivity
      |intros ? ? ? Hin;
       rewrite ?elem_of_app, ?elem_of_cons, ?elem_of_nil in Hin;
       intuition congruence] ].

Ltac solve_renders :=
  solve [ repeat split; cbn [answers is_submitted history screen];
          first [ reflexivity
                | rewrite length_insert; reflexivity
                | intros; rewrite list_lookup_insert_ne by congruence; reflexivity
                | solve_events ] ].

Lemma render_question_renders (ui : ui_input) (key_prefix : string) (i : nat)
    (q : json) (r : run) :
  renders_at (unique_key key_prefix i) (i - 1) r
    (render_question ui key_prefix i q r).2.
Proof.
  unfold renders_at, render_question.
  destruct q as [| | | |l|d]; try (run_monad; cbn; solve_renders).
  cbn [py_get]. run_monad.
  destruct (py_eq (dict_get "type" JNull d) (JStr "MCQ")) eqn:Ht.
  - destruct (py_len (dict_get "options" (JList []) d)) as [n|e]; cbn;
      [|solve_renders].
    destruct (n =? 4)%nat; cbn.
    + unfold get_answer; cbn.
      destruct (answers r !! (i - 1)%nat) as [current|]; cbn; [|solve_renders].
      destruct (py_in current (dict_get "options" (JList []) d)) as [[|]|e];
        cbn; [| |solve_renders].
      * destruct (py_index current (dict_get "options" (JList []) d)) as [k|e];
          cbn; [|solve_renders].
        destruct (dict_get "options" (JList []) d); cbn; try solve_renders.
        unfold set_answer; cbn. case_decide; cbn; solve_renders.
      * destruct (dict_get "options" (JList []) d); cbn; try solve_renders.
        unfold set_answer; cbn. case_decide; cbn; solve_renders.
    + destruct (py_eq (dict_get "type" JNull d) (JStr "True/False")); cbn;
        [|solve_renders].
      unfold get_answer; cbn.
      destruct (answers r !! (i - 1)%nat) as [stored|]; cbn; [|solve_renders].
      unfold set_answer; cbn. case_decide; cbn; solve_renders.
  - cbn. destruct (py_eq (dict_get "type" JNull d) (JStr "True/False")); cbn;
      [|solve_renders].
    unfold get_answer; cbn.
    destruct (answers r !! (i - 1)%nat) as [stored|]; cbn; [|solve_renders].
    unfold set_answer; cbn. case_decide; cbn; solve_renders.
Qed.

Lemma run_eta (r : run) :
  Run (answers r) (is_submitted r) (history r) (screen r) = r.
Proof. destruct r; reflexivity. Qed.

Lemma unique_key_inj (key_prefix : string) (i j : nat) :
  unique_key key_prefix i = unique_key key_prefix j → i = j.
Proof.
  unfold unique_key. intros H.
  apply (inj (String.append key_prefix)) in H.
  apply (inj (String.append "_q")) in H.
  apply (inj pretty) in H. exact H.
Qed.

(** A True/False question: lines 228-231. *)
Lemma render_true_false (ui : ui_input) (key_prefix : string) (i : nat)
    (d : list (string * json)) (r : run) (stored : json) :
  py_eq (dict_get "type" JNull d) (JStr "True/False") = true →
  answers r !! (i - 1)%nat = Some stored →
  let index := if py_eq stored (JStr "False") then 1%nat else 0%nat in
  let selected := st_radio ui (unique_key key_prefix i) TF_OPTIONS index in
  render_question ui key_prefix i (JDict d) r =
    (Ok (),
     Run (<[(i - 1)%nat := selected]> (answers r)) (is_submitted r) (history r)
         (screen r ++
            [show_heading i (dict_get "difficulty" (JStr "N/A") d);
             show_question (dict_get "question" (JStr "N/A") d);
             show_radio (unique_key key_prefix i) TF_OPTIONS index;
             st_divider])).
Proof.
  intros Ht%py_eq_str_r Hs index selected.
  unfold render_question. cbn [py_get]. rewrite Ht. run_monad.
  cbn [py_eq String.eqb Ascii.eqb Bool.eqb].
  unfold get_answer. cbn [answers]. rewrite Hs. cbn [answers is_submitted history screen].
  assert (Hidx :
    (if py_eq (if list_contains stored TF_OPTIONS then stored else JStr "True")
         (JStr "True") then 0 else 1)%nat = index).
  { subst index. unfold list_contains, TF_OPTIONS. cbn [existsb].
    destruct (py_eq stored (JStr "True")) eqn:HT.
    - cbn [orb]. rewrite HT. apply py_eq_str_r in HT. subst stored. reflexivity.
    - destruct (py_eq stored (JStr "False")) eqn:HF; cbn [orb].
      + apply py_eq_str_r in HF. subst stored. reflexivity.
      + reflexivity. }
  rewrite Hidx. unfold set_answer. cbn [answers is_submitted history screen].
  apply lookup_lt_Some in Hs. case_decide; [|lia].
  cbn [answers is_submitted history screen].
  rewrite <- !(assoc_L (++)). reflexivity.
Qed.

(** An MCQ question whose options list has not exactly four entries: the
    test of line 221 fails, and so does the test of line 228. *)
Lemma render_short_mcq (ui : ui_input) (key_prefix : string) (i : nat)
    (d : list (string * json)) (l : list json) (r : run) :
  py_eq (dict_get "type" JNull d) (JStr "MCQ") = true →
  dict_get "options" (JList []) d = JList l →
  length l ≠ 4%nat →
  render_question ui key_prefix i (JDict d) r =
    (Ok (),
     Run (answers r) (is_submitted r) (history r)
         (screen r ++
            [show_heading i (dict_get "difficulty" (JStr "N/A") d);
             show_question (dict_get "question" (JStr "N/A") d);
             st_divider])).
Proof.
  intros Ht%py_eq_str_r Ho Hl.
  unfold render_question. cbn [py_get]. rewrite Ht, Ho. run_monad.
  cbn [py_eq String.eqb Ascii.eqb Bool.eqb py_len].
  destruct (Nat.eqb_spec (length l) 4); [contradiction|].
  cbn [answers is_submitted history screen].
  rewrite <- !(assoc_L (++)). reflexivity.
Qed.

(** A well-formed question whose position is within [user_answers] is
    rendered without an exception. *)
Lemma render_question_ok (ui : ui_input) (key_prefix : string) (i : nat)
    (q : json) (r : run) :
  well_formed_question q = true →
  (i - 1 < length (answers r))%nat →
  (render_question ui key_prefix i q r).1 = Ok ().
Proof.
  intros Hwf Hi. destruct q as [| | | |l|d]; try discriminate.
  destruct (lookup_lt_is_Some_2 _ _ Hi) as [a Ha].
  cbn [well_formed_question] in Hwf. unfold render_question. cbn [py_get]. run_monad.
  destruct (py_eq (dict_get "type" JNull d) (JStr "MCQ")) eqn:Ht.
  - destruct (dict_get "options" (JList []) d) as [| | | |opts|]; try discriminate.
    cbn [py_len]. destruct (length opts =? 4)%nat; cbn.
    + unfold get_answer; cbn. rewrite Ha; cbn.
      destruct (list_contains a opts); cbn; unfold set_answer; cbn;
        case_decide; try lia; reflexivity.
    + destruct (py_eq (dict_get "type" JNull d) (JStr "True/False")); cbn;
        [|reflexivity].
      unfold get_answer; cbn. rewrite Ha; cbn. unfold set_answer; cbn.
      case_decide; try lia; reflexivity.
  - cbn. destruct (py_eq (dict_get "type" JNull d) (JStr "True/False")); cbn;
      [|reflexivity].
    unfold get_answer; cbn. rewrite Ha; cbn. unfold set_answer; cbn.
    case_decide; try lia; reflexivity.
Qed.

(** *** The rendering loop *)

Lemma for_each_cons {A} (body : nat → A → M unit) (i : nat) (x : A)
    (l : list A) (r : run) :
  for_each body i (x :: l) r =
    match body i x r with
    | (Ok _, r1) => for_each body (S i) l r1
    | (Raise e, r1) => (Raise e, r1)
    end.
Proof. cbn [for_each]. run_monad. destruct (body i x r) as [[[]|e] r1]; reflexivity. Qed.

Lemma render_loop_ok (ui : ui_input) (key_prefix : string) (qs : list json)
    (i : nat) (r : run) :
  Forall (λ q, well_formed_question q = true) qs →
  (1 ≤ i)%nat →
  (i - 1 + length qs ≤ length (answers r))%nat →
  (for_each (render_question ui key_prefix) i qs r).1 = Ok ().
Proof.
  revert i r. induction qs as [|q qs IH]; intros i r Hwf Hi Hlen; [reflexivity|].
  apply Forall_cons in Hwf as [Hq Hwf]. cbn [length] in Hlen.
  rewrite for_each_cons.
  pose proof (render_question_ok ui key_prefix i q r Hq ltac:(lia)) as Hok.
  pose proof (render_question_renders ui key_prefix i q r) as (_ & _ & Hl & _).
  destruct (render_question ui key_prefix i q r) as [[[]|e] r1]; [|discriminate].
  cbn [snd] in Hl. apply IH; [exact Hwf|lia|lia].
Qed.

(** The loop changes neither the submitted flag nor the history, keeps the
    length of [user_answers], and leaves alone every position that belongs
    to no question of the list. *)
Lemma render_loop_frame (ui : ui_input) (key_prefix : string) (qs : list json)
    (i : nat) (r : run) :
  (1 ≤ i)%nat →
  let r' := (for_each (render_question ui key_prefix) i qs r).2 in
  is_submitted r' = is_submitted r
  ∧ history r' = history r
  ∧ length (answers r') = length (answers r)
  ∧ ∀ j, (j < i - 1 ∨ i - 1 + length qs ≤ j)%nat →
         answers r' !! j = answers r !! j.
Proof.
  revert i r. induction qs as [|q qs IH]; intros i r Hi; [cbn; auto|].
  rewrite for_each_cons.
  pose proof (render_question_renders ui key_prefix i q r) as (Hs & Hh & Hl & Ha & _).
  destruct (render_question ui key_prefix i q r) as [[[]|e] r1]; cbn [snd] in *.
  - specialize (IH (S i) r1 ltac:(lia)) as (Hs' & Hh' & Hl' & Ha').
    repeat split; try congruence.
    intros j Hj. cbn [length] in Hj. rewrite Ha' by lia. apply Ha. lia.
  - repeat split; try assumption.
    intros j Hj. cbn [length] in Hj. apply Ha. lia.
Qed.

Lemma new_events_app (r r' : run) (evs : list ui_event) :
  screen r' = screen r ++ evs → new_events r r' = evs.
Proof. intros H. unfold new_events. rewrite H. apply drop_app_length. Qed.

(** Every radio widget the loop shows belongs to one question of the list
    and carries the key of that question. *)
Lemma render_loop_events (ui : ui_input) (key_prefix : string) (qs : list json)
    (i : nat) (r : run) :
  let r' := (for_each (render_question ui key_prefix) i qs r).2 in
  ∃ evs, screen r' = screen r ++ evs
    ∧ ∀ k opts idx, show_radio k opts idx ∈ evs →
        ∃ m q r0, qs !! m = Some q
          ∧ k = unique_key key_prefix (i + m)
          ∧ show_radio k opts idx
              ∈ new_events r0 (render_question ui key_prefix (i + m) q r0).2.
Proof.
  revert i r. induction qs as [|q qs IH]; intros i r.
  - exists []. cbn. rewrite app_nil_r. split; [reflexivity|].
    intros k opts idx Hin. apply elem_of_nil in Hin. destruct Hin.
  - cbv zeta. rewrite for_each_cons.
    pose proof (render_question_renders ui key_prefix i q r)
      as (_ & _ & _ & _ & evs1 & Hs1 & Hk1).
    assert (Hfirst : ∀ k opts idx, show_radio k opts idx ∈ evs1 →
              ∃ m q0 r0, (q :: qs) !! m = Some q0
                ∧ k = unique_key key_prefix (i + m)
                ∧ show_radio k opts idx
                    ∈ new_events r0 (render_question ui key_prefix (i + m) q0 r0).2).
    { intros k opts idx Hin. exists 0%nat, q, r.
      rewrite Nat.add_0_r, (new_events_app _ _ _ Hs1).
      split; [reflexivity|]. split; [eapply Hk1, Hin|exact Hin]. }
    destruct (render_question ui key_prefix i q r) as [[[]|e] r1]; cbn [snd] in *.
    + destruct (IH (S i) r1) as (evs2 & Hs2 & Hk2).
      exists (evs1 ++ evs2). split; [rewrite Hs2, Hs1, (assoc_L (++)); reflexivity|].
      intros k opts idx [Hin|Hin]%elem_of_app; [apply Hfirst, Hin|].
      destruct (Hk2 k opts idx Hin) as (m & q0 & r0 & Hq & Hkey & Hev).
      exists (S m), q0, r0. replace (i + S m)%nat with (S i + m)%nat by lia.
      auto.
    + exists evs1. split; [exact Hs1|exact Hfirst].
Qed.

(** A question whose rendering never writes to [user_answers] keeps its
    stored answer through the whole loop, whatever the loop's outcome. *)
Lemma render_loop_untouched (ui : ui_input) (key_prefix : string)
    (qs : list json) (i k : nat) (q : json) (r : run) :
  (1 ≤ i)%nat →
  qs !! k = Some q →
  (∀ r0, answers (render_question ui key_prefix (i + k) q r0).2 = answers r0) →
  answers (for_each (render_question ui key_prefix) i qs r).2 !! (i + k - 1)%nat
    = answers r !! (i + k - 1)%nat.
Proof.
  revert i k r. induction qs as [|q0 qs IH]; intros i k r Hi Hq Hsame;
    [discriminate|].
  rewrite for_each_cons.
  pose proof (render_question_renders ui key_prefix i q0 r) as (_ & _ & _ & Ha & _).
  destruct k as [|k].
  - injection Hq as ->. rewrite Nat.add_0_r in *.
    pose proof (Hsame r) as Hr.
    destruct (render_question ui key_prefix i q r) as [[[]|e] r1]; cbn [snd] in *.
    + pose proof (render_loop_frame ui key_prefix qs (S i) r1 ltac:(lia))
        as (_ & _ & _ & Hf).
      rewrite Hf by lia. rewrite Hr. reflexivity.
    + rewrite Hr. reflexivity.
  - cbn in Hq.
    destruct (render_question ui key_prefix i q0 r) as [[[]|e] r1]; cbn [snd] in *.
    + replace (i + S k)%nat with (S i + k)%nat in * by lia.
      rewrite (IH (S i) k r1 ltac:(lia) Hq Hsame). apply Ha. lia.
    + apply Ha. lia.
Qed.

(** When the loop completes, a True/False question holds "True" or "False". *)
Lemma render_loop_true_false (ui : ui_input) (key_prefix : string)
    (qs : list json) (i k : nat) (d : list (string * json)) (r r' : run) :
  (1 ≤ i)%nat →
  qs !! k = Some (JDict d) →
  py_eq (dict_get "type" JNull d) (JStr "True/False") = true →
  for_each (render_question ui key_prefix) i qs r = (Ok (), r') →
  answers r' !! (i + k - 1)%nat = Some (JStr "True")
  ∨ answers r' !! (i + k - 1)%nat = Some (JStr "False").
Proof.
  revert i k r. induction qs as [|q0 qs IH]; intros i k r Hi Hq Ht Hrun;
    [discriminate|].
  rewrite for_each_cons in Hrun.
  destruct k as [|k].
  - injection Hq as ->. rewrite Nat.add_0_r.
    destruct (answers r !! (i - 1)%nat) as [stored|] eqn:Hs.
    + rewrite (render_true_false ui key_prefix i d r stored Ht Hs) in Hrun.
      match type of Hrun with
      | for_each _ _ _ ?r1 = _ =>
          pose proof (render_loop_frame ui key_prefix qs (S i) r1 ltac:(lia))
            as (_ & _ & _ & Hf)
      end.
      rewrite Hrun in Hf. cbn [snd answers] in Hf.
      rewrite Hf by lia.
      rewrite list_lookup_insert_eq by (eapply lookup_lt_Some, Hs).
      match goal with
      | |- context [st_radio ?u ?key ?o ?n] =>
          pose proof (st_radio_in u key o n) as Hin
      end.
      unfold TF_OPTIONS in Hin at 1 3. cbn [length] in Hin.
      rewrite !elem_of_cons, elem_of_nil in Hin.
      destruct Hin as [->| [->|[]]]; [destruct (py_eq stored _); lia|auto|auto].
    + exfalso. apply py_eq_str_r in Ht. revert Hrun.
      unfold render_question. cbn [py_get]. rewrite Ht. run_monad.
      cbn [py_eq String.eqb Ascii.eqb Bool.eqb]. unfold get_answer.
      cbn [answers]. rewrite Hs. discriminate.
  - cbn in Hq.
    destruct (render_question ui key_prefix i q0 r) as [[[]|e] r1];
      [|discriminate].
    replace (i + S k)%nat with (S i + k)%nat by lia.
    eapply IH; eauto; lia.
Qed.

(** *** Scoring *)

Lemma tally_nil_r (ua : list json) : tally ua [] = 0%nat.
Proof. unfold tally. destruct ua; reflexivity. Qed.

Lemma tally_cons (a : json) (ua : list json) (q : json) (qs : list json) :
  tally (a :: ua) (q :: qs) =
    ((if is_correct a q then 1 else 0) + tally ua qs)%nat.
Proof.
  unfold tally. cbn [zip zip_with]. rewrite filter_cons. cbn [fst snd].
  destruct (is_correct a q); case_decide; try congruence; reflexivity.
Qed.

Lemma tally_le (ua qs : list json) : (tally ua qs ≤ length qs)%nat.
Proof.
  revert ua. induction qs as [|q qs IH]; intros ua.
  - rewrite tally_nil_r. lia.
  - destruct ua as [|a ua]; [unfold tally; cbn; lia|].
    rewrite tally_cons. specialize (IH ua). cbn [length].
    destruct (is_correct a q); lia.
Qed.

Lemma drop_pred_lookup {A} (l : list A) (i : nat) (a : A) :
  (1 ≤ i)%nat → l !! (i - 1)%nat = Some a → drop (i - 1) l = a :: drop i l.
Proof.
  intros Hi Ha. rewrite (drop_S l a (i - 1) Ha). f_equal. f_equal. lia.
Qed.

(** The scoring loop of a submission: it counts the positions whose stored
    answer equals the canonical answer, and changes nothing. *)
Lemma count_correct_tally (qs : list json) (i acc : nat) (r : run) :
  Forall (λ q, is_dict q = true) qs →
  (1 ≤ i)%nat →
  (i - 1 + length qs ≤ length (answers r))%nat →
  count_correct i qs acc r
    = (Ok (acc + tally (drop (i - 1) (answers r)) qs)%nat, r).
Proof.
  revert i acc. induction qs as [|q qs IH]; intros i acc Hd Hi Hlen.
  - rewrite tally_nil_r, Nat.add_0_r. reflexivity.
  - apply Forall_cons in Hd as [Hq Hd]. cbn [length] in Hlen.
    destruct q as [| | | | |d]; try discriminate.
    destruct (lookup_lt_is_Some_2 (answers r) (i - 1) ltac:(lia)) as [a Ha].
    cbn [count_correct py_get]. run_monad. unfold get_answer. rewrite Ha.
    rewrite (IH (S i)) by (try exact Hd; lia).
    rewrite (drop_pred_lookup _ _ _ Hi Ha), tally_cons.
    replace (S i - 1)%nat with i by lia.
    unfold is_correct, answer_of.
    destruct (py_eq a (dict_get "answer" (JStr "") d)); do 2 f_equal; lia.
Qed.

(** The feedback loop computes the same count and only adds to the page. *)
Lemma show_feedback_tally (qs : list json) (i acc : nat) (r : run) :
  Forall (λ q, is_dict q = true) qs →
  (1 ≤ i)%nat →
  (i - 1 + length qs ≤ length (answers r))%nat →
  ∃ evs, show_feedback i qs acc r
    = (Ok (acc + tally (drop (i - 1) (answers r)) qs)%nat,
       Run (answers r) (is_submitted r) (history r) (screen r ++ evs)).
Proof.
  revert i acc r. induction qs as [|q qs IH]; intros i acc r Hd Hi Hlen.
  - exists []. rewrite tally_nil_r, Nat.add_0_r, app_nil_r, run_eta. reflexivity.
  - apply Forall_cons in Hd as [Hq Hd]. cbn [length] in Hlen.
    destruct q as [| | | | |d]; try discriminate.
    destruct (lookup_lt_is_Some_2 (answers r) (i - 1) ltac:(lia)) as [a Ha].
    cbn [show_feedback py_get]. run_monad. unfold get_answer. rewrite Ha.
    rewrite (drop_pred_lookup _ _ _ Hi Ha), tally_cons.
    unfold is_correct, answer_of.
    destruct (py_eq a (dict_get "answer" (JStr "") d));
      cbn [answers is_submitted history screen].
    all: match goal with
         | |- context [show_feedback ?j _ ?c ?r1] =>
             destruct (IH j c r1 Hd ltac:(lia) ltac:(cbn [answers]; lia))
               as [evs ->]
         end.
    all: cbn [answers is_submitted history screen].
    all: replace (S i - 1)%nat with i by lia.
    all: eexists; rewrite <- !(assoc_L (++)); do 2 f_equal; lia.
Qed.

Lemma scoring_loops_agree (qs : list json) (i acc : nat) (r1 r2 : run) :
  answers r1 = answers r2 →
  (count_correct i qs acc r1).1 = (show_feedback i qs acc r2).1.
Proof.
  revert i acc r1 r2. induction qs as [|q qs IH]; intros i acc r1 r2 Ha;
    [reflexivity|].
  cbn [count_correct show_feedback]. run_monad. unfold get_answer. rewrite Ha.
  destruct (answers r2 !! (i - 1)%nat) as [a|]; [|reflexivity].
  destruct q as [| | | | |d]; try reflexivity. cbn [py_get].
  destruct (py_eq a (dict_get "answer" (JStr "") d));
    cbn [answers is_submitted history screen]; apply IH; exact Ha.
Qed.

(** C6. For one question list and one state of the answers, the count of the
    scoring loop at submission and the count of the feedback loop at that or
    any later rendering are the same result (the same count, or the same
    exception), so the fraction shown is the fraction stored. *)
Theorem scoring_idempotent (qs : list json) (at_submit at_render : run) :
  answers at_submit = answers at_render →
  (count_correct 1 qs 0 at_submit).1 = (show_feedback 1 qs 0 at_render).1
  ∧ (show_feedback 1 qs 0 at_submit).1 = (show_feedback 1 qs 0 at_render).1
  ∧ ∀ c c', (count_correct 1 qs 0 at_submit).1 = Ok c →
            (show_feedback 1 qs 0 at_render).1 = Ok c' →
            score_str c (length qs) = score_str c' (length qs).
Proof.
  intros Ha. pose proof (scoring_loops_agree qs 1 0 _ _ Ha) as H1.
  pose proof (scoring_loops_agree qs 1 0 at_submit at_submit eq_refl) as H2.
  split; [exact H1|]. split; [congruence|].
  intros c c' Hc Hc'. congruence.
Qed.

(** *** Submission *)

Lemma well_formed_is_dict (qs : list json) :
  Forall (λ q, well_formed_question q = true) qs →
  Forall (λ q, is_dict q = true) qs.
Proof.
  intros H. eapply Forall_impl; [exact H|].
  intros q. destruct q; cbn; congruence.
Qed.

Lemma py_eq_str_l (s : string) (v : json) : py_eq (JStr s) v = true ↔ v = JStr s.
Proof.
  destruct v; cbn; try (split; congruence).
  rewrite String.eqb_eq. split; congruence.
Qed.

(** Lines 214-268 on a run in which the submit button is pressed. *)
Lemma quiz_body_submit (ui : ui_input) (qs : list json)
    (key_prefix topic quiz_type : string) (r : run) :
  Forall (λ q, well_formed_question q = true) qs →
  length (answers r) = length qs →
  button_pressed ui (key_prefix +:+ "_submit") = true →
  ∃ ua page,
    length ua = length qs
    ∧ quiz_body ui (JList qs) key_prefix topic quiz_type r =
        (Ok (),
         Run ua (Some true)
             (history_append
                (Attempt quiz_type topic
                   (score_str (tally ua qs) (length qs)) (clock ui))
                (history r))
             (screen r ++ page))
    ∧ show_score (tally ua qs) (length qs) ∈ page.
Proof.
  intros Hwf Hlen Hb.
  pose proof (render_loop_ok ui key_prefix qs 1 r Hwf ltac:(lia) ltac:(lia)) as Hok.
  pose proof (render_loop_frame ui key_prefix qs 1 r ltac:(lia)) as (Hs & Hh & Hl & _).
  pose proof (render_loop_events ui key_prefix qs 1 r) as (evs & Hscr & _).
  unfold quiz_body, on_submit, show_results. cbn [py_iter]. run_monad.
  destruct (for_each (render_question ui key_prefix) 1 qs r) as [[[]|e] r1];
    [|discriminate].
  cbn [fst snd] in *. rewrite Hb. cbn [answers is_submitted history screen].
  pose proof (well_formed_is_dict qs Hwf) as Hd.
  rewrite count_correct_tally by (try exact Hd; cbn [answers]; lia).
  cbn [py_len answers is_submitted history screen default from_option id].
  match goal with
  | |- context [show_feedback 1 qs 0 ?r2] =>
      destruct (show_feedback_tally qs 1 0 r2 Hd ltac:(lia)
                  ltac:(cbn [answers]; lia)) as [fb ->]
  end.
  cbn [answers is_submitted history screen Nat.sub Nat.add].
  rewrite !drop_0. exists (answers r1).
  destruct (tally (answers r1) qs =? length qs)%nat;
    cbn [answers is_submitted history screen].
  - exists (evs ++ fb ++ [show_score (tally (answers r1) qs) (length qs); st_balloons]).
    split; [lia|]. split.
    + rewrite Hh, Hscr, <- !(assoc_L (++)). reflexivity.
    + rewrite !elem_of_app, !elem_of_cons. auto.
  - exists (evs ++ fb ++ [show_score (tally (answers r1) qs) (length qs)]).
    split; [lia|]. split.
    + rewrite Hh, Hscr, <- !(assoc_L (++)). reflexivity.
    + rewrite !elem_of_app, !elem_of_cons. auto.
Qed.

Lemma tally_strings (ua qs : list json) :
  Forall (λ a, is_str a = true) ua →
  tally ua qs
    = length (filter (λ aq, same_string aq.1 (answer_of aq.2) = true)
                (zip ua qs)).
Proof.
  revert qs. induction ua as [|a ua IH]; intros [|q qs] Hs; try reflexivity.
  apply Forall_cons in Hs as [Ha Hs]. rewrite tally_cons, (IH qs Hs).
  cbn [zip zip_with]. rewrite filter_cons. cbn [fst snd].
  destruct a as [| | |x| |]; try discriminate.
  unfold is_correct. destruct (answer_of q); cbn [py_eq same_string];
    case_decide; try congruence; try reflexivity.
  - destruct (String.eqb x s); try congruence; reflexivity.
  - destruct (String.eqb x s); try congruence; reflexivity.
Qed.

(** C5, amended. On a run of a well-formed quiz in which the submit button
    is pressed, [display_interactive_quiz] completes; the instance is marked
    submitted; exactly one attempt is appended to the history, whose score
    reads "count/number of questions", the count being what the scoring loop
    returns: the number of questions whose stored answer equals the
    canonical answer under Python's [==]. For a stored string that is exact
    string equality, so when every stored answer is a string the count is
    the number of questions whose canonical answer is the same string; an
    unset answer, [None], equals a null canonical answer. That count is the
    one shown; other instances are left alone. *)
Theorem submit_scores_and_logs (ui : ui_input) (d : list (string * json))
    (qs : list json) (key_prefix topic quiz_type : string) (s : session_state) :
  dict_get "questions" (JList []) d = JList qs →
  qs ≠ [] →
  Forall (λ q, well_formed_question q = true) qs →
  (∀ ua, user_answers s !! key_prefix = Some ua → length ua = length qs) →
  button_pressed ui (key_prefix +:+ "_submit") = true →
  ∃ s' page ua,
    display_interactive_quiz ui (JDict d) key_prefix topic quiz_type s
      = (Ok (), s', page)
    ∧ user_answers s' !! key_prefix = Some ua
    ∧ length ua = length qs
    ∧ submitted s' !! key_prefix = Some true
    ∧ quiz_history s' =
        quiz_history s ++
          [Attempt quiz_type topic
             (pretty (tally ua qs) +:+ "/" +:+ pretty (length qs)) (clock ui)]
    ∧ (∀ r, answers r = ua → (count_correct 1 qs 0 r).1 = Ok (tally ua qs))
    ∧ tally ua qs
        = length (filter (λ aq, py_eq aq.1 (answer_of aq.2) = true) (zip ua qs))
    ∧ (Forall (λ a, is_str a = true) ua →
       tally ua qs
         = length (filter (λ aq, same_string aq.1 (answer_of aq.2) = true)
                     (zip ua qs)))
    ∧ (∀ a q, is_correct (JStr a) q = true ↔ answer_of q = JStr a)
    ∧ (∀ q, is_correct JNull q = true ↔ answer_of q = JNull)
    ∧ show_score (tally ua qs) (length qs) ∈ page
    ∧ ∀ k, k ≠ key_prefix →
        user_answers s' !! k = user_answers s !! k
        ∧ submitted s' !! k = submitted s !! k.
Proof.
  intros Hq Hne Hwf Hua Hb. unfold display_interactive_quiz. rewrite Hq.
  destruct qs as [|q0 qs0] eqn:Hqs; [congruence|]. cbn [py_truthy negb].
  rewrite <- Hqs in *. clear Hne.
  set (bound := match user_answers s !! key_prefix with
                | Some ua => Ok ua
                | None => n ← py_len (JList qs); mret (replicate n JNull)
                end).
  assert (Hbound : ∃ ua0, bound = Ok ua0 ∧ length ua0 = length qs).
  { subst bound. destruct (user_answers s !! key_prefix) as [ua|] eqn:Hk.
    - exists ua. split; [reflexivity|apply Hua; reflexivity].
    - exists (replicate (length qs) JNull). split; [reflexivity|apply length_replicate]. }
  destruct Hbound as (ua0 & -> & Hlen0).
  destruct (quiz_body_submit ui qs key_prefix topic quiz_type
              (Run ua0 (submitted s !! key_prefix) (quiz_history s) [])
              Hwf Hlen0 Hb) as (ua & page & Hlen & -> & Hscore).
  cbn [answers is_submitted history screen app].
  exists (Session (<[key_prefix:=ua]> (user_answers s))
                  (<[key_prefix:=true]> (submitted s))
                  (history_append
                     (Attempt quiz_type topic (score_str (tally ua qs) (length qs))
                        (clock ui)) (quiz_history s))), page, ua.
  cbn [user_answers submitted quiz_history].
  split; [reflexivity|]. split; [apply lookup_insert_eq|]. split; [exact Hlen|].
  split; [apply lookup_insert_eq|]. split; [reflexivity|].
  split.
  { intros r Hr.
    rewrite (count_correct_tally qs 1 0 r (well_formed_is_dict qs Hwf)
               ltac:(lia) ltac:(rewrite Hr; lia)).
    cbn [fst Nat.sub Nat.add]. rewrite drop_0, Hr. reflexivity. }
  split; [reflexivity|]. split; [apply tally_strings|].
  split; [intros a q; unfold is_correct; apply py_eq_str_l|].
  split; [intros q; unfold is_correct; apply py_eq_null_l|].
  split; [exact Hscore|].
  intros k Hk. rewrite !lookup_insert_ne by congruence. auto.
Qed.

(** *** What the scoring loops leave alone *)

Lemma count_correct_state (qs : list json) (i acc : nat) (r : run) :
  (count_correct i qs acc r).2 = r.
Proof.
  revert i acc. induction qs as [|q qs IH]; intros i acc; [reflexivity|].
  cbn [count_correct]. run_monad. unfold get_answer.
  destruct (answers r !! (i - 1)%nat) as [a|]; [|reflexivity].
  destruct q as [| | | | |d]; try reflexivity. cbn [py_get]. apply IH.
Qed.

Lemma no_radio_nil : no_radio [].
Proof. intros k opts idx Hin. apply elem_of_nil in Hin. exact Hin. Qed.

Lemma no_radio_app (a b : list ui_event) :
  no_radio a → no_radio b → no_radio (a ++ b).
Proof.
  intros Ha Hb k opts idx [H|H]%elem_of_app; [eapply Ha, H|eapply Hb, H].
Qed.

Lemma show_feedback_state (qs : list json) (i acc : nat) (r : run) :
  ∃ evs, (show_feedback i qs acc r).2
           = Run (answers r) (is_submitted r) (history r) (screen r ++ evs)
         ∧ no_radio evs.
Proof.
  revert i acc r. induction qs as [|q qs IH]; intros i acc r.
  - exists []. cbn. rewrite app_nil_r, run_eta. split; [reflexivity|apply no_radio_nil].
  - cbn [show_feedback]. run_monad. unfold get_answer.
    destruct (answers r !! (i - 1)%nat) as [a|]; cbn [snd].
    2:{ exists []. rewrite app_nil_r, run_eta. split; [reflexivity|apply no_radio_nil]. }
    destruct q as [| | | | |d]; cbn [py_get snd];
      try (exists []; rewrite app_nil_r, run_eta; split;
           [reflexivity|apply no_radio_nil]).
    destruct (py_eq a (dict_get "answer" (JStr "") d));
      cbn [answers is_submitted history screen].
    all: match goal with
         | |- context [show_feedback ?j _ ?c ?r1] =>
             destruct (IH j c r1) as (evs & -> & Hno)
         end.
    all: cbn [answers is_submitted history screen].
    all: eexists; split; [rewrite <- !(assoc_L (++)); reflexivity|].
    all: repeat apply no_radio_app; try exact Hno.
    all: intros k opts idx Hin; rewrite ?elem_of_cons, elem_of_nil in Hin;
      intuition congruence.
Qed.

Lemma show_results_state (qs : list json) (r : run) :
  let r' := (show_results (JList qs) qs r).2 in
  answers r' = answers r ∧ ∃ evs, screen r' = screen r ++ evs ∧ no_radio evs.
Proof.
  unfold show_results. run_monad.
  destruct (default false (is_submitted r)).
  2:{ cbn [snd]. split; [reflexivity|]. exists []. rewrite app_nil_r.
      split; [reflexivity|apply no_radio_nil]. }
  destruct (show_feedback_state qs 1 0 r) as (evs & Hst & Hno).
  destruct (show_feedback 1 qs 0 r) as [[c|e] r3]; cbn [snd] in Hst; subst r3.
  - cbn [py_len answers is_submitted history screen].
    destruct (c =? length qs)%nat; cbn [snd answers screen].
    + split; [reflexivity|].
      exists (evs ++ [show_score c (length qs)] ++ [st_balloons]).
      split; [rewrite <- !(assoc_L (++)); reflexivity|].
      repeat apply no_radio_app; try exact Hno;
        intros k opts idx Hin; rewrite ?elem_of_cons, elem_of_nil in Hin;
        intuition congruence.
    + split; [reflexivity|]. exists (evs ++ [show_score c (length qs)]).
      split; [rewrite <- !(assoc_L (++)); reflexivity|].
      repeat apply no_radio_app; try exact Hno;
        intros k opts idx Hin; rewrite ?elem_of_cons, elem_of_nil in Hin;
        intuition congruence.
  - cbn [snd answers screen]. split; [reflexivity|]. exists evs.
    split; [reflexivity|exact Hno].
Qed.

Lemma on_submit_state (ui : ui_input) (qs : list json)
    (key_prefix topic quiz_type : string) (r : run) :
  let r' := (on_submit ui (JList qs) qs key_prefix topic quiz_type r).2 in
  answers r' = answers r ∧ screen r' = screen r.
Proof.
  unfold on_submit. destruct (button_pressed ui (key_prefix +:+ "_submit"));
    [|split; reflexivity].
  run_monad.
  pose proof (count_correct_state qs 1 0
                (Run (answers r) (Some true) (history r) (screen r))) as Hc.
  destruct (count_correct 1 qs 0 _) as [[c|e] r2]; cbn [snd] in Hc; subst r2;
    split; reflexivity.
Qed.

(** After the rendering loop, [quiz_body] writes no answer and shows no
    radio widget. *)
Lemma quiz_body_after_loop (ui : ui_input) (qs : list json)
    (key_prefix topic quiz_type : string) (r : run) :
  let rl := (for_each (render_question ui key_prefix) 1 qs r).2 in
  let r' := (quiz_body ui (JList qs) key_prefix topic quiz_type r).2 in
  answers r' = answers rl
  ∧ ∃ evs, screen r' = screen rl ++ evs ∧ no_radio evs.
Proof.
  unfold quiz_body. cbn [py_iter]. run_monad.
  destruct (for_each (render_question ui key_prefix) 1 qs r) as [[[]|e] r1];
    cbn [snd].
  2:{ split; [reflexivity|]. exists []. rewrite app_nil_r.
      split; [reflexivity|apply no_radio_nil]. }
  pose proof (on_submit_state ui qs key_prefix topic quiz_type r1) as [Ha Hs].
  destruct (on_submit ui (JList qs) qs key_prefix topic quiz_type r1)
    as [[[]|e] r2]; cbn [snd] in *.
  - pose proof (show_results_state qs r2) as (Ha' & evs & Hs' & Hno).
    destruct (show_results (JList qs) qs r2) as [res r3]; cbn [snd] in *.
    split; [congruence|]. exists evs. split; [congruence|exact Hno].
  - split; [exact Ha|]. exists []. rewrite app_nil_r.
    split; [exact Hs|apply no_radio_nil].
Qed.

(** *** What the loops show and count, whatever the outcome *)

Ltac solve_kinds :=
  first
    [ exists []; split; [rewrite app_nil_r; reflexivity|reflexivity]
    | eexists; split; [rewrite <- ?(assoc_L (++)); reflexivity|reflexivity] ].

Lemma render_question_kinds (ui : ui_input) (key_prefix : string) (i : nat)
    (q : json) (r : run) :
  ∃ evs, screen (render_question ui key_prefix i q r).2 = screen r ++ evs
         ∧ forallb is_question_event evs = true.
Proof.
  unfold render_question.
  destruct q as [| | | |l|d]; try (run_monad; cbn; solve_kinds).
  cbn [py_get]. run_monad.
  destruct (py_eq (dict_get "type" JNull d) (JStr "MCQ")) eqn:Ht.
  - destruct (py_len (dict_get "options" (JList []) d)) as [n|e]; cbn;
      [|solve_kinds].
    destruct (n =? 4)%nat; cbn.
    + unfold get_answer; cbn.
      destruct (answers r !! (i - 1)%nat) as [current|]; cbn; [|solve_kinds].
      destruct (py_in current (dict_get "options" (JList []) d)) as [[|]|e];
        cbn; [| |solve_kinds].
      * destruct (py_index current (dict_get "options" (JList []) d)) as [k|e];
          cbn; [|solve_kinds].
        destruct (dict_get "options" (JList []) d); cbn; try solve_kinds.
        unfold set_answer; cbn. case_decide; cbn; solve_kinds.
      * destruct (dict_get "options" (JList []) d); cbn; try solve_kinds.
        unfold set_answer; cbn. case_decide; cbn; solve_kinds.
    + destruct (py_eq (dict_get "type" JNull d) (JStr "True/False")); cbn;
        [|solve_kinds].
      unfold get_answer; cbn.
      destruct (answers r !! (i - 1)%nat) as [stored|]; cbn; [|solve_kinds].
      unfold set_answer; cbn. case_decide; cbn; solve_kinds.
  - cbn. destruct (py_eq (dict_get "type" JNull d) (JStr "True/False")); cbn;
      [|solve_kinds].
    unfold get_answer; cbn.
    destruct (answers r !! (i - 1)%nat) as [stored|]; cbn; [|solve_kinds].
    unfold set_answer; cbn. case_decide; cbn; solve_kinds.
Qed.

Lemma render_loop_kinds (ui : ui_input) (key_prefix : string) (qs : list json)
    (i : nat) (r : run) :
  ∃ evs, screen (for_each (render_question ui key_prefix) i qs r).2
           = screen r ++ evs
         ∧ forallb is_question_event evs = true.
Proof.
  revert i r. induction qs as [|q qs IH]; intros i r.
  - exists []. cbn. rewrite app_nil_r. auto.
  - rewrite for_each_cons.
    destruct (render_question_kinds ui key_prefix i q r) as (evs1 & Hs1 & Hk1).
    destruct (render_question ui key_prefix i q r) as [[[]|e] r1]; cbn [snd] in *.
    + destruct (IH (S i) r1) as (evs2 & Hs2 & Hk2).
      exists (evs1 ++ evs2). rewrite Hs2, Hs1, <- (assoc_L (++)).
      split; [reflexivity|]. rewrite forallb_app, Hk1, Hk2. reflexivity.
    + exists evs1. auto.
Qed.

Lemma show_feedback_kinds (qs : list json) (i acc : nat) (r : run) :
  ∃ evs, (show_feedback i qs acc r).2
           = Run (answers r) (is_submitted r) (history r) (screen r ++ evs)
         ∧ forallb is_feedback_event evs = true.
Proof.
  revert i acc r. induction qs as [|q qs IH]; intros i acc r.
  - exists []. cbn. rewrite app_nil_r, run_eta. auto.
  - cbn [show_feedback]. run_monad. unfold get_answer.
    destruct (answers r !! (i - 1)%nat) as [a|]; cbn [snd].
    2:{ exists []. rewrite app_nil_r, run_eta. auto. }
    destruct q as [| | | | |d]; cbn [py_get snd];
      try (exists []; rewrite app_nil_r, run_eta; split; reflexivity).
    destruct (py_eq a (dict_get "answer" (JStr "") d));
      cbn [answers is_submitted history screen].
    all: match goal with
         | |- context [show_feedback ?j _ ?c ?r1] =>
             destruct (IH j c r1) as (evs & -> & Hk)
         end.
    all: cbn [answers is_submitted history screen].
    all: eexists; split; [rewrite <- !(assoc_L (++)); reflexivity|].
    all: cbn [app forallb is_feedback_event andb]; exact Hk.
Qed.

(** The scoring loop, when it completes, returns the tally. *)
Lemma count_correct_ok (qs : list json) (i acc : nat) (r : run) (c : nat) :
  (1 ≤ i)%nat →
  (count_correct i qs acc r).1 = Ok c →
  c = (acc + tally (drop (i - 1) (answers r)) qs)%nat.
Proof.
  revert i acc. induction qs as [|q qs IH]; intros i acc Hi Hc.
  - rewrite tally_nil_r, Nat.add_0_r. cbn in Hc. congruence.
  - cbn [count_correct] in Hc. revert Hc. run_monad. unfold get_answer.
    destruct (answers r !! (i - 1)%nat) as [a|] eqn:Ha; [|discriminate].
    destruct q as [| | | | |d]; cbn [py_get]; try discriminate.
    intros Hc. apply IH in Hc; [|lia].
    rewrite (drop_pred_lookup _ _ _ Hi Ha), tally_cons.
    replace (S i - 1)%nat with i in Hc by lia.
    unfold is_correct, answer_of. rewrite Hc.
    destruct (py_eq a (dict_get "answer" (JStr "") d)); lia.
Qed.

(** The feedback loop: what it shows for each question it reaches, and the
    tally it returns when it completes. *)
Lemma show_feedback_events (qs : list json) (i acc : nat) (r : run) :
  (1 ≤ i)%nat →
  ∃ res fb,
    show_feedback i qs acc r
      = (res, Run (answers r) (is_submitted r) (history r) (screen r ++ fb))
    ∧ forallb is_feedback_event fb = true
    ∧ (∀ m, show_correct m ∈ fb →
         ∃ j q a, qs !! j = Some q ∧ m = (i + j)%nat
           ∧ answers r !! (i - 1 + j)%nat = Some a ∧ is_correct a q = true)
    ∧ (∀ c, res = Ok c →
         c = (acc + tally (drop (i - 1) (answers r)) qs)%nat
         ∧ ∀ j q a, qs !! j = Some q → answers r !! (i - 1 + j)%nat = Some a →
             is_correct a q = false →
             show_incorrect (i + j) (answer_of q) ∈ fb).
Proof.
  revert i acc r. induction qs as [|q qs IH]; intros i acc r Hi.
  - exists (Ok acc), []. rewrite app_nil_r, run_eta.
    split; [reflexivity|]. split; [reflexivity|]. split.
    + intros m Hin. apply elem_of_nil in Hin. destruct Hin.
    + intros c [= <-]. rewrite tally_nil_r, Nat.add_0_r. split; [reflexivity|].
      intros j q a Hq. discriminate.
  - cbn [show_feedback]. run_monad. unfold get_answer.
    destruct (answers r !! (i - 1)%nat) as [a|] eqn:Ha.
    2:{ exists (Raise IndexError), []. rewrite app_nil_r, run_eta.
        split; [reflexivity|]. split; [reflexivity|]. split.
        - intros m Hin. apply elem_of_nil in Hin. destruct Hin.
        - intros c Hc. discriminate. }
    destruct q as [| | | | |d]; cbn [py_get].
    1-5: exists (Raise AttributeError), []; rewrite app_nil_r, run_eta;
      (split; [reflexivity|]); (split; [reflexivity|]); split;
      [intros m Hin; apply elem_of_nil in Hin; destruct Hin
      |intros c Hc; discriminate].
    destruct (py_eq a (dict_get "answer" (JStr "") d)) eqn:He;
      cbn [answers is_submitted history screen].
    all: match goal with
         | |- context [show_feedback ?j _ ?c ?r1] =>
             destruct (IH j c r1 ltac:(lia)) as (res & fb & -> & Hk & Hcor & Hok)
         end.
    all: cbn [answers is_submitted history screen] in *.
    all: eexists res, (_ :: _ :: _ :: fb).
    all: split; [rewrite <- !(assoc_L (++)); reflexivity|].
    all: split; [cbn [forallb is_feedback_event andb]; exact Hk|].
    all: split.
    + intros m Hin. rewrite !elem_of_cons in Hin.
      destruct Hin as [[= ->]|[Hin|[Hin|Hin]]]; try discriminate.
      * exists 0%nat, (JDict d), a. rewrite !Nat.add_0_r.
        split; [reflexivity|]. split; [reflexivity|]. split; [exact Ha|].
        exact He.
      * destruct (Hcor m Hin) as (j & q & a' & Hq & -> & Ha' & Hc').
        exists (S j), q, a'. split; [exact Hq|]. split; [lia|].
        split; [|exact Hc'].
        replace (i - 1 + S j)%nat with (S i - 1 + j)%nat by lia. exact Ha'.
    + intros c Hc. destruct (Hok c Hc) as (-> & Hinc).
      rewrite (drop_pred_lookup _ _ _ Hi Ha), tally_cons.
      replace (S i - 1)%nat with i by lia.
      unfold is_correct at 1, answer_of at 1. rewrite He. split; [lia|].
      intros [|j] q a' Hq Ha' Hfalse.
      * rewrite Nat.add_0_r in Ha'. cbn in Hq. simplify_eq.
        unfold is_correct, answer_of in Hfalse. congruence.
      * rewrite !elem_of_cons. right. right. right.
        replace (i + S j)%nat with (S i + j)%nat by lia.
        apply (Hinc j q a' Hq); [|exact Hfalse].
        replace (S i - 1 + j)%nat with (i - 1 + S j)%nat by lia. exact Ha'.
    + intros m Hin. rewrite !elem_of_cons in Hin.
      destruct Hin as [Hin|[Hin|[Hin|Hin]]]; try discriminate.
      destruct (Hcor m Hin) as (j & q & a' & Hq & -> & Ha' & Hc').
      exists (S j), q, a'. split; [exact Hq|]. split; [lia|].
      split; [|exact Hc'].
      replace (i - 1 + S j)%nat with (S i - 1 + j)%nat by lia. exact Ha'.
    + intros c Hc. destruct (Hok c Hc) as (-> & Hinc).
      rewrite (drop_pred_lookup _ _ _ Hi Ha), tally_cons.
      replace (S i - 1)%nat with i by lia.
      unfold is_correct at 1, answer_of at 1. rewrite He. split; [lia|].
      intros [|j] q a' Hq Ha' Hfalse.
      * rewrite Nat.add_0_r in Ha'. cbn in Hq. simplify_eq.
        rewrite Nat.add_0_r. rewrite !elem_of_cons. left. reflexivity.
      * rewrite !elem_of_cons. right. right. right.
        replace (i + S j)%nat with (S i + j)%nat by lia.
        apply (Hinc j q a' Hq); [|exact Hfalse].
        replace (S i - 1 + j)%nat with (i - 1 + S j)%nat by lia. exact Ha'.
Qed.

(** A question that is not counted can be left out of the tally. *)
Lemma tally_delete (ua qs : list json) (k : nat) (a q : json) :
  ua !! k = Some a → qs !! k = Some q → is_correct a q = false →
  tally ua qs = tally (delete k ua) (delete k qs).
Proof.
  revert ua qs. induction k as [|k IH]; intros [|a0 ua] [|q0 qs] Ha Hq Hc;
    try discriminate.
  - cbn in Ha, Hq. simplify_eq. rewrite tally_cons, Hc. reflexivity.
  - cbn in Ha, Hq. cbn [delete list_delete]. rewrite !tally_cons.
    rewrite (IH ua qs Ha Hq Hc). reflexivity.
Qed.

Lemma tally_delete_lt (ua qs : list json) (k : nat) (q : json) :
  qs !! k = Some q →
  (tally (delete k ua) (delete k qs) < length qs)%nat.
Proof.
  intros Hq. pose proof (tally_le (delete k ua) (delete k qs)) as Hle.
  pose proof (lookup_lt_Some _ _ _ Hq) as Hlt.
  rewrite length_delete in Hle by (eexists; exact Hq). lia.
Qed.

(** Lines 234-250: the three ways the submit block ends. *)
Lemma on_submit_scoring (ui : ui_input) (qs : list json)
    (key_prefix topic quiz_type : string) (r : run) :
  let out := on_submit ui (JList qs) qs key_prefix topic quiz_type r in
  (button_pressed ui (key_prefix +:+ "_submit") = false ∧ out = (Ok (), r))
  ∨ (button_pressed ui (key_prefix +:+ "_submit") = true
     ∧ ∃ e, out = (Raise e,
                   Run (answers r) (Some true) (history r) (screen r)))
  ∨ (button_pressed ui (key_prefix +:+ "_submit") = true
     ∧ out = (Ok (),
              Run (answers r) (Some true)
                  (history r ++
                     [Attempt quiz_type topic
                        (score_str (tally (answers r) qs) (length qs))
                        (clock ui)])
                  (screen r))).
Proof.
  cbv zeta. unfold on_submit.
  destruct (button_pressed ui (key_prefix +:+ "_submit")); [|left; auto].
  right. run_monad.
  pose proof (count_correct_state qs 1 0
                (Run (answers r) (Some true) (history r) (screen r))) as Hst.
  pose proof (count_correct_ok qs 1 0
                (Run (answers r) (Some true) (history r) (screen r))) as Hok.
  destruct (count_correct 1 qs 0 _) as [[c|e] r2]; cbn [fst snd] in *; subst r2.
  - right. split; [reflexivity|].
    rewrite (Hok c ltac:(lia) eq_refl). cbn [py_len answers Nat.sub Nat.add].
    rewrite drop_0. reflexivity.
  - left. split; [reflexivity|]. exists e. reflexivity.
Qed.

(** Lines 252-268: what the results block shows. *)
Lemma show_results_scoring (qs : list json) (r : run) :
  ∃ res evs,
    show_results (JList qs) qs r
      = (res, Run (answers r) (is_submitted r) (history r) (screen r ++ evs))
    ∧ forallb (λ e, negb (is_question_event e) || is_feedback_event e) evs
      = true
    ∧ (∀ m, show_correct m ∈ evs →
         ∃ j q a, qs !! j = Some q ∧ m = S j
           ∧ answers r !! j = Some a ∧ is_correct a q = true)
    ∧ (∀ c n, show_score c n ∈ evs →
         c = tally (answers r) qs ∧ n = length qs)
    ∧ (st_balloons ∈ evs → tally (answers r) qs = length qs)
    ∧ (res = Ok () → is_submitted r = Some true →
       show_score (tally (answers r) qs) (length qs) ∈ evs
       ∧ ∀ j q a, qs !! j = Some q → answers r !! j = Some a →
           is_correct a q = false →
           show_incorrect (S j) (answer_of q) ∈ evs).
Proof.
  unfold show_results. run_monad.
  destruct (default false (is_submitted r)) eqn:Hsub.
  2:{ exists (Ok ()), []. rewrite app_nil_r, run_eta.
      split; [reflexivity|]. split; [reflexivity|].
      split; [intros m Hin; apply elem_of_nil in Hin; destruct Hin|].
      split; [intros c n Hin; apply elem_of_nil in Hin; destruct Hin|].
      split; [intros Hin; apply elem_of_nil in Hin; destruct Hin|].
      intros _ Hs. rewrite Hs in Hsub. discriminate. }
  destruct (show_feedback_events qs 1 0 r ltac:(lia))
    as (res & fb & -> & Hk & Hcor & Hok).
  assert (Hfbk : ∀ e, e ∈ fb → is_feedback_event e = true).
  { intros e He. rewrite forallb_forall in Hk. apply Hk.
    apply list_elem_of_In, He. }
  assert (Hk' : forallb (λ e, negb (is_question_event e) || is_feedback_event e)
                  fb = true).
  { apply forallb_forall. intros e He%list_elem_of_In.
    rewrite (Hfbk e He). apply orb_true_r. }
  assert (Hcor' : ∀ m, show_correct m ∈ fb →
            ∃ j q a, qs !! j = Some q ∧ m = S j
              ∧ answers r !! j = Some a ∧ is_correct a q = true).
  { intros m Hin. destruct (Hcor m Hin) as (j & q & a & Hq & -> & Ha & Hc).
    exists j, q, a. auto. }
  destruct res as [c|e]; cbn [py_len answers is_submitted history screen].
  2:{ exists (Raise e), fb. split; [reflexivity|]. split; [exact Hk'|].
      split; [exact Hcor'|].
      split; [intros c n Hin; apply Hfbk in Hin; discriminate|].
      split; [intros Hin; apply Hfbk in Hin; discriminate|].
      intros Hres. discriminate. }
  destruct (Hok c eq_refl) as (Hc & Hinc).
  cbn [Nat.sub Nat.add] in Hc. rewrite drop_0 in Hc. subst c.
  destruct (tally (answers r) qs =? length qs)%nat eqn:Hfull;
    cbn [answers is_submitted history screen].
  - exists (Ok ()),
      (fb ++ [show_score (tally (answers r) qs) (length qs); st_balloons]).
    split; [rewrite <- !(assoc_L (++)); reflexivity|].
    split; [rewrite forallb_app, Hk'; reflexivity|].
    split.
    { intros m Hin. apply elem_of_app in Hin as [Hin|Hin]; [apply Hcor', Hin|].
      rewrite !elem_of_cons, elem_of_nil in Hin. intuition discriminate. }
    split.
    { intros c n Hin. apply elem_of_app in Hin as [Hin|Hin].
      - apply Hfbk in Hin. discriminate.
      - rewrite !elem_of_cons, elem_of_nil in Hin.
        destruct Hin as [[= -> ->]|[Hin|[]]]; [auto|discriminate]. }
    split; [intros _; apply Nat.eqb_eq, Hfull|].
    intros _ _. split.
    + rewrite elem_of_app, !elem_of_cons. auto.
    + intros j q a Hq Ha Hf. rewrite elem_of_app. left.
      apply (Hinc j q a Hq); [exact Ha|exact Hf].
  - exists (Ok ()), (fb ++ [show_score (tally (answers r) qs) (length qs)]).
    split; [rewrite <- !(assoc_L (++)); reflexivity|].
    split; [rewrite forallb_app, Hk'; reflexivity|].
    split.
    { intros m Hin. apply elem_of_app in Hin as [Hin|Hin]; [apply Hcor', Hin|].
      rewrite !elem_of_cons, elem_of_nil in Hin. intuition discriminate. }
    split.
    { intros c n Hin. apply elem_of_app in Hin as [Hin|Hin].
      - apply Hfbk in Hin. discriminate.
      - rewrite !elem_of_cons, elem_of_nil in Hin.
        destruct Hin as [[= -> ->]|[]]. auto. }
    split.
    { intros Hin. apply elem_of_app in Hin as [Hin|Hin].
      - apply Hfbk in Hin. discriminate.
      - rewrite !elem_of_cons, elem_of_nil in Hin.
        destruct Hin as [Hin|[]]. discriminate. }
    intros _ _. split.
    + rewrite elem_of_app, !elem_of_cons. auto.
    + intros j q a Hq Ha Hf. rewrite elem_of_app. left.
      apply (Hinc j q a Hq); [exact Ha|exact Hf].
Qed.

(** Lines 214-268: what a run logs and shows of the score, whatever its
    outcome. [rl] is the state the rendering loop leaves. *)
Lemma quiz_body_scoring (ui : ui_input) (qs : list json)
    (key_prefix topic quiz_type : string) (r : run) :
  let rl := (for_each (render_question ui key_prefix) 1 qs r).2 in
  let out := quiz_body ui (JList qs) key_prefix topic quiz_type r in
  let logged :=
    history r ++
      [Attempt quiz_type topic
         (score_str (tally (answers rl) qs) (length qs)) (clock ui)] in
  answers out.2 = answers rl
  ∧ (history out.2 = history r ∨ history out.2 = logged)
  ∧ (is_submitted out.2 = is_submitted r ∨ is_submitted out.2 = Some true)
  ∧ ∃ evs1 evs2,
      screen out.2 = screen r ++ evs1 ++ evs2
      ∧ forallb is_question_event evs1 = true
      ∧ (∀ m, show_correct m ∈ evs2 →
           ∃ j q a, qs !! j = Some q ∧ m = S j
             ∧ answers rl !! j = Some a ∧ is_correct a q = true)
      ∧ (∀ c n, show_score c n ∈ evs2 →
           c = tally (answers rl) qs ∧ n = length qs)
      ∧ (st_balloons ∈ evs2 → tally (answers rl) qs = length qs)
      ∧ (out.1 = Ok () →
         (button_pressed ui (key_prefix +:+ "_submit") = true →
          history out.2 = logged)
         ∧ (is_submitted out.2 = Some true →
            show_score (tally (answers rl) qs) (length qs) ∈ evs2
            ∧ ∀ j q a, qs !! j = Some q → answers rl !! j = Some a →
                is_correct a q = false →
                show_incorrect (S j) (answer_of q) ∈ evs2)).
Proof.
  cbv zeta. unfold quiz_body. cbn [py_iter]. run_monad.
  destruct (render_loop_kinds ui key_prefix qs 1 r) as (evs1 & Hs1 & Hk1).
  pose proof (render_loop_frame ui key_prefix qs 1 r ltac:(lia))
    as (Hsub & Hh & _).
  destruct (for_each (render_question ui key_prefix) 1 qs r) as [[[]|e] r1];
    cbn [fst snd] in *.
  2:{ split; [reflexivity|]. split; [left; exact Hh|].
      split; [left; exact Hsub|].
      exists evs1, []. rewrite app_nil_r. split; [exact Hs1|].
      split; [exact Hk1|].
      split; [intros m Hin; apply elem_of_nil in Hin; destruct Hin|].
      split; [intros c n Hin; apply elem_of_nil in Hin; destruct Hin|].
      split; [intros Hin; apply elem_of_nil in Hin; destruct Hin|].
      intros Hres. discriminate. }
  destruct (on_submit_scoring ui qs key_prefix topic quiz_type r1)
    as [(Hb & ->)|[(Hb & e & ->)|(Hb & ->)]].
  - destruct (show_results_scoring qs r1)
      as (res & evs2 & -> & _ & Hcor & Hsc & Hball & Hok).
    cbn [fst snd answers is_submitted history screen].
    split; [reflexivity|]. split; [left; exact Hh|].
    split; [left; exact Hsub|].
    exists evs1, evs2. rewrite Hs1, <- (assoc_L (++)).
    split; [reflexivity|]. split; [exact Hk1|]. split; [exact Hcor|].
    split; [exact Hsc|]. split; [exact Hball|].
    intros Hres. split; [congruence|]. intros Hs. apply Hok; assumption.
  - cbn [fst snd answers is_submitted history screen].
    split; [reflexivity|]. split; [left; exact Hh|]. split; [right; reflexivity|].
    exists evs1, []. rewrite app_nil_r. split; [exact Hs1|].
    split; [exact Hk1|].
    split; [intros m Hin; apply elem_of_nil in Hin; destruct Hin|].
    split; [intros c n Hin; apply elem_of_nil in Hin; destruct Hin|].
    split; [intros Hin; apply elem_of_nil in Hin; destruct Hin|].
    intros Hres. discriminate.
  - match goal with
    | |- context [show_results _ _ ?r2] =>
        destruct (show_results_scoring qs r2)
          as (res & evs2 & -> & _ & Hcor & Hsc & Hball & Hok)
    end.
    cbn [fst snd answers is_submitted history screen] in *.
    split; [reflexivity|]. split; [right; rewrite Hh; reflexivity|].
    split; [right; reflexivity|].
    exists evs1, evs2. rewrite Hs1, <- (assoc_L (++)).
    split; [reflexivity|]. split; [exact Hk1|]. split; [exact Hcor|].
    split; [exact Hsc|]. split; [exact Hball|].
    intros Hres. split; [intros _; rewrite Hh; reflexivity|].
    intros _. apply Hok; [exact Hres|reflexivity].
Qed.

(** *** Questions without a widget, and True/False questions *)

Lemma short_mcq_loop (ui : ui_input) (key_prefix : string) (qs : list json)
    (k : nat) (d : list (string * json)) (l : list json) (r : run) :
  qs !! k = Some (JDict d) →
  py_eq (dict_get "type" JNull d) (JStr "MCQ") = true →
  dict_get "options" (JList []) d = JList l →
  length l ≠ 4%nat →
  let r' := (for_each (render_question ui key_prefix) 1 qs r).2 in
  answers r' !! k = answers r !! k
  ∧ ∃ evs, screen r' = screen r ++ evs
      ∧ ∀ opts idx, show_radio (unique_key key_prefix (S k)) opts idx ∉ evs.
Proof.
  intros Hk Ht Ho Hl r'. split.
  - pose proof (render_loop_untouched ui key_prefix qs 1 k (JDict d) r
                  ltac:(lia) Hk) as H.
    replace (1 + k - 1)%nat with k in H by lia. apply H.
    intros r0. rewrite (render_short_mcq ui key_prefix (1 + k) d l r0 Ht Ho Hl).
    reflexivity.
  - destruct (render_loop_events ui key_prefix qs 1 r) as (evs & Hs & Hev).
    exists evs. split; [exact Hs|].
    intros opts idx Hin.
    destruct (Hev _ _ _ Hin) as (m & q & r0 & Hq & Hkey & Hin').
    apply unique_key_inj in Hkey. assert (m = k) as -> by lia.
    rewrite Hk in Hq. injection Hq as <-.
    rewrite (render_short_mcq ui key_prefix (1 + k) d l r0 Ht Ho Hl) in Hin'.
    cbn [snd] in Hin'. erewrite new_events_app in Hin' by reflexivity.
    rewrite !elem_of_cons, elem_of_nil in Hin'. intuition congruence.
Qed.

(** C2, as the code has it. An MCQ question whose options list has not
    exactly four entries gets no answer widget, and its stored answer, unset
    before the run, is unset after it, whatever else the run does. When its
    canonical answer is not null, the two scoring loops never count it: the
    count is the count over the other questions, so it stays below the
    number of questions. That count is the one in the attempt a run logs
    (as "count/number of questions") and in the score a run shows; the
    question is never marked correct and the balloons are never shown; and
    on a run that completes, pressing submit logs that attempt and a
    submitted quiz shows that score with the question marked incorrect.
    (A True/False question gets its widget whatever its options.) *)
Theorem short_mcq_unanswered (ui : ui_input) (d0 : list (string * json))
    (qs : list json) (key_prefix topic quiz_type : string) (s : session_state)
    (k : nat) (d : list (string * json)) (l : list json) :
  dict_get "questions" (JList []) d0 = JList qs →
  qs !! k = Some (JDict d) →
  py_eq (dict_get "type" JNull d) (JStr "MCQ") = true →
  dict_get "options" (JList []) d = JList l →
  length l ≠ 4%nat →
  (∀ ua, user_answers s !! key_prefix = Some ua → ua !! k = Some JNull) →
  let out := display_interactive_quiz ui (JDict d0) key_prefix topic quiz_type s in
  (∀ opts idx, show_radio (unique_key key_prefix (S k)) opts idx ∉ out.2)
  ∧ ∃ ua,
      user_answers out.1.2 !! key_prefix = Some ua
      ∧ ua !! k = Some JNull
      ∧ (dict_get "answer" (JStr "") d ≠ JNull →
         let others := tally (delete k ua) (delete k qs) in
         let logged :=
           quiz_history s ++
             [Attempt quiz_type topic
                (pretty others +:+ "/" +:+ pretty (length qs)) (clock ui)] in
         (others < length qs)%nat
         ∧ (∀ r, answers r = ua →
              (∀ c, (count_correct 1 qs 0 r).1 = Ok c → c = others)
              ∧ (∀ c, (show_feedback 1 qs 0 r).1 = Ok c → c = others))
         ∧ (quiz_history out.1.2 = quiz_history s
            ∨ quiz_history out.1.2 = logged)
         ∧ (∀ c n, show_score c n ∈ out.2 → c = others ∧ n = length qs)
         ∧ (show_correct (S k) ∉ out.2)
         ∧ (st_balloons ∉ out.2)
         ∧ (out.1.1 = Ok () →
            (button_pressed ui (key_prefix +:+ "_submit") = true →
             quiz_history out.1.2 = logged)
            ∧ (submitted out.1.2 !! key_prefix = Some true →
               show_score others (length qs) ∈ out.2
               ∧ show_incorrect (S k) (dict_get "answer" (JStr "") d) ∈ out.2))).
Proof.
  intros Hq Hk Ht Ho Hl Hua out. subst out.
  unfold display_interactive_quiz; rewrite Hq.
  destruct qs as [|q0 qs0] eqn:Hqs; [discriminate|]; cbn [py_truthy negb].
  rewrite <- Hqs in *.
  set (bound := match user_answers s !! key_prefix with
                | Some ua => Ok ua
                | None => n ← py_len (JList qs); mret (replicate n JNull)
                end).
  assert (Hbound : ∃ ua0, bound = Ok ua0 ∧ ua0 !! k = Some JNull
                     ∧ (user_answers s !! key_prefix = Some ua0
                        ∨ user_answers s !! key_prefix = None)).
  { subst bound; destruct (user_answers s !! key_prefix) as [ua|] eqn:Hs.
    - exists ua. split; [reflexivity|]. split; [apply Hua; reflexivity|auto].
    - exists (replicate (length qs) JNull). split; [reflexivity|].
      split; [|auto]. apply lookup_replicate_2. eapply lookup_lt_Some, Hk. }
  destruct Hbound as (ua0 & -> & Hnull & _).
  set (r0 := Run ua0 (submitted s !! key_prefix) (quiz_history s) []).
  pose proof (quiz_body_after_loop ui qs key_prefix topic quiz_type r0)
    as (_ & evs2' & Hs2 & Hno).
  pose proof (short_mcq_loop ui key_prefix qs k d l r0 Hk Ht Ho Hl)
    as (Hsame & evs1' & Hs1 & Hno1).
  pose proof (quiz_body_scoring ui qs key_prefix topic quiz_type r0) as Hscoring.
  cbv zeta in Hscoring.
  destruct Hscoring
    as (Ha & Hhist & Hflag & evs1 & evs2 & Hscr & Hk1 & Hcor & Hsc & Hball & Hok).
  destruct (quiz_body ui (JList qs) key_prefix topic quiz_type r0)
    as [result r']; cbn [fst snd] in *.
  split.
  { intros opts idx Hin. rewrite Hs2, Hs1 in Hin. cbn [screen r0 app] in Hin.
    apply elem_of_app in Hin as [Hin|Hin]; [eapply Hno1, Hin|eapply Hno, Hin]. }
  exists (answers r'). cbn [user_answers submitted quiz_history].
  split; [apply lookup_insert_eq|].
  assert (Hunset : answers r' !! k = Some JNull)
    by (rewrite Ha, Hsame; exact Hnull).
  split; [exact Hunset|].
  intros Hans. cbv zeta.
  assert (Hfalse : is_correct JNull (JDict d) = false).
  { unfold is_correct, answer_of.
    destruct (py_eq JNull (dict_get "answer" (JStr "") d)) eqn:He; [|reflexivity].
    apply py_eq_null_l in He. contradiction. }
  pose proof (tally_delete (answers r') qs k JNull (JDict d) Hunset Hk Hfalse)
    as HT.
  rewrite <- Ha in Hcor, Hsc, Hball, Hok, Hhist. rewrite HT in *.
  pose proof (tally_delete_lt (answers r') qs k (JDict d) Hk) as Hlt.
  cbn [history screen r0 app] in *. unfold score_str in *.
  assert (Hq1 : ∀ e, e ∈ evs1 → is_question_event e = true).
  { intros e He. rewrite forallb_forall in Hk1. apply Hk1, list_elem_of_In, He. }
  split; [exact Hlt|]. split.
  { intros r Hr. split; intros c Hc.
    - apply count_correct_ok in Hc; [|lia]. cbn [Nat.sub Nat.add] in Hc.
      rewrite drop_0, Hr, HT in Hc. exact Hc.
    - destruct (show_feedback_events qs 1 0 r ltac:(lia))
        as (res & fb & Hf & _ & _ & Hres).
      rewrite Hf in Hc. cbn [fst] in Hc. destruct (Hres c Hc) as (Hc' & _).
      cbn [Nat.sub Nat.add] in Hc'. rewrite drop_0, Hr, HT in Hc'. exact Hc'. }
  split; [exact Hhist|]. split.
  { intros c n Hin. rewrite Hscr in Hin. apply elem_of_app in Hin as [Hin|Hin].
    - apply Hq1 in Hin. discriminate.
    - apply Hsc, Hin. }
  split.
  { intros Hin. rewrite Hscr in Hin. apply elem_of_app in Hin as [Hin|Hin].
    - apply Hq1 in Hin. discriminate.
    - destruct (Hcor _ Hin) as (j & q & a & Hj & [= <-] & Haj & Hc).
      rewrite Hk in Hj. rewrite Hunset in Haj. simplify_eq. congruence. }
  split.
  { intros Hin. rewrite Hscr in Hin. apply elem_of_app in Hin as [Hin|Hin].
    - apply Hq1 in Hin. discriminate.
    - apply Hball in Hin. lia. }
  intros Hres. destruct (Hok Hres) as (Hlog & Hshown).
  split; [exact Hlog|].
  intros Hsub.
  assert (Hsub' : is_submitted r' = Some true).
  { destruct (is_submitted r') as [b|] eqn:Hr'.
    - rewrite lookup_insert_eq in Hsub. exact Hsub.
    - destruct Hflag as [Hflag|Hflag]; [|discriminate].
      cbn [is_submitted r0] in Hflag. congruence. }
  destruct (Hshown Hsub') as (Hscore & Hinc).
  rewrite Hscr. split; [apply elem_of_app; right; exact Hscore|].
  apply elem_of_app. right.
  apply (Hinc k (JDict d) JNull Hk Hunset Hfalse).
Qed.

(** C10. A question whose type is "True/False" is shown with the fixed
    options ["True", "False"], whatever its own options field holds; the
    option preselected is "False" only when "False" is the stored answer, so
    "True" when the stored answer is neither; and the answer stored
    afterwards is "True" or "False" (also at the end of a rendering loop
    that completes). *)
Theorem true_false_widget (ui : ui_input) (key_prefix : string) (i : nat)
    (d : list (string * json)) (r : run) (stored : json) :
  py_eq (dict_get "type" JNull d) (JStr "True/False") = true →
  (1 ≤ i)%nat →
  answers r !! (i - 1)%nat = Some stored →
  let index := if py_eq stored (JStr "False") then 1%nat else 0%nat in
  ∃ selected,
    render_question ui key_prefix i (JDict d) r =
      (Ok (),
       Run (<[(i - 1)%nat := selected]> (answers r)) (is_submitted r) (history r)
           (screen r ++
              [show_heading i (dict_get "difficulty" (JStr "N/A") d);
               show_question (dict_get "question" (JStr "N/A") d);
               show_radio (unique_key key_prefix i) TF_OPTIONS index;
               st_divider]))
    ∧ (selected = JStr "True" ∨ selected = JStr "False")
    ∧ (stored ≠ JStr "True" → stored ≠ JStr "False" →
       index = 0%nat
       ∧ (radio_pick ui (unique_key key_prefix i) = None → selected = JStr "True"))
    ∧ (∀ qs k r0 r', qs !! k = Some (JDict d) →
         for_each (render_question ui key_prefix) 1 qs r0 = (Ok (), r') →
         answers r' !! k = Some (JStr "True")
         ∨ answers r' !! k = Some (JStr "False")).
Proof.
  intros Ht _ Hs index.
  exists (st_radio ui (unique_key key_prefix i) TF_OPTIONS index).
  split; [exact (render_true_false ui key_prefix i d r stored Ht Hs)|].
  split; [|split].
  - pose proof (st_radio_in ui (unique_key key_prefix i) TF_OPTIONS index) as Hin.
    unfold TF_OPTIONS in Hin at 1 3. cbn [length] in Hin.
    rewrite !elem_of_cons, elem_of_nil in Hin.
    destruct Hin as [->| [->|[]]];
      [subst index; destruct (py_eq stored _); lia|auto|auto].
  - intros HT HF. subst index.
    destruct (py_eq stored (JStr "False")) eqn:He;
      [apply py_eq_str_r in He; contradiction|].
    split; [reflexivity|]. intros Hpick. unfold st_radio. rewrite Hpick. reflexivity.
  - intros qs k r0 r' Hk Hrun.
    pose proof (render_loop_true_false ui key_prefix qs 1 k d r0 r'
                  ltac:(lia) Hk Ht Hrun) as H.
    replace (1 + k - 1)%nat with k in H by lia. exact H.
Qed.

(** ** Concrete runs *)

(** The first end-to-end scenario: the fenced response holds one question;
    picking "B) 4" and submitting scores 1/1 and shows the balloons. *)
Example scenario_full_marks :
  parse_ai_response StrictJson.loads StrictJson.repair_nothing response_sum
    = JDict (quiz_of [q_sum])
  ∧ let out := display_interactive_quiz (ui_submit (Some 1%nat))
                 (JDict (quiz_of [q_sum])) "auto" "Topic" "Auto" fresh_session in
    out.1.1 = Ok ()
    ∧ quiz_history out.1.2 = [Attempt "Auto" "Topic" "1/1" "12:00"]
    ∧ last out.2 = Some st_balloons.
Proof.
  split; [vm_compute; reflexivity|]. cbv zeta.
  repeat split; vm_compute; reflexivity.
Qed.

(** The second scenario: on text that is no JSON the strict parser fails;
    whatever the lenient parser makes of it (short of a list or a dict) or
    raises, the result is the empty quiz, and the page says so. *)
Example scenario_not_json (repair_json : string → res json) :
  (∀ l, repair_json "not json at all" ≠ Ok (JList l)) →
  (∀ d, repair_json "not json at all" ≠ Ok (JDict d)) →
  parse_ai_response StrictJson.loads repair_json "not json at all" = EMPTY_QUIZ
  ∧ display_interactive_quiz ui_idle EMPTY_QUIZ "auto" "Topic" "Auto" fresh_session
    = (Ok (), fresh_session, [st_warning "No questions generated."]).
Proof.
  intros Hl Hd. split; [|vm_compute; reflexivity].
  rewrite parse_unfold.
  change (extract_json_str "not json at all") with "not json at all".
  unfold parse_json_str.
  change (StrictJson.loads "not json at all") with (@Raise json JSONDecodeError).
  destruct (repair_json "not json at all") as [[| | | |l|d]|e]; try reflexivity.
  - exfalso. eapply Hl. reflexivity.
  - exfalso. eapply Hd. reflexivity.
Qed.

(** C3, counterexample: a response that is a valid JSON array whose one
    string holds the marker twice. The text handed to the parser is what
    lies between the two markers, the empty string, and the array is lost:
    the result is the empty quiz. *)
Lemma array_holding_the_marker :
  StrictJson.loads (StrictJson.jtext "['``````']") = Ok (JList [JStr "``````"])
  ∧ extract_json_str (StrictJson.jtext "['``````']") = EmptyString
  ∧ parse_ai_response StrictJson.loads StrictJson.repair_nothing
      (StrictJson.jtext "['``````']") = EMPTY_QUIZ
  ∧ parse_ai_response StrictJson.loads StrictJson.repair_nothing
      (StrictJson.jtext "['``````']")
    ≠ JDict [("questions", JList [JStr "``````"])].
Proof.
  split; [vm_compute; reflexivity|]. split; [vm_compute; reflexivity|].
  split; [vm_compute; reflexivity|]. vm_compute. discriminate.
Qed.

(** Python's [==] on the values at hand. *)
Example py_eq_values :
  py_eq (JBool true) (JInt 1) = true
  ∧ py_eq JNull JNull = true
  ∧ py_eq JNull (JStr "") = false
  ∧ py_eq (JStr "B) 4") (JStr "B) 4") = true
  ∧ py_eq (JStr "b) 4") (JStr "B) 4") = false
  ∧ py_eq (JDict [("a", JInt 1); ("b", JNull)]) (JDict [("b", JNull); ("a", JInt 1)])
    = true.
Proof. repeat split; reflexivity. Qed.

(** C1, counterexample: a response that is a JSON object with a ["questions"]
    key is returned as it is, and here the value under the key is the number
    5, not a list. *)
Lemma questions_value_not_a_list :
  parse_ai_response StrictJson.loads StrictJson.repair_nothing
    (StrictJson.jtext "{'questions': 5}") = JDict [("questions", JInt 5)]
  ∧ is_list (questions_of
       (parse_ai_response StrictJson.loads StrictJson.repair_nothing
          (StrictJson.jtext "{'questions': 5}"))) = false.
Proof. split; vm_compute; reflexivity. Qed.

(** C3 (amended) at the payload [[1, 2]] inside a JSON-tagged fence. *)
Lemma array_response_wrapped_witness :
  str_contains FENCE "[1, 2]" = false
  ∧ StrictJson.loads (str_strip "[1, 2]") = Ok (JList [JInt 1; JInt 2])
  ∧ parse_ai_response StrictJson.loads StrictJson.repair_nothing
      (fence_json "[1, 2]") = JDict [("questions", JList [JInt 1; JInt 2])].
Proof.
  assert (Hp : str_contains FENCE "[1, 2]" = false) by reflexivity.
  assert (Hl : StrictJson.loads (str_strip "[1, 2]")
               = Ok (JList [JInt 1; JInt 2])) by (vm_compute; reflexivity).
  split; [exact Hp|]. split; [exact Hl|].
  exact (proj1 (array_response_wrapped StrictJson.loads StrictJson.repair_nothing
                  "[1, 2]" [JInt 1; JInt 2] Hp Hl (fence_json "[1, 2]")
                  (or_intror (or_introl eq_refl)))).
Defined.

(** C4, counterexample: a payload that contains the marker. Unfenced, the
    text after its marker is parsed; in a generic fence, the text before. *)
Lemma fenced_differs_from_unfenced :
  parse_ai_response StrictJson.loads StrictJson.repair_nothing
    (fence_plain "[2]```[1]") = JDict [("questions", JList [JInt 2])]
  ∧ parse_ai_response StrictJson.loads StrictJson.repair_nothing
      "[2]```[1]" = JDict [("questions", JList [JInt 1])]
  ∧ parse_ai_response StrictJson.loads StrictJson.repair_nothing
      (fence_plain "[2]```[1]")
    ≠ parse_ai_response StrictJson.loads StrictJson.repair_nothing "[2]```[1]".
Proof.
  split; [vm_compute; reflexivity|]. split; [vm_compute; reflexivity|].
  vm_compute. discriminate.
Qed.

(** C4 (amended) at the payload [[1, 2]]. *)
Lemma fenced_same_as_unfenced_witness :
  str_contains FENCE "[1, 2]" = false
  ∧ parse_ai_response StrictJson.loads StrictJson.repair_nothing
      (fence_json "[1, 2]")
    = parse_ai_response StrictJson.loads StrictJson.repair_nothing "[1, 2]"
  ∧ parse_ai_response StrictJson.loads StrictJson.repair_nothing
      (fence_plain "[1, 2]")
    = parse_ai_response StrictJson.loads StrictJson.repair_nothing "[1, 2]".
Proof.
  assert (H : str_contains FENCE "[1, 2]" = false) by reflexivity.
  split; [exact H|].
  exact (fenced_same_as_unfenced StrictJson.loads StrictJson.repair_nothing _ H).
Defined.

(** C9 at a response whose JSON-tagged fence is never closed. *)
Lemma unterminated_fence_witness :
  ∃ before rest,
    "Sure: ```json [1, 2]" = before +:+ FENCE_JSON +:+ rest
    ∧ str_len before = str_find "Sure: ```json [1, 2]" FENCE_JSON 0
    ∧ extract_json_str "Sure: ```json [1, 2]" = str_strip rest.
Proof.
  apply (unterminated_fence "Sure: ```json [1, 2]" FENCE_JSON).
  - left. split; reflexivity.
  - reflexivity.
Defined.

(** C6 at the one-question quiz, answered "B) 4": the state at submission
    and a later state with the same answers. *)
Lemma scoring_idempotent_witness :
  (count_correct 1 [q_sum] 0 (Run [JStr "B) 4"] None [] [])).1
    = (show_feedback 1 [q_sum] 0
         (Run [JStr "B) 4"] (Some true) [Attempt "Auto" "Topic" "1/1" "12:00"]
              [st_divider])).1.
Proof.
  apply (scoring_idempotent [q_sum] (Run [JStr "B) 4"] None [] [])
           (Run [JStr "B) 4"] (Some true) [Attempt "Auto" "Topic" "1/1" "12:00"]
                [st_divider])).
  reflexivity.
Defined.


(** C2, counterexample: a True/False question with three options. On the
    first run its widget is shown and "True" is stored for it without any
    click; on the next run the user submits, and it is counted correct. *)
Lemma true_false_wrong_cardinality_counted :
  let quiz := JDict (quiz_of [JDict d_true_false_3]) in
  let first := display_interactive_quiz ui_idle quiz "auto" "Topic" "Auto"
                 fresh_session in
  let second := display_interactive_quiz (ui_submit None) quiz "auto" "Topic"
                  "Auto" first.1.2 in
  first.2 = [show_heading 1 (JStr "N/A"); show_question (JStr "Is it?");
             show_radio "auto_q1" TF_OPTIONS 0; st_divider]
  ∧ user_answers first.1.2 !! "auto" = Some [JStr "True"]
  ∧ second.2 = [show_heading 1 (JStr "N/A"); show_question (JStr "Is it?");
                show_radio "auto_q1" TF_OPTIONS 0; st_divider;
                show_correct 1; show_explanation (JStr "N/A"); st_divider;
                show_score 1 1; st_balloons]
  ∧ quiz_history second.1.2 = [Attempt "Auto" "Topic" "1/1" "12:00"].
Proof. cbv zeta. repeat split; vm_compute; reflexivity. Qed.

(** C2 (amended) at a quiz whose only question is an MCQ with one option:
    the user presses submit, the attempt logged is 0/1, the question is
    marked incorrect and no balloons are shown. *)
Lemma short_mcq_unanswered_witness :
  let out := display_interactive_quiz (ui_submit (Some 0%nat))
               (JDict (quiz_of [JDict d_short_mcq])) "auto" "Topic" "Auto"
               fresh_session in
  (∀ opts idx, show_radio (unique_key "auto" 1) opts idx ∉ out.2)
  ∧ user_answers out.1.2 !! "auto" = Some [JNull]
  ∧ quiz_history out.1.2 = [Attempt "Auto" "Topic" "0/1" "12:00"]
  ∧ show_score 0 1 ∈ out.2
  ∧ show_incorrect 1 (JStr "A) only") ∈ out.2
  ∧ (show_correct 1 ∉ out.2)
  ∧ (st_balloons ∉ out.2).
Proof.
  cbv zeta.
  destruct (short_mcq_unanswered (ui_submit (Some 0%nat))
              (quiz_of [JDict d_short_mcq]) [JDict d_short_mcq]
              "auto" "Topic" "Auto" fresh_session 0 d_short_mcq
              [JStr "A) only"] eq_refl eq_refl eq_refl eq_refl
              ltac:(cbn; lia)
              ltac:(intros ua H; cbn in H; rewrite lookup_empty in H;
                    discriminate))
    as (Hradio & ua & Hua & _ & Hscore).
  assert (Hrun : user_answers
            (display_interactive_quiz (ui_submit (Some 0%nat))
               (JDict (quiz_of [JDict d_short_mcq])) "auto" "Topic" "Auto"
               fresh_session).1.2 !! "auto" = Some [JNull])
    by (vm_compute; reflexivity).
  assert (ua = [JNull]) as -> by congruence.
  destruct (Hscore ltac:(discriminate))
    as (_ & _ & _ & _ & Hcor & Hball & Hok).
  destruct (Hok ltac:(vm_compute; reflexivity)) as (Hlog & Hshown).
  destruct (Hshown ltac:(vm_compute; reflexivity)) as (Hsc & Hinc).
  split; [exact Hradio|]. split; [exact Hrun|].
  split; [exact (Hlog eq_refl)|]. split; [exact Hsc|].
  split; [exact Hinc|]. split; [exact Hcor|exact Hball].
Defined.

(** C5, counterexample: a well-formed quiz whose one question is an MCQ
    with a single option and a null canonical answer. No widget is shown,
    the stored answer stays [None], which is no string, and on submit the
    question is counted: the attempt logged is 1/1 and the balloons are
    shown. *)
Lemma null_answer_counted_correct :
  let q := JDict [("type", JStr "MCQ"); ("question", JStr "Pick one");
                  ("options", JList [JStr "A) only"]); ("answer", JNull)] in
  let out := display_interactive_quiz (ui_submit None) (JDict (quiz_of [q]))
               "auto" "Topic" "Auto" fresh_session in
  well_formed_question q = true
  ∧ out.1.1 = Ok ()
  ∧ user_answers out.1.2 !! "auto" = Some [JNull]
  ∧ same_string JNull (answer_of q) = false
  ∧ quiz_history out.1.2 = [Attempt "Auto" "Topic" "1/1" "12:00"]
  ∧ last out.2 = Some st_balloons.
Proof. cbv zeta. repeat split; vm_compute; reflexivity. Qed.

(** C5 (amended) at the one-question quiz: the user picks "B) 4" and
    submits; the attempt logged is 1/1. *)
Lemma submit_scores_and_logs_witness :
  let out := display_interactive_quiz (ui_submit (Some 1%nat))
               (JDict (quiz_of [q_sum])) "auto" "Topic" "Auto" fresh_session in
  out.1.1 = Ok ()
  ∧ user_answers out.1.2 !! "auto" = Some [JStr "B) 4"]
  ∧ submitted out.1.2 !! "auto" = Some true
  ∧ quiz_history out.1.2 = [Attempt "Auto" "Topic" "1/1" "12:00"]
  ∧ show_score 1 1 ∈ out.2.
Proof.
  cbv zeta.
  destruct (submit_scores_and_logs (ui_submit (Some 1%nat)) (quiz_of [q_sum])
              [q_sum] "auto" "Topic" "Auto" fresh_session eq_refl
              ltac:(discriminate) ltac:(repeat constructor)
              ltac:(intros ua H; cbn in H; rewrite lookup_empty in H;
                    discriminate)
              eq_refl)
    as (s' & page & ua & Hrun & Hua & _ & Hsub & Hhist & _ & _ & _ & _ & _
        & Hscore & _).
  assert (Hans : user_answers
            (display_interactive_quiz (ui_submit (Some 1%nat))
               (JDict (quiz_of [q_sum])) "auto" "Topic" "Auto"
               fresh_session).1.2 !! "auto" = Some [JStr "B) 4"])
    by (vm_compute; reflexivity).
  rewrite Hrun in *. cbn [fst snd] in *.
  assert (ua = [JStr "B) 4"]) as -> by congruence.
  split; [reflexivity|]. split; [exact Hans|]. split; [exact Hsub|].
  split; [exact Hhist|exact Hscore].
Defined.

(** C10 at a True/False question with three options and no stored answer. *)
Lemma true_false_widget_witness :
  ∃ selected,
    render_question ui_idle "auto" 1 (JDict d_true_false_3) (Run [JNull] None [] [])
      = (Ok (),
         Run (<[0%nat := selected]> [JNull]) None []
             [show_heading 1 (JStr "N/A"); show_question (JStr "Is it?");
              show_radio (unique_key "auto" 1) TF_OPTIONS 0; st_divider])
    ∧ (selected = JStr "True" ∨ selected = JStr "False").
Proof.
  destruct (true_false_widget ui_idle "auto" 1 d_true_false_3
              (Run [JNull] None [] []) JNull eq_refl (le_n 1) eq_refl)
    as (selected & Hrun & Hsel & _).
  exists selected. split; [exact Hrun|exact Hsel].
Defined.

(** * Further properties of the code *)

(** ** Fence extraction in general (lines 115-127) *)

Lemma find_after_marker (before marker rest : string) :
  str_find (before +:+ marker +:+ rest) FENCE
    (Z.of_nat (String.length before) + str_len marker)
  = match String.index 0 FENCE rest with
    | Some j => Z.of_nat (String.length before) + str_len marker + Z.of_nat j
    | None => -1
    end.
Proof.
  unfold str_find, str_len.
  replace (Z.to_nat (Z.of_nat (String.length before) + Z.of_nat (String.length marker)))
    with (String.length (before +:+ marker)) by (rewrite str_length_app; lia).
  rewrite <- app_assoc_str, index_skip.
  destruct (String.index 0 FENCE rest) as [j|]; cbn; [|reflexivity].
  rewrite str_length_app. lia.
Qed.

Lemma slice_after_marker (before marker rest : string) (j : nat) :
  str_slice (before +:+ marker +:+ rest)
    (Z.of_nat (String.length before) + str_len marker)
    (Z.of_nat (String.length before) + str_len marker + Z.of_nat j)
  = String.substring 0 j rest.
Proof.
  unfold str_slice, str_len.
  replace (Z.to_nat (Z.of_nat (String.length before) + Z.of_nat (String.length marker)))
    with (String.length (before +:+ marker)) by (rewrite str_length_app; lia).
  replace (Z.to_nat _) with j by lia.
  rewrite <- app_assoc_str. apply substring_skip.
Qed.

(** Once the marker's first occurrence is located, the text handed to the
    parser is what follows it, up to the next fence. *)
Lemma extract_at_marker (before marker rest : string) :
  let t := before +:+ marker +:+ rest in
  str_strip
    (str_slice t (Z.of_nat (String.length before) + str_len marker)
       (let stop := str_find t FENCE
                      (Z.of_nat (String.length before) + str_len marker) in
        if stop =? -1 then str_len t else stop))
  = str_strip (before_fence rest).
Proof.
  cbv zeta. rewrite find_after_marker. unfold before_fence.
  destruct (String.index 0 FENCE rest) as [j|].
  - destruct (Z.eqb_spec (Z.of_nat (String.length before) + str_len marker
                          + Z.of_nat j) (-1)) as [He|_];
      [unfold str_len in He; lia|].
    rewrite slice_after_marker. reflexivity.
  - change (-1 =? -1) with true. cbv iota.
    rewrite (slice_to_end before marker rest). reflexivity.
Qed.

(** X1. Which text is parsed when the response holds a fence. The marker
    the code settles on is [```json] when the response contains it anywhere
    (also after an earlier generic fence), else [```]; the text parsed is what
    follows the first occurrence of that marker, up to the next [```] or to
    the end of the response, stripped. *)
Theorem fenced_block_extracted (response_text marker : string) :
  (marker = FENCE_JSON ∧ str_contains FENCE_JSON response_text = true)
  ∨ (marker = FENCE ∧ str_contains FENCE_JSON response_text = false
     ∧ str_contains FENCE response_text = true) →
  ∃ before rest,
    response_text = before +:+ marker +:+ rest
    ∧ str_len before = str_find response_text marker 0
    ∧ extract_json_str response_text = str_strip (before_fence rest).
Proof.
  intros Hm.
  assert (Hc : str_contains marker response_text = true)
    by (destruct Hm as [[-> H]|(-> & _ & H)]; exact H).
  unfold str_contains in Hc.
  destruct (String.index 0 marker response_text) as [k|] eqn:Hk;
    [clear Hc|discriminate].
  destruct (index_split _ _ _ Hk) as (before & rest & Ht & Hlen).
  assert (Hfind : str_find response_text marker 0 = Z.of_nat k)
    by (unfold str_find; change (Z.to_nat 0) with 0%nat; rewrite Hk; reflexivity).
  exists before, rest. split; [exact Ht|]. split; [unfold str_len; congruence|].
  pose proof (extract_at_marker before marker rest) as Hex. cbv zeta in Hex.
  rewrite <- Ht, Hlen in Hex.
  unfold extract_json_str.
  destruct Hm as [[-> Hj]|(-> & Hj & Hf)].
  - rewrite Hj. cbv zeta. rewrite Hfind. exact Hex.
  - rewrite Hj, Hf. cbv zeta. rewrite Hfind. exact Hex.
Qed.

(** A generic fence first, a JSON-tagged fence after it: the tagged one is
    parsed. *)
Lemma fenced_block_extracted_witness :
  ∃ before rest,
    "```text```  ```json [1] ``` bye" = before +:+ FENCE_JSON +:+ rest
    ∧ str_len before = str_find "```text```  ```json [1] ``` bye" FENCE_JSON 0
    ∧ extract_json_str "```text```  ```json [1] ``` bye"
      = str_strip (before_fence rest).
Proof.
  apply (fenced_block_extracted "```text```  ```json [1] ``` bye" FENCE_JSON).
  left. split; reflexivity.
Defined.

(** ** Prose around a fenced block *)

Lemma prefix_clean_head (c : ascii) (sub pre rest : string) (a : ascii) :
  Ascii.eqb a c = false →
  String.prefix (String c sub) (String a pre +:+ rest) = false.
Proof.
  intros Ha. rewrite app_cons_str, prefix_cons, Ascii.eqb_sym, Ha. reflexivity.
Qed.

Lemma index_after_clean_prefix (c : ascii) (sub pre rest : string) :
  has_char c pre = false →
  String.index 0 (String c sub) (pre +:+ String c sub +:+ rest)
  = Some (String.length pre).
Proof.
  induction pre as [|a pre IH]; intros Hc.
  - rewrite app_nil_str. apply contains_head. discriminate.
  - cbn [has_char] in Hc. apply orb_false_iff in Hc as [Ha Hc].
    rewrite app_cons_str, index0_cons, <- app_cons_str.
    rewrite (prefix_clean_head c sub pre _ a Ha), (IH Hc). reflexivity.
Qed.

Lemma index_closing_fence_then (p post : string) :
  String.index 0 FENCE p = None →
  String.index 0 FENCE (p +:+ NL +:+ FENCE +:+ post) = Some (S (String.length p)).
Proof.
  induction p as [|c p IH]; intros Hp.
  - rewrite app_nil_str.
    change (NL +:+ FENCE +:+ post) with (String (ascii_of_nat 10) (FENCE +:+ post)).
    rewrite index0_cons.
    replace (String.prefix FENCE (String (ascii_of_nat 10) (FENCE +:+ post)))
      with false by (unfold FENCE; rewrite prefix_cons; reflexivity).
    rewrite contains_head by discriminate. reflexivity.
  - rewrite index0_cons in Hp.
    destruct (String.prefix FENCE (String c p)) eqn:Hpre; [discriminate|].
    destruct (String.index 0 FENCE p) eqn:Hi; [discriminate|].
    rewrite app_cons_str, index0_cons, <- app_cons_str.
    rewrite prefix_fence_line, Hpre, (IH eq_refl). reflexivity.
Qed.

Lemma extract_json_fence_in_prose (pre p post : string) :
  has_char BACKTICK pre = false →
  str_contains FENCE p = false →
  extract_json_str (pre +:+ fence_json p +:+ post) = str_strip p.
Proof.
  intros Hpre Hp%contains_false. unfold fence_json.
  set (rest := NL +:+ p +:+ NL +:+ FENCE +:+ post).
  assert (Ht : pre +:+ (FENCE_JSON +:+ NL +:+ p +:+ NL +:+ FENCE) +:+ post
               = pre +:+ FENCE_JSON +:+ rest)
    by (subst rest; rewrite !app_assoc_str; reflexivity).
  rewrite Ht.
  assert (Hi : String.index 0 FENCE_JSON (pre +:+ FENCE_JSON +:+ rest)
               = Some (String.length pre))
    by (apply (index_after_clean_prefix BACKTICK "``json" pre rest Hpre)).
  assert (Hf : str_find (pre +:+ FENCE_JSON +:+ rest) FENCE_JSON 0
               = Z.of_nat (String.length pre))
    by (unfold str_find; change (Z.to_nat 0) with 0%nat; rewrite Hi; reflexivity).
  unfold extract_json_str, str_contains. rewrite Hi. cbv zeta. rewrite Hf.
  pose proof (extract_at_marker pre FENCE_JSON rest) as Hex. cbv zeta in Hex.
  change (str_len FENCE_JSON) with 7 in Hex. rewrite Hex.
  unfold before_fence. subst rest.
  change (NL +:+ p +:+ NL +:+ FENCE +:+ post)
    with (String (ascii_of_nat 10) (p +:+ NL +:+ FENCE +:+ post)).
  rewrite index0_cons.
  replace (String.prefix FENCE (String (ascii_of_nat 10) (p +:+ NL +:+ FENCE +:+ post)))
    with false by (unfold FENCE; rewrite prefix_cons; reflexivity).
  rewrite (index_closing_fence_then p post Hp). cbn [fmap option_fmap option_map].
  change (String (ascii_of_nat 10) (p +:+ NL +:+ FENCE +:+ post))
    with (NL +:+ p +:+ NL +:+ FENCE +:+ post).
  replace (NL +:+ p +:+ NL +:+ FENCE +:+ post)
    with ((NL +:+ p +:+ NL) +:+ FENCE +:+ post)
    by (rewrite !app_assoc_str; reflexivity).
  replace (S (S (String.length p))) with (String.length (NL +:+ p +:+ NL))
    by (rewrite !str_length_app; cbn [String.length NL]; lia).
  rewrite substring_app_exact. apply strip_lines.
Qed.

(** X2. Prose around a JSON-tagged fenced block is ignored: with any text
    free of backticks before the block and any text at all after it, the
    result is that of the payload alone (a payload that does not itself
    contain the marker). *)
Theorem prose_around_fence_ignored (json_loads repair_json : string → res json)
    (pre p post : string) :
  has_char BACKTICK pre = false →
  str_contains FENCE p = false →
  parse_ai_response json_loads repair_json (pre +:+ fence_json p +:+ post)
  = parse_ai_response json_loads repair_json p.
Proof.
  intros Hpre Hp. apply parse_same_extract.
  rewrite (extract_json_fence_in_prose pre p post Hpre Hp).
  rewrite (extract_unfenced p Hp). reflexivity.
Qed.

Lemma prose_around_fence_ignored_witness :
  parse_ai_response StrictJson.loads StrictJson.repair_nothing
    ("Here is your quiz: " +:+ fence_json "[1, 2]" +:+ " Good ```luck```!")
  = parse_ai_response StrictJson.loads StrictJson.repair_nothing "[1, 2]".
Proof.
  apply (prose_around_fence_ignored StrictJson.loads StrictJson.repair_nothing
           "Here is your quiz: " "[1, 2]" " Good ```luck```!");
    reflexivity.
Defined.

(** ** Shape normalisation and the two parsers (lines 129-139) *)

(** X3. A result of [parse_ai_response] is a fixed point of the shape
    normalisation: normalising it again returns it unchanged. *)
Theorem normalized_result_is_stable (json_loads repair_json : string → res json)
    (response_text : string) :
  normalize_shape (parse_ai_response json_loads repair_json response_text)
  = parse_ai_response json_loads repair_json response_text.
Proof.
  rewrite parse_unfold.
  destruct (parse_json_str json_loads repair_json _) as [parsed|e];
    [|reflexivity].
  destruct (normalize_shape_has_key parsed) as (d & -> & Hd).
  cbn [normalize_shape]. rewrite Hd. reflexivity.
Qed.

(** X4. The lenient parser matters only after a [JSONDecodeError]: when the
    strict parser returns a value or raises anything else, the result is the
    same whatever the lenient parser would do; and any other exception of
    the strict parser gives the empty quiz. *)
Theorem repair_only_after_decode_error (json_loads repair1 repair2 : string → res json)
    (response_text : string) :
  json_loads (extract_json_str response_text) ≠ Raise JSONDecodeError →
  parse_ai_response json_loads repair1 response_text
  = parse_ai_response json_loads repair2 response_text
  ∧ ∀ e, json_loads (extract_json_str response_text) = Raise e →
         parse_ai_response json_loads repair1 response_text = EMPTY_QUIZ.
Proof.
  intros Hne. rewrite !parse_unfold. unfold parse_json_str.
  destruct (json_loads (extract_json_str response_text)) as [v|[]];
    try contradiction; split; try reflexivity; intros e He; try discriminate;
    reflexivity.
Qed.

Lemma repair_only_after_decode_error_witness :
  parse_ai_response StrictJson.loads StrictJson.repair_nothing "[1, 2]"
  = parse_ai_response StrictJson.loads (λ _, Raise TypeError) "[1, 2]".
Proof.
  apply (repair_only_after_decode_error StrictJson.loads
           StrictJson.repair_nothing (λ _, Raise TypeError) "[1, 2]").
  vm_compute. discriminate.
Defined.

(** ** Quiz generation *)

(** X5. Generation never raises: the result is always a [dict] with a
    ["questions"] key (so the renderer's "Quiz data error" test passes), no
    message is shown when the model answers, and when the model call raises
    the result is the empty quiz with one error message. *)
Theorem generate_quiz_total (model_generate : request → res string)
    (json_loads repair_json : string → res json) (req : request) :
  let out :=
    match req with
    | FromText text =>
        generate_quiz_from_text model_generate json_loads repair_json text
    | FromTopic topic =>
        generate_quiz_from_topic model_generate json_loads repair_json topic
    end in
  (∃ d, out.1 = JDict d ∧ dict_has "questions" d = true)
  ∧ (∀ response_text, model_generate req = Ok response_text →
       out = (parse_ai_response json_loads repair_json response_text, []))
  ∧ (∀ e, model_generate req = Raise e →
       out.1 = EMPTY_QUIZ ∧ length out.2 = 1%nat).
Proof.
  destruct req as [text|topic]; cbv zeta;
    unfold generate_quiz_from_text, generate_quiz_from_topic.
  all: destruct (model_generate _) as [response_text|e] eqn:Hm.
  all: repeat split; try (intros; simplify_eq; reflexivity);
    try (intros; discriminate).
  all: cbn [fst]; try (exists [("questions", JList [])]; split; reflexivity).
  all: rewrite parse_unfold;
    destruct (parse_json_str json_loads repair_json _) as [parsed|e'];
    [apply normalize_shape_has_key|eexists; split; reflexivity].
Qed.

(** ** Effects of any run of the quiz session *)

Lemma show_results_keeps (questions : json) (qs : list json) (r : run) :
  let r' := (show_results questions qs r).2 in
  answers r' = answers r ∧ is_submitted r' = is_submitted r
  ∧ history r' = history r.
Proof.
  unfold show_results. run_monad.
  destruct (default false (is_submitted r)); [|cbn; auto].
  destruct (show_feedback_state qs 1 0 r) as (evs & Hst & _).
  destruct (show_feedback 1 qs 0 r) as [[c|e] r3]; cbn [snd] in Hst; subst r3;
    [|cbn; auto].
  destruct (py_len questions) as [total|e]; cbn [answers is_submitted history screen];
    [|cbn; auto].
  destruct (c =? total)%nat; cbn; auto.
Qed.

Lemma on_submit_effects (ui : ui_input) (questions : json) (qs : list json)
    (key_prefix topic quiz_type : string) (r : run) :
  let r' := (on_submit ui questions qs key_prefix topic quiz_type r).2 in
  answers r' = answers r
  ∧ appended_at_most_one (history r) (history r')
  ∧ (button_pressed ui (key_prefix +:+ "_submit") = false → r' = r)
  ∧ (button_pressed ui (key_prefix +:+ "_submit") = true →
     is_submitted r' = Some true).
Proof.
  unfold on_submit, appended_at_most_one.
  destruct (button_pressed ui (key_prefix +:+ "_submit")).
  2:{ cbn. repeat split; auto; discriminate. }
  run_monad.
  pose proof (count_correct_state qs 1 0
                (Run (answers r) (Some true) (history r) (screen r))) as Hc.
  destruct (count_correct 1 qs 0 _) as [[c|e] r2]; cbn [snd] in Hc; subst r2.
  - destruct (py_len questions) as [total|e];
      cbn [snd answers is_submitted history screen].
    + repeat split; try discriminate. right. eexists. reflexivity.
    + repeat split; auto; discriminate.
  - cbn [snd answers is_submitted history screen].
    repeat split; auto; discriminate.
Qed.

(** What [quiz_body] may change, whatever its outcome. *)
Lemma quiz_body_effects (ui : ui_input) (questions : json)
    (key_prefix topic quiz_type : string) (r : run) :
  let r' := (quiz_body ui questions key_prefix topic quiz_type r).2 in
  length (answers r') = length (answers r)
  ∧ appended_at_most_one (history r) (history r')
  ∧ (is_submitted r' = is_submitted r ∨ is_submitted r' = Some true)
  ∧ (button_pressed ui (key_prefix +:+ "_submit") = false →
     history r' = history r ∧ is_submitted r' = is_submitted r)
  ∧ (is_submitted r' = Some true →
     is_submitted r = Some true
     ∨ button_pressed ui (key_prefix +:+ "_submit") = true).
Proof.
  unfold quiz_body. run_monad.
  destruct (py_iter questions) as [qs|e].
  2:{ cbn. unfold appended_at_most_one. repeat split; auto. }
  pose proof (render_loop_frame ui key_prefix qs 1 r ltac:(lia)) as (Hs & Hh & Hl & _).
  destruct (for_each (render_question ui key_prefix) 1 qs r) as [[[]|e] r1];
    cbn [snd] in *.
  2:{ unfold appended_at_most_one. rewrite Hh, Hs. repeat split; auto. }
  pose proof (on_submit_effects ui questions qs key_prefix topic quiz_type r1)
    as (Ha & Happ & Hno & Hyes).
  destruct (on_submit ui questions qs key_prefix topic quiz_type r1)
    as [[[]|e] r2]; cbn [snd] in *.
  - pose proof (show_results_keeps questions qs r2) as (Ha' & Hs' & Hh').
    destruct (show_results questions qs r2) as [res r3]; cbn [snd] in *.
    rewrite Ha', Hs', Hh', Ha, <- Hh, <- Hs.
    destruct (button_pressed ui (key_prefix +:+ "_submit")) eqn:Hb.
    + rewrite (Hyes eq_refl). repeat split; auto; discriminate.
    + rewrite (Hno eq_refl) in *. repeat split; auto.
  - rewrite Ha, <- Hh, <- Hs.
    destruct (button_pressed ui (key_prefix +:+ "_submit")) eqn:Hb.
    + rewrite (Hyes eq_refl). repeat split; auto; discriminate.
    + rewrite (Hno eq_refl) in *. repeat split; auto.
Qed.

(** X6. The history log is append-only under [display_interactive_quiz]:
    whatever the quiz data, the clicks and the outcome (an exception
    included), a run keeps every earlier entry in place, adds at most one
    entry at the end, and adds none when the submit button of the instance
    is not pressed. *)
Theorem display_history_append_only (ui : ui_input) (quiz_data : json)
    (key_prefix topic quiz_type : string) (s : session_state) :
  let s' := session_of (display_interactive_quiz ui quiz_data key_prefix topic
                          quiz_type s) in
  appended_at_most_one (quiz_history s) (quiz_history s')
  ∧ (button_pressed ui (key_prefix +:+ "_submit") = false →
     quiz_history s' = quiz_history s).
Proof.
  unfold display_interactive_quiz, session_of, appended_at_most_one.
  destruct quiz_data as [| | | | |d]; try (cbn; auto).
  destruct (negb (py_truthy (dict_get "questions" (JList []) d))); [cbn; auto|].
  match goal with
  | |- context [match ?b with Ok _ => _ | Raise _ => _ end] =>
      destruct b as [ua|e]
  end; [|cbn; auto].
  match goal with
  | |- context [quiz_body ?u ?q ?k ?t ?ty ?r] =>
      pose proof (quiz_body_effects u q k t ty r) as (_ & Happ & _ & Hno & _);
      destruct (quiz_body u q k t ty r) as [res r']
  end.
  cbn [fst snd quiz_history history] in *. split; [exact Happ|].
  intros Hb. apply Hno, Hb.
Qed.

(** X7. Submission is sticky and is set by the submit button only: a run
    never clears the submitted flag of its instance, and the flag is set
    after a run only if it was set before or the button was pressed in it.
    Other instances keep their answers and their flag. *)
Theorem display_submitted_sticky (ui : ui_input) (quiz_data : json)
    (key_prefix topic quiz_type : string) (s : session_state) :
  let s' := session_of (display_interactive_quiz ui quiz_data key_prefix topic
                          quiz_type s) in
  (submitted s !! key_prefix = Some true → submitted s' !! key_prefix = Some true)
  ∧ (submitted s' !! key_prefix = Some true →
     submitted s !! key_prefix = Some true
     ∨ button_pressed ui (key_prefix +:+ "_submit") = true)
  ∧ (∀ k, k ≠ key_prefix →
       user_answers s' !! k = user_answers s !! k
       ∧ submitted s' !! k = submitted s !! k).
Proof.
  unfold display_interactive_quiz, session_of.
  destruct quiz_data as [| | | | |d]; try (cbn; auto).
  destruct (negb (py_truthy (dict_get "questions" (JList []) d))); [cbn; auto|].
  match goal with
  | |- context [match ?b with Ok _ => _ | Raise _ => _ end] =>
      destruct b as [ua|e]
  end; [|cbn; auto].
  match goal with
  | |- context [quiz_body ?u ?q ?k ?t ?ty ?r] =>
      pose proof (quiz_body_effects u q k t ty r) as (_ & _ & Hs & _ & Hset);
      destruct (quiz_body u q k t ty r) as [res r']
  end.
  cbn [fst snd user_answers submitted is_submitted] in *.
  destruct (is_submitted r') as [b|] eqn:Hr'.
  - split; [|split].
    + intros Hold. rewrite lookup_insert_eq.
      destruct Hs as [Hs|Hs]; congruence.
    + rewrite lookup_insert_eq. intros Hb. apply Hset. congruence.
    + intros k Hk. rewrite !lookup_insert_ne by congruence. auto.
  - split; [|split].
    + intros Hold. destruct Hs as [Hs|Hs]; congruence.
    + intros Hb. left. exact Hb.
    + intros k Hk. rewrite lookup_insert_ne by congruence. auto.
Qed.

(** X8. One answer slot per question is an invariant of every run: on a
    quiz whose questions are a non-empty list, an instance that is new or
    holds one slot per question holds one slot per question afterwards,
    whatever the outcome of the run. *)
Theorem display_keeps_one_slot_per_question (ui : ui_input)
    (d : list (string * json)) (qs : list json)
    (key_prefix topic quiz_type : string) (s : session_state) :
  dict_get "questions" (JList []) d = JList qs →
  qs ≠ [] →
  (∀ ua, user_answers s !! key_prefix = Some ua → length ua = length qs) →
  ∃ ua', user_answers
           (session_of (display_interactive_quiz ui (JDict d) key_prefix topic
                          quiz_type s)) !! key_prefix = Some ua'
         ∧ length ua' = length qs.
Proof.
  intros Hq Hne Hua. unfold display_interactive_quiz, session_of. rewrite Hq.
  destruct qs as [|q0 qs0] eqn:Hqs; [congruence|]. cbn [py_truthy negb].
  rewrite <- Hqs in *. clear Hne.
  set (bound := match user_answers s !! key_prefix with
                | Some ua => Ok ua
                | None => n ← py_len (JList qs); mret (replicate n JNull)
                end).
  assert (Hbound : ∃ ua0, bound = Ok ua0 ∧ length ua0 = length qs).
  { subst bound. destruct (user_answers s !! key_prefix) as [ua|] eqn:Hk.
    - exists ua. split; [reflexivity|apply Hua; reflexivity].
    - exists (replicate (length qs) JNull). split; [reflexivity|apply length_replicate]. }
  destruct Hbound as (ua0 & -> & Hlen0).
  match goal with
  | |- context [quiz_body ?u ?q ?k ?t ?ty ?r] =>
      pose proof (quiz_body_effects u q k t ty r) as (Hl & _);
      destruct (quiz_body u q k t ty r) as [res r']
  end.
  cbn [fst snd user_answers answers] in *.
  exists (answers r'). split; [apply lookup_insert_eq|congruence].
Qed.

Lemma display_keeps_one_slot_per_question_witness :
  ∃ ua', user_answers
           (session_of (display_interactive_quiz ui_idle
                          (JDict (quiz_of [q_sum; JStr "not a question"]))
                          "auto" "Topic" "Auto" fresh_session)) !! "auto" = Some ua'
         ∧ length ua' = length [q_sum; JStr "not a question"].
Proof.
  apply (display_keeps_one_slot_per_question ui_idle
           (quiz_of [q_sum; JStr "not a question"])
           [q_sum; JStr "not a question"] "auto" "Topic" "Auto" fresh_session).
  - reflexivity.
  - discriminate.
  - intros ua H. cbn in H. rewrite lookup_empty in H. discriminate.
Defined.

(** ** Multiple-choice questions (lines 221-226) *)

Lemma list_contains_str (x : json) (l : list json) :
  Forall (λ o, is_str o = true) l →
  list_contains x l = true → x ∈ l ∧ is_str x = true.
Proof.
  unfold list_contains. induction l as [|y l IH]; intros Hs Hc; [discriminate|].
  apply Forall_cons in Hs as [Hy Hs]. cbn [existsb] in Hc.
  destruct y as [| | |t| |]; try discriminate.
  apply orb_true_iff in Hc as [Hc|Hc].
  - apply py_eq_str_r in Hc. subst x. split; [left|reflexivity].
  - destruct (IH Hs Hc) as [Hin Hx]. split; [right; exact Hin|exact Hx].
Qed.

Lemma list_index_lookup (x : json) (l : list json) :
  is_str x = true → x ∈ l → l !! list_index x l = Some x.
Proof.
  intros Hx. destruct x as [| | |t| |]; try discriminate.
  induction l as [|y l IH]; intros Hin; [apply elem_of_nil in Hin; destruct Hin|].
  cbn [list_index]. destruct (py_eq y (JStr t)) eqn:He.
  - apply py_eq_str_r in He. cbn. congruence.
  - apply elem_of_cons in Hin as [<-|Hin].
    + cbn in He. rewrite String.eqb_refl in He. discriminate.
    + cbn. apply IH, Hin.
Qed.

Lemma list_not_contains (x : json) (l : list json) :
  list_contains x l = false → x ∈ l → is_str x = true → False.
Proof.
  unfold list_contains. intros Hc Hin Hx.
  destruct x as [| | |t| |]; try discriminate.
  induction l as [|y l IH]; [apply elem_of_nil in Hin; exact Hin|].
  cbn [existsb] in Hc. apply orb_false_iff in Hc as [Hy Hc].
  apply elem_of_cons in Hin as [<-|Hin]; [|exact (IH Hc Hin)].
  cbn in Hy. rewrite String.eqb_refl in Hy. discriminate.
Qed.

(** An MCQ question with a list of four options: lines 222-226. *)
Lemma render_mcq (ui : ui_input) (key_prefix : string) (i : nat)
    (d : list (string * json)) (opts : list json) (r : run) (stored : json) :
  py_eq (dict_get "type" JNull d) (JStr "MCQ") = true →
  dict_get "options" (JList []) d = JList opts →
  length opts = 4%nat →
  answers r !! (i - 1)%nat = Some stored →
  let index :=
    if list_contains stored opts then list_index stored opts else 0%nat in
  let selected := st_radio ui (unique_key key_prefix i) opts index in
  render_question ui key_prefix i (JDict d) r =
    (Ok (),
     Run (<[(i - 1)%nat := selected]> (answers r)) (is_submitted r) (history r)
         (screen r ++
            [show_heading i (dict_get "difficulty" (JStr "N/A") d);
             show_question (dict_get "question" (JStr "N/A") d);
             show_radio (unique_key key_prefix i) opts index;
             st_divider])).
Proof.
  intros Ht%py_eq_str_r Ho Hl Hs index selected.
  unfold render_question. cbn [py_get]. rewrite Ht, Ho. run_monad.
  cbn [py_eq String.eqb Ascii.eqb Bool.eqb py_len]. rewrite Hl.
  cbn [Nat.eqb]. unfold get_answer. cbn [answers]. rewrite Hs.
  cbn [answers is_submitted history screen py_in py_index].
  subst selected index.
  apply lookup_lt_Some in Hs.
  destruct (list_contains stored opts);
    cbn [answers is_submitted history screen default from_option id];
    unfold set_answer; cbn [answers is_submitted history screen];
    (case_decide; [|lia]); cbn [answers is_submitted history screen];
    rewrite <- !(assoc_L (++)); reflexivity.
Qed.

(** X9. What an MCQ question with four string options stores. It is
    rendered without an exception and afterwards holds one of its options:
    the option the user picked if there is a pick; else the answer stored
    before, unchanged, when that is one of the options; else the first
    option (so a question the user never touches counts as answered with
    its first option). *)
Theorem mcq_stores_an_option (ui : ui_input) (key_prefix : string) (i : nat)
    (d : list (string * json)) (opts : list json) (r : run) (stored : json) :
  py_eq (dict_get "type" JNull d) (JStr "MCQ") = true →
  dict_get "options" (JList []) d = JList opts →
  length opts = 4%nat →
  Forall (λ o, is_str o = true) opts →
  (1 ≤ i)%nat →
  answers r !! (i - 1)%nat = Some stored →
  ∃ selected r',
    render_question ui key_prefix i (JDict d) r = (Ok (), r')
    ∧ answers r' = <[(i - 1)%nat := selected]> (answers r)
    ∧ selected ∈ opts
    ∧ (∀ k v, radio_pick ui (unique_key key_prefix i) = Some k →
              opts !! k = Some v → selected = v)
    ∧ (radio_pick ui (unique_key key_prefix i) = None → stored ∈ opts →
       selected = stored ∧ answers r' = answers r)
    ∧ (radio_pick ui (unique_key key_prefix i) = None → stored ∉ opts →
       opts !! 0%nat = Some selected).
Proof.
  intros Ht Ho Hl Hstr _ Hs.
  pose proof (render_mcq ui key_prefix i d opts r stored Ht Ho Hl Hs) as Hrun.
  cbv zeta in Hrun.
  set (index := if list_contains stored opts then list_index stored opts
                else 0%nat) in *.
  assert (Hidx : (index < length opts)%nat).
  { subst index. destruct (list_contains stored opts) eqn:Hc; [|lia].
    destruct (list_contains_str _ _ Hstr Hc) as [Hin Hx].
    eapply lookup_lt_Some, list_index_lookup; eauto. }
  eexists _, _. split; [exact Hrun|]. cbn [answers].
  split; [reflexivity|]. split; [apply st_radio_in, Hidx|].
  split; [|split].
  - intros k v Hpick Hv. unfold st_radio. rewrite Hpick. cbn. rewrite Hv.
    reflexivity.
  - intros Hpick Hin.
    assert (Hx : is_str stored = true).
    { apply list_elem_of_lookup in Hin as [j Hj].
      eapply Forall_lookup_1 in Hstr; eauto. }
    assert (Hsel : st_radio ui (unique_key key_prefix i) opts index = stored).
    { unfold st_radio. rewrite Hpick. cbn. subst index.
      destruct (list_contains stored opts) eqn:Hc.
      - rewrite (list_index_lookup stored opts Hx Hin). reflexivity.
      - destruct (list_not_contains _ _ Hc Hin Hx). }
    split; [exact Hsel|]. rewrite Hsel. apply list_insert_id, Hs.
  - intros Hpick Hnin. unfold st_radio. rewrite Hpick. cbn. subst index.
    destruct (list_contains stored opts) eqn:Hc.
    + destruct (list_contains_str _ _ Hstr Hc) as [Hin _]. contradiction.
    + destruct opts as [|o opts']; [discriminate|]. reflexivity.
Qed.

Lemma mcq_stores_an_option_witness :
  ∃ selected r',
    render_question ui_idle "auto" 1 q_sum (Run [JNull] None [] []) = (Ok (), r')
    ∧ answers r' = <[0%nat := selected]> [JNull]
    ∧ selected ∈ [JStr "A) 3"; JStr "B) 4"; JStr "C) 5"; JStr "D) 6"].
Proof.
  destruct (mcq_stores_an_option ui_idle "auto" 1
              [("type", JStr "MCQ"); ("question", JStr "2+2?");
               ("options", JList [JStr "A) 3"; JStr "B) 4"; JStr "C) 5"; JStr "D) 6"]);
               ("answer", JStr "B) 4"); ("difficulty", JStr "Easy");
               ("explanation", JStr "2+2=4")]
              [JStr "A) 3"; JStr "B) 4"; JStr "C) 5"; JStr "D) 6"]
              (Run [JNull] None [] []) JNull
              eq_refl eq_refl eq_refl ltac:(repeat constructor) (le_n 1) eq_refl)
    as (selected & r' & Hrun & Ha & Hin & _).
  exists selected, r'. auto.
Defined.

(** ** Runs of a quiz whose questions are a non-empty list *)

(** Lines 201-212 on such a quiz: [user_answers] is the stored list, or a
    new list of one [None] per question. *)
Lemma display_unfold (ui : ui_input) (d : list (string * json))
    (qs : list json) (key_prefix topic quiz_type : string) (s : session_state) :
  dict_get "questions" (JList []) d = JList qs →
  qs ≠ [] →
  display_interactive_quiz ui (JDict d) key_prefix topic quiz_type s =
    let ua0 := default (replicate (length qs) JNull)
                 (user_answers s !! key_prefix) in
    let out := quiz_body ui (JList qs) key_prefix topic quiz_type
                 (Run ua0 (submitted s !! key_prefix) (quiz_history s) []) in
    (out.1,
     Session (<[key_prefix := answers out.2]> (user_answers s))
             (match is_submitted out.2 with
              | Some b => <[key_prefix := b]> (submitted s)
              | None => submitted s
              end)
             (history out.2),
     screen out.2).
Proof.
  intros Hq Hne. unfold display_interactive_quiz. rewrite Hq.
  destruct qs as [|q0 qs0] eqn:Hqs; [congruence|]. cbn [py_truthy negb].
  rewrite <- Hqs. clear Hne.
  set (bound := match user_answers s !! key_prefix with
                | Some ua => Ok ua
                | None => n ← py_len (JList qs); mret (replicate n JNull)
                end).
  assert (Hbound : bound = Ok (default (replicate (length qs) JNull)
                                 (user_answers s !! key_prefix))).
  { subst bound. destruct (user_answers s !! key_prefix); reflexivity. }
  rewrite Hbound. cbv zeta.
  destruct (quiz_body _ _ _ _ _ _) as [result r]. reflexivity.
Qed.

Lemma submitted_insert_same (key_prefix : string) (m : gmap string bool) :
  match m !! key_prefix with
  | Some b => <[key_prefix := b]> m
  | None => m
  end = m.
Proof.
  destruct (m !! key_prefix) as [b|] eqn:Hk; [|reflexivity].
  apply insert_id, Hk.
Qed.

Lemma slots_bound (qs : list json) (key_prefix : string) (s : session_state) :
  (∀ ua, user_answers s !! key_prefix = Some ua → length ua = length qs) →
  length (default (replicate (length qs) JNull) (user_answers s !! key_prefix))
    = length qs.
Proof.
  intros Hua. destruct (user_answers s !! key_prefix) as [ua|]; cbn.
  - apply Hua. reflexivity.
  - apply length_replicate.
Qed.

(** X10. Until the instance is submitted, and on a run in which its submit
    button is not pressed, [display_interactive_quiz] does what the
    rendering loop does and nothing else: its outcome, the stored answers and
    the page are those of the loop over the questions, and neither the
    submitted flag nor the history changes. *)
Theorem unsubmitted_run_only_renders (ui : ui_input)
    (d : list (string * json)) (qs : list json)
    (key_prefix topic quiz_type : string) (s : session_state) :
  dict_get "questions" (JList []) d = JList qs →
  qs ≠ [] →
  submitted s !! key_prefix ≠ Some true →
  button_pressed ui (key_prefix +:+ "_submit") = false →
  let ua0 := default (replicate (length qs) JNull)
               (user_answers s !! key_prefix) in
  let loop := for_each (render_question ui key_prefix) 1 qs
                (Run ua0 (submitted s !! key_prefix) (quiz_history s) []) in
  display_interactive_quiz ui (JDict d) key_prefix topic quiz_type s =
    (loop.1,
     Session (<[key_prefix := answers loop.2]> (user_answers s))
             (submitted s) (quiz_history s),
     screen loop.2).
Proof.
  intros Hq Hne Hsub Hb. rewrite (display_unfold _ _ _ _ _ _ _ Hq Hne).
  cbv zeta.
  set (r := Run _ (submitted s !! key_prefix) (quiz_history s) []).
  pose proof (render_loop_frame ui key_prefix qs 1 r ltac:(lia)) as (Hs & Hh & _).
  unfold quiz_body, on_submit, show_results. cbn [py_iter]. run_monad.
  destruct (for_each (render_question ui key_prefix) 1 qs r) as [[[]|e] r1];
    cbn [fst snd] in *.
  - rewrite Hb. cbn [fst snd answers is_submitted history screen].
    assert (Hd : default false (is_submitted r1) = false).
    { rewrite Hs. subst r. cbn [is_submitted].
      destruct (submitted s !! key_prefix) as [[|]|]; [congruence|reflexivity..]. }
    rewrite Hd. cbn [fst snd]. rewrite Hs, Hh. subst r.
    cbn [is_submitted history]. rewrite submitted_insert_same. reflexivity.
  - rewrite Hs, Hh. subst r. cbn [is_submitted history].
    rewrite submitted_insert_same. reflexivity.
Qed.

Lemma unsubmitted_run_only_renders_witness :
  display_interactive_quiz ui_idle (JDict (quiz_of [q_sum])) "auto" "Topic"
    "Auto" fresh_session =
    (Ok (),
     Session (<["auto" := [JStr "A) 3"]]> ∅) ∅ [],
     [show_heading 1 (JStr "Easy"); show_question (JStr "2+2?");
      show_radio "auto_q1" [JStr "A) 3"; JStr "B) 4"; JStr "C) 5"; JStr "D) 6"] 0;
      st_divider]).
Proof.
  rewrite (unsubmitted_run_only_renders ui_idle (quiz_of [q_sum]) [q_sum]
             "auto" "Topic" "Auto" fresh_session eq_refl).
  - reflexivity.
  - discriminate.
  - cbn. rewrite lookup_empty. discriminate.
  - reflexivity.
Defined.

(** Lines 214-268 on a later run of a submitted quiz. *)
Lemma quiz_body_rerender (ui : ui_input) (qs : list json)
    (key_prefix topic quiz_type : string) (r : run) :
  Forall (λ q, well_formed_question q = true) qs →
  length (answers r) = length qs →
  button_pressed ui (key_prefix +:+ "_submit") = false →
  is_submitted r = Some true →
  ∃ ua shown,
    length ua = length qs
    ∧ quiz_body ui (JList qs) key_prefix topic quiz_type r =
        (Ok (),
         Run ua (Some true) (history r)
             (screen r ++ shown ++
                show_score (tally ua qs) (length qs)
                :: (if (tally ua qs =? length qs)%nat then [st_balloons] else [])))
    ∧ forallb (λ e, is_question_event e || is_feedback_event e) shown = true.
Proof.
  intros Hwf Hlen Hb Hsub.
  pose proof (render_loop_ok ui key_prefix qs 1 r Hwf ltac:(lia) ltac:(lia)) as Hok.
  pose proof (render_loop_frame ui key_prefix qs 1 r ltac:(lia)) as (Hs & Hh & Hl & _).
  pose proof (render_loop_kinds ui key_prefix qs 1 r) as (evs & Hscr & Hkinds).
  unfold quiz_body, on_submit, show_results. cbn [py_iter]. run_monad.
  destruct (for_each (render_question ui key_prefix) 1 qs r) as [[[]|e] r1];
    [|discriminate].
  cbn [fst snd] in *. rewrite Hb. cbn [answers is_submitted history screen].
  rewrite Hs, Hsub. cbn [default from_option id].
  pose proof (well_formed_is_dict qs Hwf) as Hd.
  destruct (show_feedback_tally qs 1 0 r1 Hd ltac:(lia) ltac:(lia))
    as (fb & Hfb).
  destruct (show_feedback_kinds qs 1 0 r1) as (fb' & Hfb' & Hfbk).
  rewrite Hfb in Hfb'. cbn [snd] in Hfb'.
  injection Hfb' as Hfb'. apply app_inv_head in Hfb'. subst fb'.
  rewrite Hfb. cbn [py_len answers is_submitted history screen Nat.sub Nat.add].
  rewrite !drop_0. exists (answers r1), (evs ++ fb).
  split; [lia|]. split.
  - destruct (tally (answers r1) qs =? length qs)%nat;
      cbn [answers is_submitted history screen];
      rewrite Hs, Hsub, Hh, Hscr, <- !(assoc_L (++)); reflexivity.
  - rewrite forallb_forall in Hkinds, Hfbk.
    apply forallb_forall. intros e [Hin|Hin]%in_app_iff.
    + rewrite (Hkinds e Hin). reflexivity.
    + rewrite (Hfbk e Hin). apply orb_true_r.
Qed.

(** X11. A later run of a submitted, well-formed quiz (submit not pressed
    again) completes and shows the questions, the feedback, then the score:
    the number of stored answers equal to the canonical answer over the
    number of questions, a count that never exceeds the number of questions;
    the balloons follow exactly when the two are equal. The history and the
    submitted flags stay as they are. *)
Theorem submitted_quiz_rerender (ui : ui_input) (d : list (string * json))
    (qs : list json) (key_prefix topic quiz_type : string) (s : session_state)
    (ua0 : list json) :
  dict_get "questions" (JList []) d = JList qs →
  qs ≠ [] →
  Forall (λ q, well_formed_question q = true) qs →
  user_answers s !! key_prefix = Some ua0 →
  length ua0 = length qs →
  submitted s !! key_prefix = Some true →
  button_pressed ui (key_prefix +:+ "_submit") = false →
  ∃ ua shown,
    display_interactive_quiz ui (JDict d) key_prefix topic quiz_type s =
      (Ok (),
       Session (<[key_prefix := ua]> (user_answers s)) (submitted s)
               (quiz_history s),
       shown ++ show_score (tally ua qs) (length qs)
         :: (if (tally ua qs =? length qs)%nat then [st_balloons] else []))
    ∧ length ua = length qs
    ∧ (tally ua qs ≤ length qs)%nat
    ∧ forallb (λ e, is_question_event e || is_feedback_event e) shown = true.
Proof.
  intros Hq Hne Hwf Hua Hlen Hsub Hb.
  rewrite (display_unfold _ _ _ _ _ _ _ Hq Hne). cbv zeta.
  rewrite Hua, Hsub. cbn [default from_option id].
  destruct (quiz_body_rerender ui qs key_prefix topic quiz_type
              (Run ua0 (Some true) (quiz_history s) []) Hwf Hlen Hb eq_refl)
    as (ua & shown & Hl & -> & Hk).
  cbn [fst snd answers is_submitted history screen app].
  exists ua, shown. rewrite (insert_id _ _ _ Hsub).
  split; [reflexivity|]. split; [exact Hl|]. split; [apply tally_le|exact Hk].
Qed.

Lemma submitted_quiz_rerender_witness :
  ∃ ua shown,
    display_interactive_quiz ui_idle (JDict (quiz_of [q_sum])) "auto" "Topic"
      "Auto" (Session {["auto" := [JStr "B) 4"]]} {["auto" := true]} []) =
      (Ok (),
       Session (<["auto" := ua]> {["auto" := [JStr "B) 4"]]}) {["auto" := true]} [],
       shown ++ show_score (tally ua [q_sum]) 1
         :: (if (tally ua [q_sum] =? 1)%nat then [st_balloons] else []))
    ∧ length ua = 1%nat.
Proof.
  destruct (submitted_quiz_rerender ui_idle (quiz_of [q_sum]) [q_sum] "auto"
              "Topic" "Auto"
              (Session {["auto" := [JStr "B) 4"]]} {["auto" := true]} [])
              [JStr "B) 4"] eq_refl ltac:(discriminate)
              ltac:(repeat constructor) eq_refl eq_refl eq_refl eq_refl)
    as (ua & shown & Hrun & Hl & _).
  exists ua, shown. split; [exact Hrun|exact Hl].
Defined.

(** Lines 200-268 on a run of a well-formed quiz in which the submit button
    is pressed. *)
Lemma display_submit (ui : ui_input) (d : list (string * json))
    (qs : list json) (key_prefix topic quiz_type : string) (s : session_state) :
  dict_get "questions" (JList []) d = JList qs →
  qs ≠ [] →
  Forall (λ q, well_formed_question q = true) qs →
  (∀ ua, user_answers s !! key_prefix = Some ua → length ua = length qs) →
  button_pressed ui (key_prefix +:+ "_submit") = true →
  ∃ ua page,
    display_interactive_quiz ui (JDict d) key_prefix topic quiz_type s =
      (Ok (),
       Session (<[key_prefix := ua]> (user_answers s))
               (<[key_prefix := true]> (submitted s))
               (quiz_history s ++
                  [Attempt quiz_type topic
                     (score_str (tally ua qs) (length qs)) (clock ui)]),
       page)
    ∧ length ua = length qs.
Proof.
  intros Hq Hne Hwf Hua Hb.
  rewrite (display_unfold _ _ _ _ _ _ _ Hq Hne). cbv zeta.
  destruct (quiz_body_submit ui qs key_prefix topic quiz_type
              (Run (default (replicate (length qs) JNull)
                      (user_answers s !! key_prefix))
                   (submitted s !! key_prefix) (quiz_history s) [])
              Hwf (slots_bound qs key_prefix s Hua) Hb)
    as (ua & page & Hl & -> & _).
  cbn [fst snd answers is_submitted history screen app].
  exists ua, page. split; [reflexivity|exact Hl].
Qed.

(** X12. Nothing guards against a second submission: pressing the submit
    button of a submitted, well-formed quiz again scores it again and
    appends a second attempt, so two runs with the button pressed leave two
    new entries, in order, each with the score of the answers of its run. *)
Theorem resubmission_logged_again (ui1 ui2 : ui_input)
    (d : list (string * json)) (qs : list json)
    (key_prefix topic quiz_type : string) (s : session_state) :
  dict_get "questions" (JList []) d = JList qs →
  qs ≠ [] →
  Forall (λ q, well_formed_question q = true) qs →
  (∀ ua, user_answers s !! key_prefix = Some ua → length ua = length qs) →
  button_pressed ui1 (key_prefix +:+ "_submit") = true →
  button_pressed ui2 (key_prefix +:+ "_submit") = true →
  let s1 := session_of (display_interactive_quiz ui1 (JDict d) key_prefix topic
                          quiz_type s) in
  let s2 := session_of (display_interactive_quiz ui2 (JDict d) key_prefix topic
                          quiz_type s1) in
  ∃ ua1 ua2,
    user_answers s1 !! key_prefix = Some ua1
    ∧ user_answers s2 !! key_prefix = Some ua2
    ∧ quiz_history s2 =
        quiz_history s ++
          [Attempt quiz_type topic
             (pretty (tally ua1 qs) +:+ "/" +:+ pretty (length qs)) (clock ui1);
           Attempt quiz_type topic
             (pretty (tally ua2 qs) +:+ "/" +:+ pretty (length qs)) (clock ui2)].
Proof.
  intros Hq Hne Hwf Hua Hb1 Hb2.
  destruct (display_submit ui1 d qs key_prefix topic quiz_type s Hq Hne Hwf
              Hua Hb1) as (ua1 & page1 & Hrun1 & Hl1).
  cbv zeta. unfold session_of. rewrite Hrun1. cbn [fst snd].
  match goal with
  | |- context [display_interactive_quiz ui2 _ _ _ _ ?s1] =>
      destruct (display_submit ui2 d qs key_prefix topic quiz_type s1 Hq Hne Hwf)
        as (ua2 & page2 & Hrun2 & Hl2)
  end.
  { cbn [user_answers]. intros ua. rewrite lookup_insert_eq. congruence. }
  { exact Hb2. }
  rewrite Hrun2. cbn [fst snd user_answers quiz_history].
  exists ua1, ua2. rewrite !lookup_insert_eq, <- (assoc_L (++)).
  repeat split.
Qed.

Lemma resubmission_logged_again_witness :
  let s1 := session_of (display_interactive_quiz (ui_submit (Some 1%nat))
                          (JDict (quiz_of [q_sum])) "auto" "Topic" "Auto"
                          fresh_session) in
  let s2 := session_of (display_interactive_quiz (ui_submit (Some 0%nat))
                          (JDict (quiz_of [q_sum])) "auto" "Topic" "Auto" s1) in
  ∃ ua1 ua2,
    user_answers s1 !! "auto" = Some ua1
    ∧ user_answers s2 !! "auto" = Some ua2
    ∧ quiz_history s2 =
        [] ++
          [Attempt "Auto" "Topic"
             (pretty (tally ua1 [q_sum]) +:+ "/" +:+ pretty 1%nat) "12:00";
           Attempt "Auto" "Topic"
             (pretty (tally ua2 [q_sum]) +:+ "/" +:+ pretty 1%nat) "12:00"].
Proof.
  apply (resubmission_logged_again (ui_submit (Some 1%nat))
           (ui_submit (Some 0%nat)) (quiz_of [q_sum]) [q_sum] "auto" "Topic"
           "Auto" fresh_session eq_refl).
  - discriminate.
  - repeat constructor.
  - intros ua H. cbn in H. rewrite lookup_empty in H. discriminate.
  - reflexivity.
  - reflexivity.
Defined.

(** The rendering loop stops at the first question that is not an object. *)
Lemma render_loop_raises (ui : ui_input) (key_prefix : string)
    (pre : list json) (q : json) (post : list json) (i : nat) (r : run) :
  Forall (λ q, well_formed_question q = true) pre →
  is_dict q = false →
  (1 ≤ i)%nat →
  (i - 1 + length pre ≤ length (answers r))%nat →
  (for_each (render_question ui key_prefix) i (pre ++ q :: post) r).1
    = Raise AttributeError.
Proof.
  revert i r. induction pre as [|p pre IH]; intros i r Hwf Hq Hi Hlen.
  - cbn [app]. rewrite for_each_cons. unfold render_question.
    destruct q as [| | | | |d]; try discriminate; reflexivity.
  - apply Forall_cons in Hwf as [Hp Hwf]. cbn [length] in Hlen.
    cbn [app]. rewrite for_each_cons.
    pose proof (render_question_ok ui key_prefix i p r Hp ltac:(lia)) as Hok.
    pose proof (render_question_renders ui key_prefix i p r) as (_ & _ & Hl & _).
    destruct (render_question ui key_prefix i p r) as [[[]|e] r1]; [|discriminate].
    cbn [snd] in Hl. apply IH; [exact Hwf|exact Hq|lia|lia].
Qed.

(** X13. A question that is not a JSON object (the normalizer lets any
    array through) stops the run: when the questions before it are well
    formed, [display_interactive_quiz] raises [AttributeError] at that
    question, and, whether or not the submit button is pressed, nothing is
    scored, submitted or logged. *)
Theorem non_object_question_raises (ui : ui_input) (d : list (string * json))
    (pre : list json) (q : json) (post : list json)
    (key_prefix topic quiz_type : string) (s : session_state) :
  dict_get "questions" (JList []) d = JList (pre ++ q :: post) →
  Forall (λ q, well_formed_question q = true) pre →
  is_dict q = false →
  (∀ ua, user_answers s !! key_prefix = Some ua →
         length ua = length (pre ++ q :: post)) →
  let out := display_interactive_quiz ui (JDict d) key_prefix topic quiz_type s in
  result_of out = Raise AttributeError
  ∧ quiz_history (session_of out) = quiz_history s
  ∧ submitted (session_of out) = submitted s
  ∧ forallb is_question_event (page_of out) = true.
Proof.
  intros Hq Hwf Hnd Hua.
  assert (Hne : pre ++ q :: post ≠ []) by (destruct pre; discriminate).
  cbv zeta. rewrite (display_unfold _ _ _ _ _ _ _ Hq Hne). cbv zeta.
  pose proof (slots_bound _ key_prefix s Hua) as Hlen.
  set (r := Run _ (submitted s !! key_prefix) (quiz_history s) []) in *.
  assert (Hlen' : (1 - 1 + length pre ≤ length (answers r))%nat).
  { subst r. cbn [answers]. rewrite Hlen, length_app. lia. }
  pose proof (render_loop_raises ui key_prefix pre q post 1 r Hwf Hnd
                ltac:(lia) Hlen') as Hraise.
  pose proof (render_loop_frame ui key_prefix (pre ++ q :: post) 1 r ltac:(lia))
    as (Hs & Hh & _).
  pose proof (render_loop_kinds ui key_prefix (pre ++ q :: post) 1 r)
    as (evs & Hscr & Hk).
  unfold quiz_body. cbn [py_iter]. run_monad.
  destruct (for_each (render_question ui key_prefix) 1 (pre ++ q :: post) r)
    as [[[]|e] r1]; cbn [fst snd] in *; [discriminate|].
  unfold result_of, session_of, page_of. cbn [fst snd quiz_history submitted].
  rewrite Hs, Hh, Hscr. subst r. cbn [is_submitted history screen app].
  rewrite submitted_insert_same. injection Hraise as ->. auto.
Qed.

Lemma non_object_question_raises_witness :
  let out := display_interactive_quiz (ui_submit (Some 1%nat))
               (JDict (quiz_of [q_sum; JStr "What is a stack?"]))
               "auto" "Topic" "Auto" fresh_session in
  result_of out = Raise AttributeError
  ∧ quiz_history (session_of out) = []
  ∧ submitted (session_of out) = ∅
  ∧ forallb is_question_event (page_of out) = true.
Proof.
  apply (non_object_question_raises (ui_submit (Some 1%nat))
           (quiz_of [q_sum; JStr "What is a stack?"])
           [q_sum] (JStr "What is a stack?") [] "auto" "Topic" "Auto"
           fresh_session eq_refl).
  - repeat constructor.
  - reflexivity.
  - intros ua H. cbn in H. rewrite lookup_empty in H. discriminate.
Defined.

Lemma dict_get_has (key : string) (dflt : json) (d : list (string * json)) :
  dict_get key dflt d ≠ dflt → dict_has key d = true.
Proof.
  induction d as [|[k v] d IH]; cbn; [congruence|].
  destruct (String.eqb k key); auto.
Qed.

(** X14. The normalizer returns an object that has a ["questions"] key as
    it is, so a value under the key that is a non-zero number or [true]
    reaches the renderer, which raises [TypeError] (at [len] for a new
    instance, at the loop otherwise) before anything is shown or stored. *)
Theorem unsized_questions_type_error
    (json_loads repair_json : string → res json) (ui : ui_input)
    (response_text : string) (d : list (string * json)) (v : json)
    (key_prefix topic quiz_type : string) (s : session_state) :
  json_loads (extract_json_str response_text) = Ok (JDict d) →
  dict_get "questions" (JList []) d = v →
  (v = JBool true ∨ ∃ n, v = JInt n ∧ n ≠ 0) →
  display_interactive_quiz ui
    (parse_ai_response json_loads repair_json response_text)
    key_prefix topic quiz_type s
  = (Raise TypeError, s, []).
Proof.
  intros Hloads Hv Hshape.
  assert (Hhas : dict_has "questions" d = true).
  { apply (dict_get_has _ (JList [])). rewrite Hv.
    destruct Hshape as [->|(n & -> & _)]; discriminate. }
  rewrite parse_unfold. unfold parse_json_str. rewrite Hloads.
  cbn [normalize_shape]. rewrite Hhas.
  unfold display_interactive_quiz. rewrite Hv.
  assert (Ht : py_truthy v = true).
  { destruct Hshape as [->|(n & -> & Hn)]; [reflexivity|].
    cbn. apply negb_true_iff, Z.eqb_neq, Hn. }
  rewrite Ht. cbn [negb].
  assert (Hlen : py_len v = Raise TypeError)
    by (destruct Hshape as [->|(n & -> & _)]; reflexivity).
  assert (Hiter : py_iter v = Raise TypeError)
    by (destruct Hshape as [->|(n & -> & _)]; reflexivity).
  destruct (user_answers s !! key_prefix) as [ua|] eqn:Hk.
  - unfold quiz_body. rewrite Hiter. run_monad. cbn.
    rewrite (insert_id _ _ _ Hk), submitted_insert_same.
    destruct s; reflexivity.
  - rewrite Hlen. reflexivity.
Qed.

Lemma unsized_questions_type_error_witness :
  display_interactive_quiz ui_idle
    (parse_ai_response StrictJson.loads StrictJson.repair_nothing
       (StrictJson.jtext "{'questions': 8}"))
    "auto" "Topic" "Auto" fresh_session
  = (Raise TypeError, fresh_session, []).
Proof.
  apply (unsized_questions_type_error StrictJson.loads
           StrictJson.repair_nothing ui_idle
           (StrictJson.jtext "{'questions': 8}") [("questions", JInt 8)]
           (JInt 8)).
  - vm_compute. reflexivity.
  - reflexivity.
  - right. exists 8. split; [reflexivity|discriminate].
Defined.

(** X15. When the model call raises, the quiz section shows the failure
    message of the generator and then only "No questions generated.": no
    answers list is created, nothing is submitted or logged. *)
Theorem failed_generation_shows_warning (model_generate : request → res string)
    (json_loads repair_json : string → res json) (ui : ui_input)
    (req : request) (e : exn) (key_prefix topic quiz_type : string)
    (s : session_state) :
  model_generate req = Raise e →
  let out :=
    match req with
    | FromText text =>
        generate_quiz_from_text model_generate json_loads repair_json text
    | FromTopic topic =>
        generate_quiz_from_topic model_generate json_loads repair_json topic
    end in
  (∃ msg, out.2 = [st_error msg])
  ∧ display_interactive_quiz ui out.1 key_prefix topic quiz_type s
    = (Ok (), s, [st_warning "No questions generated."]).
Proof.
  intros Hm. destruct req as [text|topic0]; cbv zeta;
    unfold generate_quiz_from_text, generate_quiz_from_topic; rewrite Hm;
    cbn [fst snd]; (split; [eexists; reflexivity|reflexivity]).
Qed.

Lemma failed_generation_shows_warning_witness :
  display_interactive_quiz ui_idle
    (generate_quiz_from_topic (λ _, Raise Unmodelled) StrictJson.loads
       StrictJson.repair_nothing "Automata Theory").1
    "auto" "Automata Theory" "Auto" fresh_session
  = (Ok (), fresh_session, [st_warning "No questions generated."]).
Proof.
  apply (failed_generation_shows_warning (λ _, Raise Unmodelled)
           StrictJson.loads StrictJson.repair_nothing ui_idle
           (FromTopic "Automata Theory") Unmodelled "auto" "Automata Theory"
           "Auto" fresh_session eq_refl).
Defined.

(** ** The sidebar and the quiz session together *)

(** X16. What the sidebar shows and touches. With a non-empty log it shows
    one line per entry of the log up to five lines, each with the score and
    type of an entry and at most the first 30 characters of its topic. It
    never changes the answers or the submitted flags, it leaves the log as
    it is or empty, and it asks for a rerun exactly when the log is not
    empty and the clear button is pressed. *)
Theorem sidebar_shows_at_most_five (ui : ui_input) (s : session_state) :
  let out := sidebar ui s in
  (length out.1.2 ≤ 5)%nat
  ∧ (quiz_history s ≠ [] →
     length out.1.2 = (length (quiz_history s) `min` 5)%nat)
  ∧ (∀ score type topic, show_history_line score type topic ∈ out.1.2 →
       str_len topic ≤ 30
       ∧ ∃ a, a ∈ quiz_history s ∧ score = a_score a ∧ type = a_type a
              ∧ topic = str_slice (a_topic a) 0 30)
  ∧ user_answers out.1.1 = user_answers s
  ∧ submitted out.1.1 = submitted s
  ∧ (quiz_history out.1.1 = quiz_history s ∨ quiz_history out.1.1 = [])
  ∧ (out.2 = true ↔
     quiz_history s ≠ [] ∧ button_pressed ui "Clear" = true).
Proof.
  cbv zeta. unfold sidebar.
  destruct (quiz_history s) as [|a0 h0] eqn:Hh.
  { cbn [fst snd length].
    split; [lia|]. split; [congruence|]. split.
    - intros score type topic Hin. apply list_elem_of_singleton in Hin.
      discriminate.
    - repeat split; auto; try discriminate. intros [? _]. congruence. }
  rewrite <- Hh. rewrite (list_recent_take 5 (quiz_history s)) by lia.
  change (Z.to_nat 5) with 5%nat.
  assert (Hlines : ∀ score type topic,
            show_history_line score type topic
              ∈ history_line <$> take 5 (reverse (quiz_history s)) →
            str_len topic ≤ 30
            ∧ ∃ a, a ∈ quiz_history s ∧ score = a_score a ∧ type = a_type a
                   ∧ topic = str_slice (a_topic a) 0 30).
  { intros score type topic Hin.
    apply list_elem_of_fmap in Hin as (a & Heq & Hin).
    unfold history_line in Heq. injection Heq as -> -> ->.
    split.
    - unfold str_len, str_slice. change (Z.to_nat 0) with 0%nat.
      pose proof (substring_length_le (Z.to_nat (30 - 0)) (a_topic a)). lia.
    - exists a. split; [|auto].
      apply elem_of_reverse. eapply (subseteq_take 5). exact Hin. }
  assert (Hlen : length (history_line <$> take 5 (reverse (quiz_history s)))
                 = (length (quiz_history s) `min` 5)%nat).
  { rewrite length_fmap, length_take, length_reverse. lia. }
  assert (Hne : quiz_history s ≠ []) by (rewrite Hh; discriminate).
  destruct (button_pressed ui "Clear"); cbn [fst snd history_clear
    user_answers submitted quiz_history]; rewrite ?Hlen.
  - split; [lia|]. split; [reflexivity|]. split; [exact Hlines|].
    repeat split; auto.
  - split; [lia|]. split; [reflexivity|]. split; [exact Hlines|].
    repeat split; auto; try discriminate. intros [_ ?]. discriminate.
Qed.

(** X17. Clearing the history does not reset a quiz: after the clear button
    is pressed on a non-empty log, a submission of a well-formed quiz is
    scored from the answers the session still holds and leaves a log of
    exactly that one attempt. *)
Theorem clear_then_submit (ui_clear ui : ui_input) (d : list (string * json))
    (qs : list json) (key_prefix topic quiz_type : string) (s : session_state) :
  quiz_history s ≠ [] →
  button_pressed ui_clear "Clear" = true →
  dict_get "questions" (JList []) d = JList qs →
  qs ≠ [] →
  Forall (λ q, well_formed_question q = true) qs →
  (∀ ua, user_answers s !! key_prefix = Some ua → length ua = length qs) →
  button_pressed ui (key_prefix +:+ "_submit") = true →
  let cleared := (sidebar ui_clear s).1.1 in
  let s' := session_of (display_interactive_quiz ui (JDict d) key_prefix topic
                          quiz_type cleared) in
  quiz_history cleared = []
  ∧ user_answers cleared = user_answers s
  ∧ submitted cleared = submitted s
  ∧ ∃ ua, user_answers s' !! key_prefix = Some ua
          ∧ quiz_history s' =
              [Attempt quiz_type topic
                 (pretty (tally ua qs) +:+ "/" +:+ pretty (length qs))
                 (clock ui)].
Proof.
  intros Hh Hc Hq Hne Hwf Hua Hb. cbv zeta.
  assert (Hside : (sidebar ui_clear s).1.1 = history_clear s).
  { unfold sidebar. destruct (quiz_history s); [congruence|].
    rewrite Hc. reflexivity. }
  rewrite Hside. cbn [history_clear quiz_history user_answers submitted].
  split; [reflexivity|]. split; [reflexivity|]. split; [reflexivity|].
  destruct (display_submit ui d qs key_prefix topic quiz_type (history_clear s)
              Hq Hne Hwf Hua Hb) as (ua & page & Hrun & Hl).
  unfold session_of. fold (history_clear s). rewrite Hrun.
  cbn [fst snd user_answers quiz_history history_clear app].
  exists ua. rewrite lookup_insert_eq. auto.
Qed.

Lemma clear_then_submit_witness :
  let s := Session {["auto" := [JStr "C) 5"]]} ∅
             [Attempt "Auto" "Topic" "3/5" "11:00"] in
  let cleared := (sidebar (UiInput (λ _, None) (λ _, true) "12:00") s).1.1 in
  let s' := session_of (display_interactive_quiz (ui_submit None)
                          (JDict (quiz_of [q_sum])) "auto" "Topic" "Auto"
                          cleared) in
  quiz_history cleared = []
  ∧ user_answers cleared = user_answers s
  ∧ submitted cleared = submitted s
  ∧ ∃ ua, user_answers s' !! "auto" = Some ua
          ∧ quiz_history s' =
              [Attempt "Auto" "Topic"
                 (pretty (tally ua [q_sum]) +:+ "/" +:+ pretty 1%nat) "12:00"].
Proof.
  apply (clear_then_submit (UiInput (λ _, None) (λ _, true) "12:00")
           (ui_submit None) (quiz_of [q_sum]) [q_sum] "auto" "Topic" "Auto"
           (Session {["auto" := [JStr "C) 5"]]} ∅
              [Attempt "Auto" "Topic" "3/5" "11:00"])).
  - discriminate.
  - reflexivity.
  - reflexivity.
  - discriminate.
  - repeat constructor.
  - intros ua H. cbn in H. rewrite lookup_singleton_eq in H.
    injection H as <-. reflexivity.
  - reflexivity.
Defined.

(** ** The script: what is generated, and when *)

Lemma random_choice_topic (k : nat) : random_choice k CS_TOPICS ∈ CS_TOPICS.
Proof.
  unfold random_choice.
  assert (Hk : (k mod length CS_TOPICS < length CS_TOPICS)%nat)
    by (apply Nat.mod_upper_bound; discriminate).
  destruct (lookup_lt_is_Some_2 _ _ Hk) as [t Ht]. rewrite Ht.
  eapply list_elem_of_lookup_2, Ht.
Qed.

Lemma str_truthy_nonempty (s : string) :
  str_truthy s = true ↔ s ≠ EmptyString.
Proof. destruct s; cbn; split; congruence. Qed.

Section ScriptFacts.

Variable md5_hexdigest : string → string.
Variable pdfplumber_open : string → pdf_document.
Variable json_loads : string → res json.
Variable repair_json : string → res json.

(** Lines 292-310: what the upload section changes and requests. *)
Lemma upload_section_facts (model_generate : request → res string)
    (inp : script_input) (a : app_state) :
  let out := upload_section md5_hexdigest pdfplumber_open model_generate
               json_loads repair_json inp a in
  auto_topic (state_of out) = auto_topic a
  ∧ auto_quiz (state_of out) = auto_quiz a
  ∧ (∀ k q, pdf_quiz a !! k = Some q → pdf_quiz (state_of out) !! k = Some q)
  ∧ (requests_of out = []
     ∨ ∃ bytes, uploaded_file inp = Some bytes
         ∧ requests_of out
           = [FromText (extract_text_from_pdf (pdfplumber_open bytes))]
         ∧ str_strip (extract_text_from_pdf (pdfplumber_open bytes))
           ≠ EmptyString
         ∧ pdf_quiz a !! quiz_key_of (file_hash_of md5_hexdigest bytes) = None)
  ∧ ending_of out ≠ Rerun.
Proof.
  cbv zeta. unfold upload_section.
  destruct (uploaded_file inp) as [bytes|]; [|cbn; repeat split; auto; discriminate].
  destruct (str_truthy (str_strip (extract_text_from_pdf (pdfplumber_open bytes))))
    eqn:Htext; [|cbn; repeat split; auto; discriminate].
  apply str_truthy_nonempty in Htext.
  destruct (pdf_quiz a !! quiz_key_of (file_hash_of md5_hexdigest bytes))
    as [quiz|] eqn:Hk.
  - destruct (display_interactive_quiz _ _ _ _ _ _) as [[result s'] page].
    cbn. repeat split; auto. destruct result; discriminate.
  - destruct (generate_quiz_from_text _ _ _ _) as [quiz errors].
    destruct (display_interactive_quiz _ _ _ _ _ _) as [[result s'] page].
    cbn. repeat split; auto.
    + intros k q Hq. rewrite lookup_insert_ne by congruence. exact Hq.
    + right. exists bytes. auto.
    + destruct result; discriminate.
Qed.

(** The quiz of the uploaded document is stored once its text is found. *)
Lemma upload_section_stores (model_generate : request → res string)
    (inp : script_input) (a : app_state) (bytes : string) :
  uploaded_file inp = Some bytes →
  str_strip (extract_text_from_pdf (pdfplumber_open bytes)) ≠ EmptyString →
  let out := upload_section md5_hexdigest pdfplumber_open model_generate
               json_loads repair_json inp a in
  ∃ quiz,
    pdf_quiz (state_of out) !! quiz_key_of (file_hash_of md5_hexdigest bytes)
      = Some quiz
    ∧ (∀ e, pdf_quiz a !! quiz_key_of (file_hash_of md5_hexdigest bytes) = None →
            model_generate
              (FromText (extract_text_from_pdf (pdfplumber_open bytes)))
              = Raise e →
            quiz = EMPTY_QUIZ).
Proof.
  intros Hup Htext%str_truthy_nonempty. cbv zeta. unfold upload_section.
  rewrite Hup, Htext.
  destruct (pdf_quiz a !! quiz_key_of (file_hash_of md5_hexdigest bytes))
    as [quiz|] eqn:Hk.
  - destruct (display_interactive_quiz _ _ _ _ _ _) as [[result s'] page].
    cbn. exists quiz. split; [exact Hk|]. intros; discriminate.
  - unfold generate_quiz_from_text.
    destruct (model_generate _) as [response_text|e'];
      destruct (display_interactive_quiz _ _ _ _ _ _) as [[result s'] page];
      cbn; eexists; (split; [apply lookup_insert_eq|]); intros; congruence.
Qed.

(** Lines 313-330: what the daily section changes and requests. *)
Lemma auto_section_facts (model_generate : request → res string)
    (inp : script_input) (a : app_state) :
  let out := auto_section model_generate json_loads repair_json inp a in
  let topic := default (random_choice (draw_first inp) CS_TOPICS)
                 (auto_topic a) in
  pdf_quiz (state_of out) = pdf_quiz a
  ∧ (button_pressed (widgets inp) "New Topic" = true →
     requests_of out = [] ∧ ending_of out = Rerun
     ∧ auto_quiz (state_of out) = None)
  ∧ (button_pressed (widgets inp) "New Topic" = false →
     auto_topic (state_of out) = Some topic
     ∧ ending_of out ≠ Rerun
     ∧ match auto_quiz a with
       | Some quiz => requests_of out = [] ∧ auto_quiz (state_of out) = Some quiz
       | None =>
           requests_of out = [FromTopic topic]
           ∧ ∃ quiz, auto_quiz (state_of out) = Some quiz
               ∧ ∀ e, model_generate (FromTopic topic) = Raise e →
                      quiz = EMPTY_QUIZ
       end).
Proof.
  cbv zeta. unfold auto_section.
  destruct (button_pressed (widgets inp) "New Topic").
  { cbn. repeat split; auto; discriminate. }
  replace (match auto_topic a with
           | Some topic => topic
           | None => random_choice (draw_first inp) CS_TOPICS
           end)
    with (default (random_choice (draw_first inp) CS_TOPICS) (auto_topic a))
    by (destruct (auto_topic a); reflexivity).
  destruct (auto_quiz a) as [quiz|].
  - destruct (display_interactive_quiz _ _ _ _ _ _) as [[result s'] page].
    cbn. repeat split; auto; try discriminate. destruct result; discriminate.
  - unfold generate_quiz_from_topic.
    destruct (model_generate _) as [response_text|e'];
      destruct (display_interactive_quiz _ _ _ _ _ _) as [[result s'] page];
      cbn; repeat split; auto; try discriminate;
      try (destruct result; discriminate);
      eexists; (split; [reflexivity|]); intros; congruence.
Qed.

(** Lines 288-330: the requests of the two sections. *)
Lemma quiz_sections_requests (model_generate : request → res string)
    (inp : script_input) (a : app_state) :
  let out := quiz_sections md5_hexdigest pdfplumber_open model_generate
               json_loads repair_json inp a in
  ∃ from_text from_topic,
    requests_of out = from_text ++ from_topic
    ∧ (from_text = []
       ∨ ∃ bytes, uploaded_file inp = Some bytes
           ∧ from_text
             = [FromText (extract_text_from_pdf (pdfplumber_open bytes))]
           ∧ str_strip (extract_text_from_pdf (pdfplumber_open bytes))
             ≠ EmptyString
           ∧ pdf_quiz a !! quiz_key_of (file_hash_of md5_hexdigest bytes) = None)
    ∧ (from_topic = []
       ∨ from_topic
         = [FromTopic (default (random_choice (draw_first inp) CS_TOPICS)
                         (auto_topic a))]
         ∧ auto_quiz a = None
         ∧ button_pressed (widgets inp) "New Topic" = false).
Proof.
  cbv zeta. unfold quiz_sections.
  pose proof (upload_section_facts model_generate inp a)
    as (Ht & Hq & _ & Hreq & _).
  destruct (upload_section _ _ _ _ _ inp a) as [[[a2 page2] requests2] ending2].
  unfold state_of, requests_of in *. cbn [fst snd] in *.
  destruct ending2 as [| |e].
  2,3: exists requests2, []; cbn [fst snd]; rewrite app_nil_r; auto.
  pose proof (auto_section_facts model_generate inp a2) as (_ & Hnew & Hold).
  destruct (auto_section _ _ _ inp a2) as [[[a3 page3] requests3] ending3].
  unfold state_of, requests_of, ending_of in *. cbn [fst snd] in *.
  exists requests2, requests3. split; [reflexivity|]. split; [exact Hreq|].
  destruct (button_pressed (widgets inp) "New Topic").
  - left. apply Hnew. reflexivity.
  - destruct (Hold eq_refl) as (_ & _ & Hcase).
    rewrite Hq, Ht in Hcase.
    destruct (auto_quiz a) as [quiz|].
    + left. apply Hcase.
    + right. destruct Hcase as (-> & _). auto.
Qed.

(** Lines 288-330: what the two sections keep of the stored quizzes. *)
Lemma quiz_sections_keep (model_generate : request → res string)
    (inp : script_input) (a : app_state) :
  let out := quiz_sections md5_hexdigest pdfplumber_open model_generate
               json_loads repair_json inp a in
  (∀ k q, pdf_quiz a !! k = Some q → pdf_quiz (state_of out) !! k = Some q)
  ∧ (∀ quiz, auto_quiz a = Some quiz →
       auto_quiz (state_of out) = Some quiz
       ∨ (button_pressed (widgets inp) "New Topic" = true
          ∧ auto_quiz (state_of out) = None ∧ ending_of out = Rerun)).
Proof.
  cbv zeta. unfold quiz_sections.
  pose proof (upload_section_facts model_generate inp a)
    as (Ht & Hq & Hkeep & _ & _).
  destruct (upload_section _ _ _ _ _ inp a) as [[[a2 page2] requests2] ending2].
  unfold state_of, requests_of, ending_of in *. cbn [fst snd] in *.
  destruct ending2 as [| |e].
  2,3: cbn [fst snd]; split; [exact Hkeep|intros quiz Hquiz; left; congruence].
  pose proof (auto_section_facts model_generate inp a2) as (Hpdf & Hnew & Hold).
  destruct (auto_section _ _ _ inp a2) as [[[a3 page3] requests3] ending3].
  unfold state_of, requests_of, ending_of in *. cbn [fst snd] in *.
  split.
  - intros k q Hk. rewrite Hpdf. apply Hkeep, Hk.
  - intros quiz Hquiz.
    destruct (button_pressed (widgets inp) "New Topic").
    + right. destruct (Hnew eq_refl) as (_ & -> & ->). auto.
    + left. destruct (Hold eq_refl) as (_ & _ & Hcase).
      rewrite Hq, Hquiz in Hcase. apply Hcase.
Qed.

(** The quiz of the uploaded document is stored after the two sections. *)
Lemma quiz_sections_store (model_generate : request → res string)
    (inp : script_input) (a : app_state) (bytes : string) :
  uploaded_file inp = Some bytes →
  str_strip (extract_text_from_pdf (pdfplumber_open bytes)) ≠ EmptyString →
  let out := quiz_sections md5_hexdigest pdfplumber_open model_generate
               json_loads repair_json inp a in
  ∃ quiz,
    pdf_quiz (state_of out) !! quiz_key_of (file_hash_of md5_hexdigest bytes)
      = Some quiz
    ∧ (∀ e, pdf_quiz a !! quiz_key_of (file_hash_of md5_hexdigest bytes) = None →
            model_generate
              (FromText (extract_text_from_pdf (pdfplumber_open bytes)))
              = Raise e →
            quiz = EMPTY_QUIZ).
Proof.
  intros Hup Htext. cbv zeta. unfold quiz_sections.
  pose proof (upload_section_stores model_generate inp a bytes Hup Htext)
    as (quiz & Hk & Hfail).
  destruct (upload_section _ _ _ _ _ inp a) as [[[a2 page2] requests2] ending2].
  unfold state_of in *. cbn [fst snd] in *.
  exists quiz. split; [|exact Hfail].
  destruct ending2 as [| |e]; cbn [fst snd]; try exact Hk.
  pose proof (auto_section_facts model_generate inp a2) as (Hpdf & _).
  destruct (auto_section _ _ _ inp a2) as [[[a3 page3] requests3] ending3].
  unfold state_of in *. cbn [fst snd] in *. rewrite Hpdf. exact Hk.
Qed.

(** A pass that gets past the sidebar is the two sections on the state the
    sidebar leaves. *)
Lemma script_past_sidebar (model_generate : request → res string)
    (inp : script_input) (a : app_state) :
  let out := script md5_hexdigest pdfplumber_open model_generate json_loads
               repair_json inp a in
  let side := sidebar (widgets inp) (session a) in
  let a1 := App side.1.1 (pdf_quiz a) (auto_topic a) (auto_quiz a) in
  let sections := quiz_sections md5_hexdigest pdfplumber_open model_generate
                    json_loads repair_json inp a1 in
  if side.2
  then state_of out = a1 ∧ requests_of out = [] ∧ ending_of out = Rerun
  else state_of out = state_of sections
       ∧ requests_of out = requests_of sections
       ∧ ending_of out = ending_of sections.
Proof.
  cbv zeta. unfold script.
  destruct (sidebar (widgets inp) (session a)) as [[s1 lines] rerun].
  cbn [fst snd]. destruct rerun; [cbn; auto|].
  destruct (quiz_sections _ _ _ _ _ inp _) as [[[a2 page] requests] ending].
  cbn. auto.
Qed.

(** Lines 273-330: the requests of a pass. *)
Lemma script_requests (model_generate : request → res string)
    (inp : script_input) (a : app_state) :
  let out := script md5_hexdigest pdfplumber_open model_generate json_loads
               repair_json inp a in
  ∃ from_text from_topic,
    requests_of out = from_text ++ from_topic
    ∧ (from_text = []
       ∨ ∃ bytes, uploaded_file inp = Some bytes
           ∧ from_text
             = [FromText (extract_text_from_pdf (pdfplumber_open bytes))]
           ∧ str_strip (extract_text_from_pdf (pdfplumber_open bytes))
             ≠ EmptyString
           ∧ pdf_quiz a !! quiz_key_of (file_hash_of md5_hexdigest bytes) = None)
    ∧ (from_topic = []
       ∨ from_topic
         = [FromTopic (default (random_choice (draw_first inp) CS_TOPICS)
                         (auto_topic a))]
         ∧ auto_quiz a = None
         ∧ button_pressed (widgets inp) "New Topic" = false).
Proof.
  cbv zeta. pose proof (script_past_sidebar model_generate inp a) as Hpast.
  cbv zeta in Hpast.
  destruct (sidebar (widgets inp) (session a)).2.
  - destruct Hpast as (_ & -> & _). exists [], []. auto.
  - destruct Hpast as (_ & -> & _).
    apply (quiz_sections_requests model_generate inp
             (App (sidebar (widgets inp) (session a)).1.1 (pdf_quiz a)
                (auto_topic a) (auto_quiz a))).
Qed.

(** Lines 273-330: what a pass keeps of the stored quizzes. *)
Lemma script_keeps (model_generate : request → res string)
    (inp : script_input) (a : app_state) :
  let out := script md5_hexdigest pdfplumber_open model_generate json_loads
               repair_json inp a in
  (∀ k q, pdf_quiz a !! k = Some q → pdf_quiz (state_of out) !! k = Some q)
  ∧ (∀ quiz, auto_quiz a = Some quiz →
       auto_quiz (state_of out) = Some quiz
       ∨ (button_pressed (widgets inp) "New Topic" = true
          ∧ auto_quiz (state_of out) = None ∧ ending_of out = Rerun)).
Proof.
  cbv zeta. pose proof (script_past_sidebar model_generate inp a) as Hpast.
  cbv zeta in Hpast.
  destruct (sidebar (widgets inp) (session a)).2.
  - destruct Hpast as (-> & _ & _). cbn. auto.
  - destruct Hpast as (-> & _ & ->).
    apply (quiz_sections_keep model_generate inp
             (App (sidebar (widgets inp) (session a)).1.1 (pdf_quiz a)
                (auto_topic a) (auto_quiz a))).
Qed.

(** X18. The model is called only on a cache miss. In one pass of the
    script there is at most one request from a text, made only when a file
    is uploaded whose extracted text is not blank and whose key holds no
    quiz yet, followed by at most one request from a topic, made only when
    no daily quiz is stored and "New Topic" is not pressed, for the stored
    topic or else the topic just drawn. *)
Theorem generation_only_on_cache_miss (model_generate : request → res string)
    (inp : script_input) (a : app_state) :
  let out := script md5_hexdigest pdfplumber_open model_generate json_loads
               repair_json inp a in
  (length (requests_of out) ≤ 2)%nat
  ∧ (∀ text, FromText text ∈ requests_of out →
       ∃ bytes, uploaded_file inp = Some bytes
         ∧ text = extract_text_from_pdf (pdfplumber_open bytes)
         ∧ str_strip text ≠ EmptyString
         ∧ pdf_quiz a !! quiz_key_of (file_hash_of md5_hexdigest bytes) = None)
  ∧ (∀ topic, FromTopic topic ∈ requests_of out →
       auto_quiz a = None
       ∧ button_pressed (widgets inp) "New Topic" = false
       ∧ topic = default (random_choice (draw_first inp) CS_TOPICS)
                   (auto_topic a)).
Proof.
  cbv zeta.
  destruct (script_requests model_generate inp a)
    as (from_text & from_topic & -> & Htext & Htopic).
  split; [|split].
  - rewrite length_app.
    destruct Htext as [->|(bytes & _ & -> & _)];
      destruct Htopic as [->|(-> & _)]; cbn; lia.
  - intros text Hin. apply elem_of_app in Hin as [Hin|Hin].
    + destruct Htext as [->|(bytes & Hup & -> & Hne & Hmiss)];
        [apply elem_of_nil in Hin; destruct Hin|].
      apply list_elem_of_singleton in Hin. injection Hin as ->.
      exists bytes. auto.
    + destruct Htopic as [->|(-> & _)];
        [apply elem_of_nil in Hin; destruct Hin|].
      apply list_elem_of_singleton in Hin. discriminate.
  - intros topic Hin. apply elem_of_app in Hin as [Hin|Hin].
    + destruct Htext as [->|(bytes & Hup & -> & Hne & Hmiss)];
        [apply elem_of_nil in Hin; destruct Hin|].
      apply list_elem_of_singleton in Hin. discriminate.
    + destruct Htopic as [->|(-> & Hnone & Hb)];
        [apply elem_of_nil in Hin; destruct Hin|].
      apply list_elem_of_singleton in Hin. injection Hin as ->. auto.
Qed.

(** X19. A stored quiz is never regenerated or replaced: a pass of the
    script keeps the quiz of every uploaded document under its key, and
    keeps the daily quiz unless "New Topic" is pressed, in which case the
    daily quiz is dropped and the pass ends in a rerun. *)
Theorem stored_quizzes_kept (model_generate : request → res string)
    (inp : script_input) (a : app_state) :
  let out := script md5_hexdigest pdfplumber_open model_generate json_loads
               repair_json inp a in
  (∀ k q, pdf_quiz a !! k = Some q → pdf_quiz (state_of out) !! k = Some q)
  ∧ (∀ quiz, auto_quiz a = Some quiz →
       auto_quiz (state_of out) = Some quiz
       ∨ (button_pressed (widgets inp) "New Topic" = true
          ∧ auto_quiz (state_of out) = None ∧ ending_of out = Rerun)).
Proof. exact (script_keeps model_generate inp a). Qed.

(** X20. Uploading the same bytes again reuses the stored quiz. After a
    pass that gets past the sidebar with an uploaded file whose text is not
    blank, the quiz of that file is stored (the empty quiz, when the file
    was new and the model call raised); a later pass with the same bytes
    makes no request from a text and keeps that quiz, whatever the model
    would answer then. *)
Theorem second_upload_reuses_quiz (model1 model2 : request → res string)
    (inp1 inp2 : script_input) (a : app_state) (bytes : string) :
  uploaded_file inp1 = Some bytes →
  uploaded_file inp2 = Some bytes →
  sidebar_passes inp1 a →
  str_strip (extract_text_from_pdf (pdfplumber_open bytes)) ≠ EmptyString →
  let key := quiz_key_of (file_hash_of md5_hexdigest bytes) in
  let out1 := script md5_hexdigest pdfplumber_open model1 json_loads
                repair_json inp1 a in
  let out2 := script md5_hexdigest pdfplumber_open model2 json_loads
                repair_json inp2 (state_of out1) in
  ∃ quiz,
    pdf_quiz (state_of out1) !! key = Some quiz
    ∧ pdf_quiz (state_of out2) !! key = Some quiz
    ∧ (∀ text, FromText text ∉ requests_of out2)
    ∧ (∀ e, pdf_quiz a !! key = None →
            model1 (FromText (extract_text_from_pdf (pdfplumber_open bytes)))
              = Raise e →
            quiz = EMPTY_QUIZ).
Proof.
  intros Hup1 Hup2 Hside Htext. cbv zeta.
  assert (Hstored : ∃ quiz,
    pdf_quiz (state_of (script md5_hexdigest pdfplumber_open model1 json_loads
                          repair_json inp1 a))
      !! quiz_key_of (file_hash_of md5_hexdigest bytes) = Some quiz
    ∧ (∀ e, pdf_quiz a !! quiz_key_of (file_hash_of md5_hexdigest bytes) = None →
            model1 (FromText (extract_text_from_pdf (pdfplumber_open bytes)))
              = Raise e →
            quiz = EMPTY_QUIZ)).
  { pose proof (script_past_sidebar model1 inp1 a) as Hpast.
    cbv zeta in Hpast. unfold sidebar_passes in Hside. rewrite Hside in Hpast.
    destruct Hpast as (-> & _ & _).
    apply (quiz_sections_store model1 inp1
             (App (sidebar (widgets inp1) (session a)).1.1 (pdf_quiz a)
                (auto_topic a) (auto_quiz a)) bytes Hup1 Htext). }
  destruct Hstored as (quiz & Hk & Hfail).
  exists quiz. split; [exact Hk|]. split; [|split; [|exact Hfail]].
  - apply script_keeps, Hk.
  - intros text Hin.
    destruct (script_requests model2 inp2
                (state_of (script md5_hexdigest pdfplumber_open model1
                             json_loads repair_json inp1 a)))
      as (from_text & from_topic & Heq & Htxt & Htop).
    rewrite Heq in Hin. apply elem_of_app in Hin as [Hin|Hin].
    + destruct Htxt as [->|(bytes' & Hup & -> & _ & Hmiss)];
        [apply elem_of_nil in Hin; destruct Hin|].
      rewrite Hup2 in Hup. injection Hup as <-. congruence.
    + destruct Htop as [->|(-> & _)];
        [apply elem_of_nil in Hin; destruct Hin|].
      apply list_elem_of_singleton in Hin. discriminate.
Qed.

(** X21. "New Topic" resets the daily quiz and nothing else: the pass ends
    in a rerun without a request; a topic of the list is drawn and stored;
    the daily quiz, its answers and its submitted flag are dropped, while
    the history, the quizzes of the uploaded documents and the other
    instances stay. The next pass through the section asks the model once,
    for the new topic. *)
Theorem new_topic_resets_daily_quiz (model_generate : request → res string)
    (inp : script_input) (a : app_state) :
  button_pressed (widgets inp) "New Topic" = true →
  let out := auto_section model_generate json_loads repair_json inp a in
  let a' := state_of out in
  let topic := random_choice (draw_new inp) CS_TOPICS in
  (ending_of out = Rerun ∧ requests_of out = [])
  ∧ (auto_topic a' = Some topic ∧ topic ∈ CS_TOPICS)
  ∧ (auto_quiz a' = None
     ∧ user_answers (session a') !! "auto" = None
     ∧ submitted (session a') !! "auto" = None)
  ∧ (quiz_history (session a') = quiz_history (session a)
     ∧ pdf_quiz a' = pdf_quiz a
     ∧ ∀ k, k ≠ "auto" →
         user_answers (session a') !! k = user_answers (session a) !! k
         ∧ submitted (session a') !! k = submitted (session a) !! k)
  ∧ ∀ model2 inp2,
      button_pressed (widgets inp2) "New Topic" = false →
      requests_of (auto_section model2 json_loads repair_json inp2 a')
        = [FromTopic topic].
Proof.
  intros Hb. cbv zeta.
  assert (Hout : auto_section model_generate json_loads repair_json inp a =
            (App (Session (delete "auto" (user_answers (session a)))
                          (delete "auto" (submitted (session a)))
                          (quiz_history (session a)))
                 (pdf_quiz a)
                 (Some (random_choice (draw_new inp) CS_TOPICS))
                 None,
             [st_header "Daily CS Quiz"], [], Rerun))
    by (unfold auto_section; rewrite Hb; reflexivity).
  rewrite Hout. unfold state_of at 1 2 3 4 5 6 7 8, requests_of at 1, ending_of.
  cbn [fst snd session auto_topic auto_quiz pdf_quiz user_answers submitted
       quiz_history].
  split; [auto|]. split; [split; [reflexivity|apply random_choice_topic]|].
  split; [rewrite !lookup_delete_eq; auto|].
  split.
  - split; [reflexivity|]. split; [reflexivity|].
    intros k Hk. rewrite !lookup_delete_ne by congruence. auto.
  - intros model2 inp2 Hb2.
    pose proof (auto_section_facts model2 inp2
                  (state_of (auto_section model_generate json_loads repair_json
                               inp a))) as (_ & _ & Hold).
    destruct (Hold Hb2) as (_ & _ & Hcase). rewrite Hout in Hcase.
    apply Hcase.
Qed.

(** X22. The daily quiz is generated once per topic. After a pass through
    the section without "New Topic", a topic and a quiz are stored (the
    empty quiz, when the quiz was new and the model call raised); every
    later pass without "New Topic" makes no request and keeps both, so a
    failed generation is not retried. *)
Theorem daily_quiz_generated_once (model1 model2 : request → res string)
    (inp1 inp2 : script_input) (a : app_state) :
  button_pressed (widgets inp1) "New Topic" = false →
  button_pressed (widgets inp2) "New Topic" = false →
  let a1 := state_of (auto_section model1 json_loads repair_json inp1 a) in
  let out2 := auto_section model2 json_loads repair_json inp2 a1 in
  ∃ topic quiz,
    auto_topic a1 = Some topic ∧ auto_quiz a1 = Some quiz
    ∧ (auto_topic a = None → topic ∈ CS_TOPICS)
    ∧ (∀ e, auto_quiz a = None → model1 (FromTopic topic) = Raise e →
            quiz = EMPTY_QUIZ)
    ∧ requests_of out2 = []
    ∧ auto_topic (state_of out2) = Some topic
    ∧ auto_quiz (state_of out2) = Some quiz.
Proof.
  intros Hb1 Hb2. cbv zeta.
  pose proof (auto_section_facts model1 inp1 a) as (_ & _ & Hold1).
  destruct (Hold1 Hb1) as (Ht1 & _ & Hcase1).
  set (a1 := state_of (auto_section model1 json_loads repair_json inp1 a)) in *.
  assert (Hq1 : ∃ quiz, auto_quiz a1 = Some quiz
            ∧ ∀ e, auto_quiz a = None →
                   model1 (FromTopic (default (random_choice (draw_first inp1)
                                                 CS_TOPICS) (auto_topic a)))
                     = Raise e →
                   quiz = EMPTY_QUIZ).
  { destruct (auto_quiz a) as [quiz|].
    - exists quiz. split; [apply Hcase1|]. intros; discriminate.
    - destruct Hcase1 as (_ & quiz & Hq & Hfail). exists quiz. eauto. }
  destruct Hq1 as (quiz & Hq1 & Hfail).
  pose proof (auto_section_facts model2 inp2 a1) as (_ & _ & Hold2).
  destruct (Hold2 Hb2) as (Ht2 & _ & Hcase2).
  rewrite Hq1 in Hcase2. rewrite Ht1 in Ht2. cbn [default from_option id] in Ht2.
  eexists _, quiz. split; [exact Ht1|]. split; [exact Hq1|].
  split; [intros ->; apply random_choice_topic|].
  split; [exact Hfail|]. split; [apply Hcase2|]. split; [exact Ht2|apply Hcase2].
Qed.

End ScriptFacts.

Lemma second_upload_reuses_quiz_witness :
  let md5_hexdigest := λ _ : string, "9e107d9d372bb6826bd81d3542a419d6" in
  let pdfplumber_open := λ _ : string, Ok [Ok (Some "Stacks and queues")] in
  let inp := ScriptInput ui_idle (Some "%PDF-1.4") 0 0 in
  let out1 := script md5_hexdigest pdfplumber_open (λ _, Raise Unmodelled)
                StrictJson.loads StrictJson.repair_nothing inp
                (App fresh_session ∅ None None) in
  let out2 := script md5_hexdigest pdfplumber_open (λ _, Ok "[]")
                StrictJson.loads StrictJson.repair_nothing inp (state_of out1) in
  ∃ quiz,
    pdf_quiz (state_of out1) !! "pdf_9e107d9d" = Some quiz
    ∧ pdf_quiz (state_of out2) !! "pdf_9e107d9d" = Some quiz
    ∧ ∀ text, FromText text ∉ requests_of out2.
Proof.
  cbv zeta.
  destruct (second_upload_reuses_quiz
              (λ _ : string, "9e107d9d372bb6826bd81d3542a419d6")
              (λ _ : string, Ok [Ok (Some "Stacks and queues")])
              StrictJson.loads StrictJson.repair_nothing
              (λ _, Raise Unmodelled) (λ _, Ok "[]")
              (ScriptInput ui_idle (Some "%PDF-1.4") 0 0)
              (ScriptInput ui_idle (Some "%PDF-1.4") 0 0)
              (App fresh_session ∅ None None) "%PDF-1.4"
              eq_refl eq_refl eq_refl ltac:(vm_compute; discriminate))
    as (quiz & H1 & H2 & H3 & _).
  exists quiz. split; [exact H1|]. split; [exact H2|exact H3].
Defined.

Lemma new_topic_resets_daily_quiz_witness :
  let inp := ScriptInput (UiInput (λ _, None) (String.eqb "New Topic") "12:00")
               None 0 14 in
  let a := App (Session {["auto" := [JStr "A) 3"]]} {["auto" := true]}
                  [Attempt "Auto" "Automata Theory" "0/1" "11:00"])
             ∅ (Some "Automata Theory") (Some (JDict (quiz_of [q_sum]))) in
  let a' := state_of (auto_section (λ _, Raise Unmodelled) StrictJson.loads
                        StrictJson.repair_nothing inp a) in
  auto_topic a' = Some "Automata Theory"
  ∧ auto_quiz a' = None
  ∧ user_answers (session a') !! "auto" = None
  ∧ quiz_history (session a') = [Attempt "Auto" "Automata Theory" "0/1" "11:00"].
Proof.
  cbv zeta.
  destruct (new_topic_resets_daily_quiz StrictJson.loads
              StrictJson.repair_nothing (λ _, Raise Unmodelled)
              (ScriptInput (UiInput (λ _, None) (String.eqb "New Topic") "12:00")
                 None 0 14)
              (App (Session {["auto" := [JStr "A) 3"]]} {["auto" := true]}
                      [Attempt "Auto" "Automata Theory" "0/1" "11:00"])
                 ∅ (Some "Automata Theory") (Some (JDict (quiz_of [q_sum]))))
              eq_refl)
    as (_ & (Ht & _) & (Hq & Hua & _) & (Hh & _) & _).
  split; [exact Ht|]. split; [exact Hq|]. split; [exact Hua|exact Hh].
Defined.

Lemma daily_quiz_generated_once_witness :
  let inp := ScriptInput ui_idle None 6 0 in
  let a := App fresh_session ∅ None None in
  let a1 := state_of (auto_section (λ _, Raise Unmodelled) StrictJson.loads
                        StrictJson.repair_nothing inp a) in
  ∃ topic quiz,
    auto_topic a1 = Some topic ∧ auto_quiz a1 = Some quiz
    ∧ requests_of (auto_section (λ _, Ok "[]") StrictJson.loads
                   StrictJson.repair_nothing inp a1)
      = [].
Proof.
  cbv zeta.
  destruct (daily_quiz_generated_once StrictJson.loads
              StrictJson.repair_nothing (λ _, Raise Unmodelled) (λ _, Ok "[]")
              (ScriptInput ui_idle None 6 0) (ScriptInput ui_idle None 6 0)
              (App fresh_session ∅ None None) eq_refl eq_refl)
    as (topic & quiz & Ht & Hq & _ & _ & Hreq & _).
  exists topic, quiz. auto.
Defined.


(** ** The keys of the session state *)

Lemma app_inj_length (a b x y : string) :
  String.length a = String.length b → a +:+ x = b +:+ y → a = b ∧ x = y.
Proof.
  revert b. induction a as [|c a IH]; intros [|d b] Hlen Heq; try discriminate.
  - auto.
  - rewrite !app_cons_str in Heq. injection Heq as -> Heq.
    injection Hlen as Hlen. destruct (IH b Hlen Heq) as [-> ->]. auto.
Qed.

Lemma substring_length_exact (n : nat) (s : string) :
  (n ≤ String.length s)%nat → String.length (String.substring 0 n s) = n.
Proof.
  revert s. induction n as [|n IH]; intros [|c s] Hn; simpl in *;
    try reflexivity; try lia.
  rewrite IH by lia. reflexivity.
Qed.

Lemma pretty_N_go_digit (x : N) (s : string) :
  starts_with_digit s = true → starts_with_digit (pretty_N_go x s) = true.
Proof.
  revert s. induction (N.lt_wf_0 x) as [x _ IH]; intros s Hs.
  assert (x = 0 ∨ 0 < x)%N as [->|Hx] by lia.
  - rewrite pretty_N_go_0. exact Hs.
  - rewrite pretty_N_go_step by exact Hx. apply IH.
    + apply N.div_lt; lia.
    + unfold pretty_N_char. repeat case_match; reflexivity.
Qed.

Lemma pretty_nat_digit (n : nat) : starts_with_digit (pretty n) = true.
Proof.
  unfold pretty, pretty_nat, pretty, pretty_N.
  case_decide as Hn; [reflexivity|].
  rewrite pretty_N_go_step by lia. apply pretty_N_go_digit.
  unfold pretty_N_char. repeat case_match; reflexivity.
Qed.

Lemma pdf_key_inj (h h' suffix suffix' : string) :
  String.length h = 8%nat → String.length h' = 8%nat →
  quiz_key_of h +:+ suffix = quiz_key_of h' +:+ suffix' →
  h = h' ∧ suffix = suffix'.
Proof.
  intros Hh Hh' Heq. unfold quiz_key_of in Heq.
  rewrite !app_assoc_str in Heq. apply (inj (String.append "pdf_")) in Heq.
  apply app_inj_length in Heq; [exact Heq|congruence].
Qed.

Lemma pdf_key_inj_nil (h h' suffix' : string) :
  String.length h = 8%nat → String.length h' = 8%nat →
  quiz_key_of h = quiz_key_of h' +:+ suffix' →
  h = h' ∧ EmptyString = suffix'.
Proof.
  intros Hh Hh' Heq. apply pdf_key_inj; [exact Hh|exact Hh'|].
  rewrite app_nil_r_str. exact Heq.
Qed.

Lemma pretty_not_uiz (i : nat) : pretty i ≠ "uiz".
Proof.
  intros H. pose proof (pretty_nat_digit i) as Hd. rewrite H in Hd.
  discriminate.
Qed.

Ltac key_cases Heq :=
  first
    [ discriminate Heq
    | cbv [String.append] in Heq; discriminate Heq
    | cbv [String.append] in Heq; simplify_eq; reflexivity ].

(** X23. The keys of the session state never collide. For hashes of eight
    characters, two keys of the session state (the history, the daily
    topic and quiz, the quiz of a document, and the answers, the submitted
    flag, the radio widgets and the submit button of an instance) have the
    same name only when they are the same key. *)
Theorem session_keys_never_collide (k k' : state_key) :
  key_wf k = true → key_wf k' = true →
  key_name k = key_name k' → k = k'.
Proof.
  intros Hw Hw' Heq.
  destruct k as [| | |h|inst|inst|inst i|inst];
    destruct k' as [| | |h'|inst'|inst'|inst' i'|inst'];
    try destruct inst as [|h]; try destruct inst' as [|h'];
    cbn [key_wf instance_wf] in Hw, Hw';
    try apply Nat.eqb_eq in Hw; try apply Nat.eqb_eq in Hw';
    cbn [key_name prefix_of] in Heq;
    unfold user_answers_key, submitted_key, unique_key in Heq;
    try reflexivity.
  all: try (apply pdf_key_inj in Heq; [|assumption..];
            destruct Heq as [-> Heq]; key_cases Heq).
  all: try (apply pdf_key_inj_nil in Heq; [|assumption..];
            destruct Heq as [-> Heq]; key_cases Heq).
  all: try (symmetry in Heq; apply pdf_key_inj_nil in Heq; [|assumption..];
            destruct Heq as [-> Heq]; key_cases Heq).
  all: try (unfold quiz_key_of in Heq; key_cases Heq).
  all: try (cbv [String.append] in Heq; simplify_eq;
            match goal with
            | H : pretty _ = _ |- _ => destruct (pretty_not_uiz _ H)
            | H : _ = pretty _ |- _ => symmetry in H; destruct (pretty_not_uiz _ H)
            end).
  all: fail.
Qed.

Lemma session_keys_never_collide_witness :
  RadioOf (Pdf "9e107d9d") 12 = RadioOf (Pdf "9e107d9d") 12.
Proof.
  apply (session_keys_never_collide (RadioOf (Pdf "9e107d9d") 12)
           (RadioOf (Pdf "9e107d9d") 12)); reflexivity.
Defined.

(** The hash of an uploaded file has eight characters when the digest has
    at least eight (an MD5 digest in hexadecimal has 32). *)
Lemma file_hash_wf (md5_hexdigest : string → string) (bytes : string) :
  (8 ≤ String.length (md5_hexdigest bytes))%nat →
  key_wf (QuizOf (file_hash_of md5_hexdigest bytes)) = true.
Proof.
  intros Hlen. cbn [key_wf]. apply Nat.eqb_eq.
  unfold file_hash_of, str_slice. change (Z.to_nat 0) with 0%nat.
  change (Z.to_nat (8 - 0)) with 8%nat.
  apply substring_length_exact, Hlen.
Qed.

(** ** The history log under the script *)

Lemma display_history_effects (ui : ui_input) (quiz_data : json)
    (key_prefix topic quiz_type : string) (s : session_state) :
  let s' := session_of (display_interactive_quiz ui quiz_data key_prefix topic
                          quiz_type s) in
  appended_at_most_one (quiz_history s) (quiz_history s')
  ∧ (button_pressed ui (key_prefix +:+ "_submit") = false →
     quiz_history s' = quiz_history s).
Proof.
  unfold display_interactive_quiz, session_of, appended_at_most_one.
  destruct quiz_data as [| | | | |d]; try (cbn; auto).
  destruct (negb (py_truthy (dict_get "questions" (JList []) d))); [cbn; auto|].
  match goal with
  | |- context [match ?b with Ok _ => _ | Raise _ => _ end] =>
      destruct b as [ua|e]
  end; [|cbn; auto].
  match goal with
  | |- context [quiz_body ?u ?q ?k ?t ?ty ?r] =>
      pose proof (quiz_body_effects u q k t ty r) as (_ & Happ & _ & Hno & _);
      destruct (quiz_body u q k t ty r) as [res r']
  end.
  cbn [fst snd quiz_history history] in *. split; [exact Happ|].
  intros Hb. apply Hno, Hb.
Qed.

Section ScriptHistory.

Variable md5_hexdigest : string → string.
Variable pdfplumber_open : string → pdf_document.
Variable model_generate : request → res string.
Variable json_loads : string → res json.
Variable repair_json : string → res json.

Lemma upload_section_history (inp : script_input) (a : app_state) :
  let out := upload_section md5_hexdigest pdfplumber_open model_generate
               json_loads repair_json inp a in
  appended_at_most_one (quiz_history (session a))
    (quiz_history (session (state_of out)))
  ∧ ((∀ key, button_pressed (widgets inp) (key +:+ "_submit") = false) →
     quiz_history (session (state_of out)) = quiz_history (session a)).
Proof.
  cbv zeta. unfold upload_section.
  destruct (uploaded_file inp) as [bytes|]; [|cbn; split; [left|]; auto].
  destruct (str_truthy _); [|cbn; split; [left|]; auto].
  destruct (pdf_quiz a !! _) as [quiz|].
  - pose proof (display_history_effects (widgets inp) quiz
                  (quiz_key_of (file_hash_of md5_hexdigest bytes))
                  ("PDF (" +:+ file_hash_of md5_hexdigest bytes +:+ ")") "PDF"
                  (session a)) as (Happ & Hno).
    unfold session_of in *.
    destruct (display_interactive_quiz _ _ _ _ _ _) as [[result s'] page].
    cbn in *. split; [exact Happ|]. intros Hb. apply Hno, Hb.
  - destruct (generate_quiz_from_text _ _ _ _) as [quiz errors].
    pose proof (display_history_effects (widgets inp) quiz
                  (quiz_key_of (file_hash_of md5_hexdigest bytes))
                  ("PDF (" +:+ file_hash_of md5_hexdigest bytes +:+ ")") "PDF"
                  (session a)) as (Happ & Hno).
    unfold session_of in *.
    destruct (display_interactive_quiz _ _ _ _ _ _) as [[result s'] page].
    cbn in *. split; [exact Happ|]. intros Hb. apply Hno, Hb.
Qed.

Lemma auto_section_history (inp : script_input) (a : app_state) :
  let out := auto_section model_generate json_loads repair_json inp a in
  appended_at_most_one (quiz_history (session a))
    (quiz_history (session (state_of out)))
  ∧ ((∀ key, button_pressed (widgets inp) (key +:+ "_submit") = false) →
     quiz_history (session (state_of out)) = quiz_history (session a)).
Proof.
  cbv zeta. unfold auto_section.
  destruct (button_pressed (widgets inp) "New Topic"); [cbn; split; [left|]; auto|].
  set (topic := match auto_topic a with
                | Some topic => topic
                | None => random_choice (draw_first inp) CS_TOPICS
                end).
  destruct (auto_quiz a) as [quiz|].
  - pose proof (display_history_effects (widgets inp) quiz "auto" topic "Auto"
                  (session a)) as (Happ & Hno).
    unfold session_of in *.
    destruct (display_interactive_quiz _ _ _ _ _ _) as [[result s'] page].
    cbn in *. split; [exact Happ|]. intros Hb. apply Hno, Hb.
  - destruct (generate_quiz_from_topic _ _ _ _) as [quiz errors].
    pose proof (display_history_effects (widgets inp) quiz "auto" topic "Auto"
                  (session a)) as (Happ & Hno).
    unfold session_of in *.
    destruct (display_interactive_quiz _ _ _ _ _ _) as [[result s'] page].
    cbn in *. split; [exact Happ|]. intros Hb. apply Hno, Hb.
Qed.

(** X24. Over a pass of the script the history log is cleared or grows at
    its end. When the clear button is pressed on a non-empty log, the log
    is emptied and the pass ends there, in a rerun, before any section
    runs. Otherwise every earlier entry stays in place and at most two
    entries are added (one per quiz section), none when no submit button is
    pressed. *)
Theorem script_history_append_only (inp : script_input) (a : app_state) :
  let out := script md5_hexdigest pdfplumber_open model_generate json_loads
               repair_json inp a in
  let h := quiz_history (session a) in
  let h' := quiz_history (session (state_of out)) in
  (button_pressed (widgets inp) "Clear" = true → h ≠ [] →
   h' = [] ∧ ending_of out = Rerun ∧ requests_of out = [])
  ∧ (button_pressed (widgets inp) "Clear" = false ∨ h = [] →
     ∃ added, h' = h ++ added ∧ (length added ≤ 2)%nat
       ∧ ((∀ key, button_pressed (widgets inp) (key +:+ "_submit") = false) →
          added = [])).
Proof.
  cbv zeta.
  pose proof (script_past_sidebar md5_hexdigest pdfplumber_open json_loads
                repair_json model_generate inp a) as Hpast.
  cbv zeta in Hpast.
  assert (Hside : sidebar (widgets inp) (session a) =
            match quiz_history (session a) with
            | [] => (session a, [st_info "No attempts yet."], false)
            | _ =>
                if button_pressed (widgets inp) "Clear"
                then (history_clear (session a),
                      history_line <$> list_recent 5 (quiz_history (session a)),
                      true)
                else (session a,
                      history_line <$> list_recent 5 (quiz_history (session a)),
                      false)
            end).
  { unfold sidebar. destruct (quiz_history (session a)); reflexivity. }
  assert (Hsections : ∃ added,
    quiz_history
      (session (state_of (quiz_sections md5_hexdigest pdfplumber_open
                            model_generate json_loads repair_json inp a)))
      = quiz_history (session a) ++ added
    ∧ (length added ≤ 2)%nat
    ∧ ((∀ key, button_pressed (widgets inp) (key +:+ "_submit") = false) →
       added = [])).
  { unfold quiz_sections.
    pose proof (upload_section_history inp a) as (Happ2 & Hno2).
    destruct (upload_section _ _ _ _ _ inp a) as [[[a2 page2] requests2] ending2].
    unfold state_of in *. cbn [fst snd] in *.
    assert (Hfirst : ∃ added, quiz_history (session a2)
                      = quiz_history (session a) ++ added
                      ∧ (length added ≤ 1)%nat
                      ∧ ((∀ key, button_pressed (widgets inp)
                                   (key +:+ "_submit") = false) → added = [])).
    { destruct Happ2 as [Heq|[x Heq]].
      - exists []. rewrite app_nil_r. cbn. auto.
      - exists [x]. split; [exact Heq|]. split; [cbn; lia|].
        intros Hb. specialize (Hno2 Hb). rewrite Hno2 in Heq.
        apply (f_equal length) in Heq. rewrite length_app in Heq.
        cbn in Heq. lia. }
    destruct Hfirst as (added2 & Heq2 & Hlen2 & Hnone2).
    destruct ending2 as [| |e].
    2,3: cbn [fst snd]; exists added2; split; [exact Heq2|];
         split; [lia|exact Hnone2].
    pose proof (auto_section_history inp a2) as (Happ3 & Hno3).
    destruct (auto_section _ _ _ inp a2) as [[[a3 page3] requests3] ending3].
    unfold state_of in *. cbn [fst snd] in *.
    destruct Happ3 as [Heq|[x Heq]].
    - exists added2. rewrite Heq. split; [exact Heq2|]. split; [lia|exact Hnone2].
    - exists (added2 ++ [x]). rewrite Heq, Heq2, <- (assoc_L (++)).
      split; [reflexivity|]. split; [rewrite length_app; cbn; lia|].
      intros Hb. specialize (Hno3 Hb). rewrite Hno3 in Heq.
      apply (f_equal length) in Heq. rewrite length_app in Heq.
      cbn in Heq. lia. }
  assert (Ha : App (session a) (pdf_quiz a) (auto_topic a) (auto_quiz a) = a)
    by (destruct a; reflexivity).
  rewrite Hside in Hpast.
  destruct (quiz_history (session a)) as [|a0 h0] eqn:Hh.
  - cbn [fst snd] in Hpast. rewrite Ha in Hpast.
    destruct Hpast as (-> & _ & _).
    split; [congruence|]. intros _. exact Hsections.
  - destruct (button_pressed (widgets inp) "Clear"); cbn [fst snd] in Hpast.
    + destruct Hpast as (-> & -> & ->).
      split; [|intros [?|?]; congruence]. intros _ _. cbn. auto.
    + rewrite Ha in Hpast. destruct Hpast as (-> & _ & _).
      split; [discriminate|]. intros _. exact Hsections.
Qed.

End ScriptHistory.

(** ** Documents without text *)

Lemma read_pages_ok (pages : list pdf_page) (text : string) :
  existsb page_raises pages = false → ∃ t, read_pages pages text = Ok t.
Proof.
  revert text. induction pages as [|page pages IH]; intros text H.
  - exists text. reflexivity.
  - destruct page as [page_text|e]; [|discriminate].
    cbn in H. cbn [read_pages mbind res_bind]. apply IH, H.
Qed.

Lemma extract_text_message_raises (pdf_file : pdf_document) :
  extract_text_message pdf_file =
    if pdf_raises pdf_file then [st_error "Error reading PDF"] else [].
Proof.
  unfold extract_text_message, pdf_raises.
  destruct pdf_file as [pages|e]; [|reflexivity]. cbn [mbind res_bind].
  destruct (existsb page_raises pages) eqn:Hp.
  - destruct (read_pages_raises pages EmptyString Hp) as [e ->]. reflexivity.
  - destruct (read_pages_ok pages EmptyString Hp) as [t ->]. reflexivity.
Qed.

Lemma extract_text_raises (pdf_file : pdf_document) :
  pdf_raises pdf_file = true → extract_text_from_pdf pdf_file = EmptyString.
Proof.
  unfold extract_text_from_pdf, pdf_raises.
  destruct pdf_file as [pages|e]; [|reflexivity].
  intros H. cbn [mbind res_bind].
  destruct (read_pages_raises pages EmptyString H) as [e ->]. reflexivity.
Qed.

(** X25. A document without text blocks generation. When reading the
    uploaded file raises, or the text read from it is blank, the upload
    section shows the reading error (in the first case) and then "Could not
    extract text", calls neither the model nor the renderer, stores no
    quiz and leaves the state as it is. *)
Theorem unreadable_pdf_blocks_generation
    (md5_hexdigest : string → string) (pdfplumber_open : string → pdf_document)
    (model_generate : request → res string)
    (json_loads repair_json : string → res json)
    (inp : script_input) (a : app_state) (bytes : string) :
  uploaded_file inp = Some bytes →
  pdf_raises (pdfplumber_open bytes) = true
  ∨ str_strip (extract_text_from_pdf (pdfplumber_open bytes)) = EmptyString →
  upload_section md5_hexdigest pdfplumber_open model_generate json_loads
    repair_json inp a
  = (a,
     st_header "Upload CS PDF" :: st_spinner "Extracting text..."
       :: (if pdf_raises (pdfplumber_open bytes)
           then [Shown (st_error "Error reading PDF")] else [])
       ++ [Shown (st_error "Could not extract text. Use a text-based PDF.")],
     [], Completed).
Proof.
  intros Hup Hblank.
  assert (Htext : str_strip (extract_text_from_pdf (pdfplumber_open bytes))
                  = EmptyString).
  { destruct Hblank as [Hr|Hb]; [|exact Hb].
    rewrite (extract_text_raises _ Hr). reflexivity. }
  unfold upload_section. rewrite Hup, Htext. cbn [str_truthy].
  rewrite extract_text_message_raises.
  destruct (pdf_raises (pdfplumber_open bytes)); reflexivity.
Qed.

Lemma unreadable_pdf_blocks_generation_witness :
  upload_section (λ _, "9e107d9d372bb6826bd81d3542a419d6")
    (λ _, Ok [Ok (Some "Chapter 1"); Raise Unmodelled])
    (λ _, Ok "[]") StrictJson.loads StrictJson.repair_nothing
    (ScriptInput ui_idle (Some "%PDF-1.4") 0 0)
    (App fresh_session ∅ None None)
  = (App fresh_session ∅ None None,
     [st_header "Upload CS PDF"; st_spinner "Extracting text...";
      Shown (st_error "Error reading PDF");
      Shown (st_error "Could not extract text. Use a text-based PDF.")],
     [], Completed).
Proof.
  apply (unreadable_pdf_blocks_generation
           (λ _, "9e107d9d372bb6826bd81d3542a419d6")
           (λ _, Ok [Ok (Some "Chapter 1"); Raise Unmodelled])
           (λ _, Ok "[]") StrictJson.loads StrictJson.repair_nothing
           (ScriptInput ui_idle (Some "%PDF-1.4") 0 0)
           (App fresh_session ∅ None None) "%PDF-1.4" eq_refl).
  left. reflexivity.
Defined.

(** ** No index out of range *)

Ltac no_index_error :=
  repeat first
    [ progress cbn [fst snd answers is_submitted history screen
                    default from_option id py_in py_index py_len]
    | case_match
    | case_decide ];
  simplify_eq; try discriminate; try (cbn [answers] in *; lia).

Lemma render_question_no_index_error (ui : ui_input) (key_prefix : string)
    (i : nat) (q : json) (r : run) :
  (i - 1 < length (answers r))%nat →
  (render_question ui key_prefix i q r).1 ≠ Raise IndexError.
Proof.
  intros Hi. destruct (lookup_lt_is_Some_2 _ _ Hi) as [a Ha].
  unfold render_question.
  destruct q as [| | | |l|d]; try (run_monad; cbn; discriminate).
  cbn [py_get]. run_monad.
  destruct (py_eq (dict_get "type" JNull d) (JStr "MCQ")) eqn:Ht.
  - destruct (dict_get "options" (JList []) d) as [| | |t|opts|od] eqn:Ho;
      cbn [py_len]; try (cbn; discriminate).
    all: match goal with
         | |- context [(?n =? 4)%nat] => destruct (n =? 4)%nat
         end; cbn [fst snd].
    all: destruct (py_eq (dict_get "type" JNull d) (JStr "True/False"));
      cbn [fst snd]; try discriminate.
    all: unfold get_answer, set_answer; cbn [answers]; rewrite ?Ha;
      cbn [answers is_submitted history screen py_in py_index].
    all: no_index_error.
  - cbn [fst snd].
    destruct (py_eq (dict_get "type" JNull d) (JStr "True/False"));
      cbn [fst snd]; try discriminate.
    unfold get_answer, set_answer; cbn [answers]; rewrite ?Ha;
      cbn [answers is_submitted history screen].
    no_index_error.
Qed.

Lemma render_loop_no_index_error (ui : ui_input) (key_prefix : string)
    (qs : list json) (i : nat) (r : run) :
  (1 ≤ i)%nat →
  (i - 1 + length qs ≤ length (answers r))%nat →
  (for_each (render_question ui key_prefix) i qs r).1 ≠ Raise IndexError.
Proof.
  revert i r. induction qs as [|q qs IH]; intros i r Hi Hlen; [discriminate|].
  cbn [length] in Hlen. rewrite for_each_cons.
  pose proof (render_question_no_index_error ui key_prefix i q r ltac:(lia))
    as Hq.
  pose proof (render_question_renders ui key_prefix i q r) as (_ & _ & Hl & _).
  destruct (render_question ui key_prefix i q r) as [[[]|e] r1];
    cbn [fst snd] in *; [|exact Hq].
  apply IH; lia.
Qed.

Lemma count_correct_no_index_error (qs : list json) (i acc : nat) (r : run) :
  (1 ≤ i)%nat →
  (i - 1 + length qs ≤ length (answers r))%nat →
  (count_correct i qs acc r).1 ≠ Raise IndexError.
Proof.
  revert i acc. induction qs as [|q qs IH]; intros i acc Hi Hlen;
    [discriminate|].
  cbn [length] in Hlen.
  destruct (lookup_lt_is_Some_2 (answers r) (i - 1) ltac:(lia)) as [a Ha].
  cbn [count_correct]. run_monad. unfold get_answer. rewrite Ha.
  destruct q as [| | | | |d]; cbn [py_get fst]; try discriminate.
  apply IH; lia.
Qed.

Lemma show_feedback_no_index_error (qs : list json) (i acc : nat) (r : run) :
  (1 ≤ i)%nat →
  (i - 1 + length qs ≤ length (answers r))%nat →
  (show_feedback i qs acc r).1 ≠ Raise IndexError.
Proof.
  revert i acc r. induction qs as [|q qs IH]; intros i acc r Hi Hlen;
    [discriminate|].
  cbn [length] in Hlen.
  destruct (lookup_lt_is_Some_2 (answers r) (i - 1) ltac:(lia)) as [a Ha].
  cbn [show_feedback]. run_monad. unfold get_answer. rewrite Ha.
  destruct q as [| | | | |d]; cbn [py_get fst]; try discriminate.
  destruct (py_eq a (dict_get "answer" (JStr "") d));
    cbn [answers is_submitted history screen]; apply IH;
    cbn [answers]; lia.
Qed.

Lemma str_chars_length (s : string) : length (str_chars s) = String.length s.
Proof. induction s as [|c s IH]; [reflexivity|]. cbn. rewrite IH. reflexivity. Qed.

Lemma py_iter_len (v : json) (n : nat) :
  py_len v = Ok n → ∃ qs, py_iter v = Ok qs ∧ length qs = n.
Proof.
  destruct v as [| | |s|l|d]; cbn; intros H; try discriminate;
    injection H as <-; eexists; (split; [reflexivity|]).
  - apply str_chars_length.
  - reflexivity.
  - rewrite !length_fmap. reflexivity.
Qed.

(** Lines 214-268 never index [user_answers] out of range when it holds
    [len(questions)] slots. *)
Lemma quiz_body_no_index_error (ui : ui_input) (questions : json)
    (key_prefix topic quiz_type : string) (r : run) :
  py_len questions = Ok (length (answers r)) →
  (quiz_body ui questions key_prefix topic quiz_type r).1 ≠ Raise IndexError.
Proof.
  intros Hlen. destruct (py_iter_len _ _ Hlen) as (qs & Hiter & Hqs).
  unfold quiz_body. rewrite Hiter. run_monad.
  pose proof (render_loop_no_index_error ui key_prefix qs 1 r ltac:(lia)
                ltac:(lia)) as Hloop.
  pose proof (render_loop_frame ui key_prefix qs 1 r ltac:(lia))
    as (_ & _ & Hl & _).
  destruct (for_each (render_question ui key_prefix) 1 qs r) as [[[]|e] r1];
    cbn [fst snd] in *; [|exact Hloop].
  assert (Hsubmit :
    (on_submit ui questions qs key_prefix topic quiz_type r1).1
      ≠ Raise IndexError
    ∧ answers (on_submit ui questions qs key_prefix topic quiz_type r1).2
      = answers r1).
  { split; [|apply on_submit_effects].
    unfold on_submit. destruct (button_pressed ui _); [|discriminate].
    run_monad.
    pose proof (count_correct_no_index_error qs 1 0
                  (Run (answers r1) (Some true) (history r1) (screen r1))
                  ltac:(lia) ltac:(cbn [answers]; lia)) as Hc.
    pose proof (count_correct_state qs 1 0
                  (Run (answers r1) (Some true) (history r1) (screen r1)))
      as Hst.
    destruct (count_correct 1 qs 0 _) as [[c|e] r2]; cbn [fst snd] in *;
      [|congruence].
    rewrite Hlen. cbn. discriminate. }
  destruct Hsubmit as (Hs1 & Hs2).
  destruct (on_submit ui questions qs key_prefix topic quiz_type r1)
    as [[[]|e] r2]; cbn [fst snd] in *; [|exact Hs1].
  unfold show_results. run_monad.
  destruct (default false (is_submitted r2)); [|discriminate].
  pose proof (show_feedback_no_index_error qs 1 0 r2 ltac:(lia)
                ltac:(rewrite Hs2; lia)) as Hf.
  destruct (show_feedback 1 qs 0 r2) as [[c|e] r3]; cbn [fst snd] in *;
    [|congruence].
  rewrite Hlen. cbn [fst snd]. destruct (c =? _)%nat; discriminate.
Qed.

(** Lines 200-268: a run on an instance whose answers match the quiz raises
    no [IndexError] and leaves answers that match the quiz. *)
Lemma display_slots (ui : ui_input) (quiz : json)
    (key_prefix topic quiz_type : string) (s : session_state) :
  (∀ ua, user_answers s !! key_prefix = Some ua → slots_match quiz ua) →
  let out := display_interactive_quiz ui quiz key_prefix topic quiz_type s in
  result_of out ≠ Raise IndexError
  ∧ (∀ ua, user_answers (session_of out) !! key_prefix = Some ua →
           slots_match quiz ua)
  ∧ (∀ k, k ≠ key_prefix →
          user_answers (session_of out) !! k = user_answers s !! k).
Proof.
  intros Hua. cbv zeta. unfold display_interactive_quiz, result_of, session_of.
  destruct quiz as [| | | | |d]; try (cbn; split; [discriminate|auto]).
  destruct (negb (py_truthy (dict_get "questions" (JList []) d)));
    [cbn; split; [discriminate|auto]|].
  assert (Hbound :
    match (match user_answers s !! key_prefix with
           | Some ua => Ok ua
           | None => n ← py_len (dict_get "questions" (JList []) d);
                     mret (replicate n JNull)
           end) with
    | Ok ua => py_len (dict_get "questions" (JList []) d) = Ok (length ua)
    | Raise e => e ≠ IndexError
    end).
  { destruct (user_answers s !! key_prefix) as [ua|] eqn:Hk.
    - destruct (Hua ua eq_refl) as (d' & Hd & Hlen). injection Hd as <-.
      exact Hlen.
    - destruct (dict_get "questions" (JList []) d) as [| | |t|l|od]; cbn;
        try discriminate; rewrite length_replicate; reflexivity. }
  match goal with
  | |- context [match ?b with Ok _ => _ | Raise _ => _ end] =>
      destruct b as [ua|e]
  end.
  2:{ cbn. split; [congruence|auto]. }
  match goal with
  | |- context [quiz_body ?u ?q ?k ?t ?ty ?r] =>
      pose proof (quiz_body_no_index_error u q k t ty r Hbound) as Hno;
      pose proof (quiz_body_effects u q k t ty r) as (Hl & _);
      destruct (quiz_body u q k t ty r) as [res r']
  end.
  cbn [fst snd user_answers answers] in *.
  split; [exact Hno|]. split.
  - intros ua'. rewrite lookup_insert_eq. intros [= <-].
    exists d. split; [reflexivity|]. rewrite Hl. exact Hbound.
  - intros k Hk. apply lookup_insert_ne. congruence.
Qed.

Lemma quiz_key_not_auto (file_hash : string) :
  String.eqb (quiz_key_of file_hash) "auto" = false.
Proof. reflexivity. Qed.

Lemma ending_of_result_index (result : res unit) :
  result ≠ Raise IndexError → ending_of_result result ≠ Uncaught IndexError.
Proof. destruct result; cbn; congruence. Qed.

Lemma sidebar_keeps_answers (ui : ui_input) (s : session_state) :
  user_answers (sidebar ui s).1.1 = user_answers s.
Proof.
  unfold sidebar. destruct (quiz_history s); [reflexivity|].
  destruct (button_pressed ui "Clear"); reflexivity.
Qed.

Section ScriptInvariants.

Variable md5_hexdigest : string → string.
Variable pdfplumber_open : string → pdf_document.
Variable model_generate : request → res string.
Variable json_loads : string → res json.
Variable repair_json : string → res json.

(** The step shared by the two sections: a quiz is stored under the prefix
    and rendered. *)
Lemma render_stored_quiz_slots (ui : ui_input) (a : app_state) (quiz : json)
    (key_prefix topic quiz_type : string) (a' : app_state) :
  answers_match_quizzes a →
  (∀ ua, user_answers (session a) !! key_prefix = Some ua →
         slots_match quiz ua) →
  (∀ k, k ≠ key_prefix → quiz_of_instance a' k = quiz_of_instance a k) →
  quiz_of_instance a' key_prefix = Some quiz →
  let out := display_interactive_quiz ui quiz key_prefix topic quiz_type
               (session a) in
  session a' = session_of out →
  answers_match_quizzes a' ∧ result_of out ≠ Raise IndexError.
Proof.
  intros Hinv Hua Hother Hkey out Hs.
  destruct (display_slots ui quiz key_prefix topic quiz_type (session a) Hua)
    as (Hno & Hslots & Hframe).
  fold out in Hno, Hslots, Hframe. split; [|exact Hno].
  intros k ua Hk. rewrite Hs in Hk.
  destruct (decide (k = key_prefix)) as [->|Hne].
  - exists quiz. split; [exact Hkey|]. apply Hslots, Hk.
  - rewrite Hframe in Hk by exact Hne. rewrite Hother by exact Hne.
    apply Hinv, Hk.
Qed.

Lemma upload_section_slots (inp : script_input) (a : app_state) :
  answers_match_quizzes a →
  let out := upload_section md5_hexdigest pdfplumber_open model_generate
               json_loads repair_json inp a in
  answers_match_quizzes (state_of out)
  ∧ ending_of out ≠ Uncaught IndexError.
Proof.
  intros Hinv. cbv zeta. unfold upload_section.
  destruct (uploaded_file inp) as [bytes|]; [|cbn; split; [exact Hinv|discriminate]].
  destruct (str_truthy _); [|cbn; split; [exact Hinv|discriminate]].
  set (key := quiz_key_of (file_hash_of md5_hexdigest bytes)).
  set (topic := "PDF (" +:+ file_hash_of md5_hexdigest bytes +:+ ")").
  assert (Hkey : ∀ a0, quiz_of_instance a0 key = pdf_quiz a0 !! key).
  { intros a0. unfold quiz_of_instance, key. rewrite quiz_key_not_auto.
    reflexivity. }
  destruct (pdf_quiz a !! key) as [quiz|] eqn:Hk.
  - pose proof (render_stored_quiz_slots (widgets inp) a quiz key topic "PDF"
                  (App (session_of (display_interactive_quiz (widgets inp) quiz
                                      key topic "PDF" (session a)))
                       (pdf_quiz a) (auto_topic a) (auto_quiz a)) Hinv)
      as Hstep.
    destruct Hstep as (Hinv' & Hno).
    + intros ua Hua. destruct (Hinv key ua Hua) as (quiz' & Hq & Hm).
      rewrite Hkey, Hk in Hq. injection Hq as <-. exact Hm.
    + intros k _. reflexivity.
    + rewrite Hkey. exact Hk.
    + reflexivity.
    + unfold session_of, result_of in *.
      destruct (display_interactive_quiz _ _ _ _ _ _) as [[result s'] page].
      cbn [fst snd] in *. unfold state_of, ending_of. cbn [fst snd].
      split; [exact Hinv'|apply ending_of_result_index, Hno].
  - destruct (generate_quiz_from_text _ _ _ _) as [quiz errors].
    pose proof (render_stored_quiz_slots (widgets inp) a quiz key topic "PDF"
                  (App (session_of (display_interactive_quiz (widgets inp) quiz
                                      key topic "PDF" (session a)))
                       (<[key := quiz]> (pdf_quiz a)) (auto_topic a)
                       (auto_quiz a)) Hinv)
      as Hstep.
    destruct Hstep as (Hinv' & Hno).
    + intros ua Hua. destruct (Hinv key ua Hua) as (quiz' & Hq & Hm).
      rewrite Hkey, Hk in Hq. discriminate.
    + intros k Hne. unfold quiz_of_instance. cbn [auto_quiz pdf_quiz].
      destruct (String.eqb k "auto"); [reflexivity|].
      apply lookup_insert_ne. congruence.
    + rewrite Hkey. apply lookup_insert_eq.
    + reflexivity.
    + unfold session_of, result_of in *.
      destruct (display_interactive_quiz _ _ _ _ _ _) as [[result s'] page].
      cbn [fst snd] in *. unfold state_of, ending_of. cbn [fst snd].
      split; [exact Hinv'|apply ending_of_result_index, Hno].
Qed.

Lemma auto_section_slots (inp : script_input) (a : app_state) :
  answers_match_quizzes a →
  let out := auto_section model_generate json_loads repair_json inp a in
  answers_match_quizzes (state_of out)
  ∧ ending_of out ≠ Uncaught IndexError.
Proof.
  intros Hinv. cbv zeta. unfold auto_section.
  destruct (button_pressed (widgets inp) "New Topic").
  { unfold state_of, ending_of. cbn [fst snd]. split; [|discriminate].
    intros k ua Hk. cbn [session user_answers] in Hk.
    destruct (decide (k = "auto")) as [->|Hne].
    - rewrite lookup_delete_eq in Hk. discriminate.
    - rewrite lookup_delete_ne in Hk by congruence.
      destruct (Hinv k ua Hk) as (quiz & Hq & Hm). exists quiz.
      split; [|exact Hm]. unfold quiz_of_instance in *.
      cbn [auto_quiz pdf_quiz].
      destruct (String.eqb_spec k "auto"); [contradiction|exact Hq]. }
  set (topic := match auto_topic a with
                | Some topic => topic
                | None => random_choice (draw_first inp) CS_TOPICS
                end).
  assert (Hstep : ∀ quiz,
            (auto_quiz a = None ∨ auto_quiz a = Some quiz) →
            answers_match_quizzes
              (App (session_of (display_interactive_quiz (widgets inp) quiz
                                  "auto" topic "Auto" (session a)))
                   (pdf_quiz a) (Some topic) (Some quiz))
            ∧ result_of (display_interactive_quiz (widgets inp) quiz "auto"
                           topic "Auto" (session a)) ≠ Raise IndexError).
  { intros quiz Hq.
    apply (render_stored_quiz_slots (widgets inp) a quiz "auto" topic "Auto" _
             Hinv).
    - intros ua Hua. destruct (Hinv "auto" ua Hua) as (quiz' & Hq' & Hm).
      unfold quiz_of_instance in Hq'. cbn in Hq'.
      destruct Hq as [Hq|Hq]; rewrite Hq in Hq'; [discriminate|].
      injection Hq' as <-. exact Hm.
    - intros k Hne. unfold quiz_of_instance. cbn [auto_quiz pdf_quiz].
      destruct (String.eqb_spec k "auto"); [contradiction|reflexivity].
    - reflexivity.
    - reflexivity. }
  destruct (auto_quiz a) as [quiz|] eqn:Hq.
  - destruct (Hstep quiz (or_intror eq_refl)) as (Hinv' & Hno).
    unfold session_of, result_of in *.
    destruct (display_interactive_quiz _ _ _ _ _ _) as [[result s'] page].
    cbn [fst snd] in *. unfold state_of, ending_of. cbn [fst snd].
    split; [exact Hinv'|apply ending_of_result_index, Hno].
  - destruct (generate_quiz_from_topic _ _ _ _) as [quiz errors].
    destruct (Hstep quiz (or_introl eq_refl)) as (Hinv' & Hno).
    unfold session_of, result_of in *.
    destruct (display_interactive_quiz _ _ _ _ _ _) as [[result s'] page].
    cbn [fst snd] in *. unfold state_of, ending_of. cbn [fst snd].
    split; [exact Hinv'|apply ending_of_result_index, Hno].
Qed.

(** X26. [user_answers] is never indexed out of range. That every stored
    list of answers belongs to a stored quiz and holds [len(questions)]
    slots is an invariant of the script: it holds of the empty state, and a
    pass from a state where it holds ends in a state where it holds,
    without an [IndexError], whatever the model returns and the user does. *)
Theorem answers_never_out_of_range (inp : script_input) (a : app_state) :
  answers_match_quizzes (App fresh_session ∅ None None)
  ∧ (answers_match_quizzes a →
     let out := script md5_hexdigest pdfplumber_open model_generate json_loads
                  repair_json inp a in
     answers_match_quizzes (state_of out)
     ∧ ending_of out ≠ Uncaught IndexError).
Proof.
  split.
  { intros k ua Hk. cbn in Hk. rewrite lookup_empty in Hk. discriminate. }
  intros Hinv. cbv zeta.
  pose proof (script_past_sidebar md5_hexdigest pdfplumber_open json_loads
                repair_json model_generate inp a) as Hpast.
  cbv zeta in Hpast.
  set (a1 := App (sidebar (widgets inp) (session a)).1.1 (pdf_quiz a)
               (auto_topic a) (auto_quiz a)) in *.
  assert (Hinv1 : answers_match_quizzes a1).
  { intros k ua Hk. subst a1. cbn [session] in Hk.
    rewrite sidebar_keeps_answers in Hk. apply Hinv, Hk. }
  destruct (sidebar (widgets inp) (session a)).2.
  - destruct Hpast as (-> & _ & ->). split; [exact Hinv1|discriminate].
  - destruct Hpast as (-> & _ & ->). clear Hinv. unfold quiz_sections.
    pose proof (upload_section_slots inp a1 Hinv1) as (Hinv2 & Hno2).
    destruct (upload_section _ _ _ _ _ inp a1)
      as [[[a2 page2] requests2] ending2].
    unfold state_of, ending_of in *. cbn [fst snd] in *.
    destruct ending2 as [| |e]; cbn [fst snd]; try (split; assumption).
    pose proof (auto_section_slots inp a2 Hinv2) as (Hinv3 & Hno3).
    destruct (auto_section _ _ _ inp a2) as [[[a3 page3] requests3] ending3].
    unfold state_of, ending_of in *. cbn [fst snd] in *. split; assumption.
Qed.

End ScriptInvariants.

(** ** The quiz data error is never shown *)

Lemma forallb_weaken {A} (P Q : A → bool) (l : list A) :
  (∀ x, P x = true → Q x = true) → forallb P l = true → forallb Q l = true.
Proof.
  intros HPQ. rewrite !forallb_forall. intros H x Hx. apply HPQ, H, Hx.
Qed.

Lemma on_submit_screen (ui : ui_input) (questions : json) (qs : list json)
    (key_prefix topic quiz_type : string) (r : run) :
  screen (on_submit ui questions qs key_prefix topic quiz_type r).2 = screen r.
Proof.
  unfold on_submit. destruct (button_pressed ui (key_prefix +:+ "_submit"));
    [|reflexivity].
  run_monad.
  pose proof (count_correct_state qs 1 0
                (Run (answers r) (Some true) (history r) (screen r))) as Hc.
  destruct (count_correct 1 qs 0 _) as [[c|e] r2]; cbn [snd] in Hc; subst r2;
    [|reflexivity].
  destruct (py_len questions); reflexivity.
Qed.

Lemma show_results_kinds (questions : json) (qs : list json) (r : run) :
  ∃ evs, screen (show_results questions qs r).2 = screen r ++ evs
         ∧ forallb is_quiz_event evs = true.
Proof.
  unfold show_results. run_monad.
  destruct (default false (is_submitted r)).
  2:{ exists []. cbn. rewrite app_nil_r. auto. }
  destruct (show_feedback_kinds qs 1 0 r) as (fb & Hst & Hk).
  assert (Hk' : forallb is_quiz_event fb = true).
  { revert Hk. apply forallb_weaken. intros e He. unfold is_quiz_event.
    rewrite He, orb_true_r. reflexivity. }
  destruct (show_feedback 1 qs 0 r) as [[c|e] r3]; cbn [snd] in Hst; subst r3.
  2:{ exists fb. cbn. auto. }
  destruct (py_len questions) as [total|e];
    cbn [answers is_submitted history screen snd].
  2:{ exists fb. cbn. auto. }
  destruct (c =? total)%nat; cbn [snd screen]; eexists;
    (split; [rewrite <- !(assoc_L (++)); reflexivity|]);
    rewrite forallb_app, Hk'; reflexivity.
Qed.

Lemma quiz_body_kinds (ui : ui_input) (questions : json)
    (key_prefix topic quiz_type : string) (r : run) :
  ∃ evs, screen (quiz_body ui questions key_prefix topic quiz_type r).2
           = screen r ++ evs
         ∧ forallb is_quiz_event evs = true.
Proof.
  unfold quiz_body. run_monad.
  destruct (py_iter questions) as [qs|e].
  2:{ exists []. cbn. rewrite app_nil_r. auto. }
  destruct (render_loop_kinds ui key_prefix qs 1 r) as (evs1 & Hs1 & Hk1).
  assert (Hk1' : forallb is_quiz_event evs1 = true).
  { revert Hk1. apply forallb_weaken. intros e He. unfold is_quiz_event.
    rewrite He. reflexivity. }
  destruct (for_each (render_question ui key_prefix) 1 qs r) as [[[]|e] r1];
    cbn [snd] in *.
  2:{ exists evs1. auto. }
  pose proof (on_submit_screen ui questions qs key_prefix topic quiz_type r1)
    as Hs2.
  destruct (on_submit ui questions qs key_prefix topic quiz_type r1)
    as [[[]|e] r2]; cbn [snd] in *.
  2:{ exists evs1. rewrite Hs2. auto. }
  destruct (show_results_kinds questions qs r2) as (evs3 & Hs3 & Hk3).
  exists (evs1 ++ evs3). rewrite Hs3, Hs2, Hs1, <- (assoc_L (++)).
  split; [reflexivity|]. rewrite forallb_app, Hk1', Hk3. reflexivity.
Qed.

(** Lines 205-268: what a run on a [dict] shows. *)
Lemma display_dict_page (ui : ui_input) (d : list (string * json))
    (key_prefix topic quiz_type : string) (s : session_state) :
  forallb is_quiz_event
    (page_of (display_interactive_quiz ui (JDict d) key_prefix topic quiz_type s))
  = true.
Proof.
  unfold display_interactive_quiz, page_of.
  destruct (negb (py_truthy (dict_get "questions" (JList []) d)));
    [reflexivity|].
  match goal with
  | |- context [match ?b with Ok _ => _ | Raise _ => _ end] =>
      destruct b as [ua|e]
  end; [|reflexivity].
  match goal with
  | |- context [quiz_body ?u ?q ?k ?t ?ty ?r] =>
      destruct (quiz_body_kinds u q k t ty r) as (evs & Hs & Hk);
      destruct (quiz_body u q k t ty r) as [res r']
  end.
  cbn [fst snd screen] in *. rewrite Hs. exact Hk.
Qed.

Lemma quiz_events_no_shape_error (evs : list ui_event) :
  forallb is_quiz_event evs = true →
  existsb is_shape_error (Shown <$> evs) = false.
Proof.
  induction evs as [|e evs IH]; [reflexivity|]. cbn [forallb].
  intros [He Hk]%andb_true_iff. cbn [fmap list_fmap existsb].
  rewrite (IH Hk), orb_false_r. destruct e; try reflexivity; discriminate.
Qed.

Lemma generated_quiz_is_dict (model_generate : request → res string)
    (json_loads repair_json : string → res json) (req : request) :
  let out :=
    match req with
    | FromText text =>
        generate_quiz_from_text model_generate json_loads repair_json text
    | FromTopic topic =>
        generate_quiz_from_topic model_generate json_loads repair_json topic
    end in
  is_dict out.1 = true
  ∧ existsb is_shape_error (Shown <$> out.2) = false.
Proof.
  destruct req as [text|topic]; cbv zeta;
    unfold generate_quiz_from_text, generate_quiz_from_topic;
    destruct (model_generate _) as [response_text|e]; cbn [fst snd];
    try (split; reflexivity).
  all: rewrite parse_unfold;
    destruct (parse_json_str json_loads repair_json _) as [parsed|e'];
    [|split; reflexivity];
    destruct (normalize_shape_has_key parsed) as (d & -> & _);
    split; reflexivity.
Qed.

Lemma sidebar_no_shape_error (ui : ui_input) (s : session_state) :
  existsb is_shape_error (Shown <$> (sidebar ui s).1.2) = false.
Proof.
  assert (Hlines : ∀ l : list attempt,
            existsb is_shape_error (Shown <$> (history_line <$> l)) = false).
  { induction l as [|x l IH]; [reflexivity|]. cbn. exact IH. }
  unfold sidebar. destruct (quiz_history s); [reflexivity|].
  destruct (button_pressed ui "Clear"); cbn [fst snd]; apply Hlines.
Qed.

Section ScriptShape.

Variable md5_hexdigest : string → string.
Variable pdfplumber_open : string → pdf_document.
Variable model_generate : request → res string.
Variable json_loads : string → res json.
Variable repair_json : string → res json.

Lemma upload_section_shape (inp : script_input) (a : app_state) :
  quizzes_are_dicts a →
  let out := upload_section md5_hexdigest pdfplumber_open model_generate
               json_loads repair_json inp a in
  quizzes_are_dicts (state_of out)
  ∧ existsb is_shape_error (shown_of out) = false.
Proof.
  intros [Hpdf Hauto]. cbv zeta. unfold upload_section.
  destruct (uploaded_file inp) as [bytes|]; [|cbn; split; [split|]; auto].
  assert (Hmsg : existsb is_shape_error
                   (Shown <$> extract_text_message (pdfplumber_open bytes))
                 = false).
  { rewrite extract_text_message_raises.
    destruct (pdf_raises (pdfplumber_open bytes)); reflexivity. }
  destruct (str_truthy _).
  2:{ unfold state_of, shown_of. cbn [fst snd]. split; [split; auto|].
      cbn [existsb is_shape_error app]. rewrite existsb_app, Hmsg.
      reflexivity. }
  set (key := quiz_key_of (file_hash_of md5_hexdigest bytes)).
  destruct (pdf_quiz a !! key) as [quiz|] eqn:Hk.
  - pose proof (Hpdf key quiz Hk) as Hd.
    destruct quiz as [| | | | |d]; try discriminate.
    pose proof (display_dict_page (widgets inp) d key
                  ("PDF (" +:+ file_hash_of md5_hexdigest bytes +:+ ")") "PDF"
                  (session a)) as Hpage.
    unfold page_of in Hpage.
    destruct (display_interactive_quiz _ _ _ _ _ _) as [[result s'] page].
    unfold state_of, shown_of. cbn [fst snd] in *. split; [split; auto|].
    cbn [existsb is_shape_error app]. rewrite !existsb_app, Hmsg.
    rewrite (quiz_events_no_shape_error _ Hpage). reflexivity.
  - pose proof (generated_quiz_is_dict model_generate json_loads repair_json
                  (FromText (extract_text_from_pdf (pdfplumber_open bytes))))
      as (Hd & Herr).
    cbv zeta in Hd, Herr.
    destruct (generate_quiz_from_text _ _ _ _) as [quiz errors].
    cbn [fst snd] in Hd, Herr.
    destruct quiz as [| | | | |d]; try discriminate.
    pose proof (display_dict_page (widgets inp) d key
                  ("PDF (" +:+ file_hash_of md5_hexdigest bytes +:+ ")") "PDF"
                  (session a)) as Hpage.
    unfold page_of in Hpage.
    destruct (display_interactive_quiz _ _ _ _ _ _) as [[result s'] page].
    unfold state_of, shown_of. cbn [fst snd] in *. split.
    + split; [|exact Hauto]. cbn [pdf_quiz]. intros k quiz Hq.
      destruct (decide (k = key)) as [->|Hne].
      * rewrite lookup_insert_eq in Hq. injection Hq as <-. reflexivity.
      * rewrite lookup_insert_ne in Hq by congruence. eapply Hpdf, Hq.
    + cbn [existsb is_shape_error app]. rewrite !existsb_app, Hmsg.
      cbn [existsb is_shape_error app]. rewrite existsb_app, Herr.
      rewrite (quiz_events_no_shape_error _ Hpage). reflexivity.
Qed.

Lemma auto_section_shape (inp : script_input) (a : app_state) :
  quizzes_are_dicts a →
  let out := auto_section model_generate json_loads repair_json inp a in
  quizzes_are_dicts (state_of out)
  ∧ existsb is_shape_error (shown_of out) = false.
Proof.
  intros [Hpdf Hauto]. cbv zeta. unfold auto_section.
  destruct (button_pressed (widgets inp) "New Topic").
  { unfold state_of, shown_of. cbn [fst snd]. split; [split|reflexivity].
    - exact Hpdf.
    - cbn. discriminate. }
  set (topic := match auto_topic a with
                | Some topic => topic
                | None => random_choice (draw_first inp) CS_TOPICS
                end).
  destruct (auto_quiz a) as [quiz|] eqn:Hq.
  - pose proof (Hauto quiz eq_refl) as Hd.
    destruct quiz as [| | | | |d]; try discriminate.
    pose proof (display_dict_page (widgets inp) d "auto" topic "Auto"
                  (session a)) as Hpage.
    unfold page_of in Hpage.
    destruct (display_interactive_quiz _ _ _ _ _ _) as [[result s'] page].
    unfold state_of, shown_of. cbn [fst snd] in *. split.
    + split; [exact Hpdf|]. cbn. intros quiz [= <-]. reflexivity.
    + cbn [existsb is_shape_error app].
      rewrite (quiz_events_no_shape_error _ Hpage). reflexivity.
  - pose proof (generated_quiz_is_dict model_generate json_loads repair_json
                  (FromTopic topic)) as (Hd & Herr).
    cbv zeta in Hd, Herr.
    destruct (generate_quiz_from_topic _ _ _ _) as [quiz errors].
    cbn [fst snd] in Hd, Herr.
    destruct quiz as [| | | | |d]; try discriminate.
    pose proof (display_dict_page (widgets inp) d "auto" topic "Auto"
                  (session a)) as Hpage.
    unfold page_of in Hpage.
    destruct (display_interactive_quiz _ _ _ _ _ _) as [[result s'] page].
    unfold state_of, shown_of. cbn [fst snd] in *. split.
    + split; [exact Hpdf|]. cbn. intros quiz [= <-]. reflexivity.
    + cbn [existsb is_shape_error app]. rewrite existsb_app, Herr.
      rewrite (quiz_events_no_shape_error _ Hpage). reflexivity.
Qed.

(** X27. The renderer's "Quiz data error." branch is dead code under the
    script. That every stored quiz is a [dict] is an invariant of the
    script: it holds of the empty state, and a pass from a state where it
    holds ends in a state where it holds and never shows that message. *)
Theorem shape_error_never_shown (inp : script_input) (a : app_state) :
  quizzes_are_dicts (App fresh_session ∅ None None)
  ∧ (quizzes_are_dicts a →
     let out := script md5_hexdigest pdfplumber_open model_generate json_loads
                  repair_json inp a in
     quizzes_are_dicts (state_of out)
     ∧ existsb is_shape_error (shown_of out) = false).
Proof.
  split.
  { split; cbn; [intros k quiz Hk; rewrite lookup_empty in Hk|intros quiz Hk];
      discriminate. }
  intros Hinv. cbv zeta. unfold script.
  pose proof (sidebar_no_shape_error (widgets inp) (session a)) as Hside.
  destruct (sidebar (widgets inp) (session a)) as [[s1 lines] rerun].
  cbn [fst snd] in Hside.
  set (a1 := App s1 (pdf_quiz a) (auto_topic a) (auto_quiz a)).
  assert (Hinv1 : quizzes_are_dicts a1) by exact Hinv.
  destruct rerun.
  { unfold state_of, shown_of. cbn [fst snd]. split; [exact Hinv1|].
    cbn [existsb is_shape_error]. exact Hside. }
  unfold quiz_sections.
  pose proof (upload_section_shape inp a1 Hinv1) as (Hinv2 & Hp2).
  destruct (upload_section _ _ _ _ _ inp a1) as [[[a2 page2] requests2] ending2].
  unfold state_of, shown_of in *. cbn [fst snd] in *.
  destruct ending2 as [| |e]; cbn [fst snd].
  2,3: split; [exact Hinv2|]; cbn [existsb is_shape_error app];
       rewrite existsb_app, Hside; exact Hp2.
  pose proof (auto_section_shape inp a2 Hinv2) as (Hinv3 & Hp3).
  destruct (auto_section _ _ _ inp a2) as [[[a3 page3] requests3] ending3].
  unfold state_of, shown_of in *. cbn [fst snd] in *.
  split; [exact Hinv3|]. cbn [existsb is_shape_error app].
  rewrite existsb_app, Hside. cbn [existsb is_shape_error app].
  rewrite existsb_app, Hp2, Hp3. reflexivity.
Qed.

End ScriptShape.
